(** * knowledge/views.py: ingestion, deletion and conversational retrieval

    A shallow embedding of the three request handlers of
    [knowledge/views.py] ([KnowledgeView.post], [KnowledgeView.delete] and
    [KnowledgeRetrieveView.post]) as programs of a state-and-exception
    monad over an explicit [World]: the process environment, the staging
    directories, the blob bucket, the vector store and catalog tables, the
    chat-history store and a log of the calls made to the collaborators. *)

From stdpp Require Import gmap strings list fin_maps.
From Stdlib Require Import ZArith Ascii Sorted.

Local Open Scope string_scope.
Local Open Scope list_scope.

(** ** Strings: the standard-library calls made on the file name

    A [string] is the UTF-8 encoding of a Python [str]: ASCII characters
    are the bytes below 128, and no byte of another character is below
    128, so looking for '.' or '/' gives the same cut on the bytes as on
    the characters. *)

Module PyStr.

(** Suffix of [s] that starts at the last occurrence of [c] ([str.rfind]
    followed by a slice), [None] when [c] does not occur. *)
Fixpoint rsuffix (c : ascii) (s : string) : option string :=
  match s with
  | EmptyString => None
  | String a r =>
      match rsuffix c r with
      | Some t => Some t
      | None => if Ascii.eqb a c then Some s else None
      end
  end.

Definition basename (p : string) : string :=
  match rsuffix "/" p with
  | Some (String _ r) => r
  | _ => p
  end.

Fixpoint skip_dots (s : string) : string :=
  match s with
  | String a r => if Ascii.eqb a "." then skip_dots r else s
  | EmptyString => EmptyString
  end.

(** Second component of [os.path.splitext]: the extension starts at the
    last dot of the last path component, leading dots of that component
    not counting. *)
Definition splitext_ext (p : string) : string :=
  match rsuffix "." (skip_dots (basename p)) with
  | Some e => e
  | None => EmptyString
  end.

Definition lower_ascii (a : ascii) : ascii :=
  let n := nat_of_ascii a in
  if (65 <=? n)%nat && (n <=? 90)%nat then ascii_of_nat (n + 32) else a.

(** A-Z to a-z, byte by byte. *)
Fixpoint ascii_lower (s : string) : string :=
  match s with
  | EmptyString => EmptyString
  | String a r => String (lower_ascii a) (ascii_lower r)
  end.

(** [str.isascii] *)
Fixpoint isascii (s : string) : bool :=
  match s with
  | EmptyString => true
  | String a r => (nat_of_ascii a <? 128)%nat && isascii r
  end.

(** [str.lower]: on ASCII text it maps A-Z to a-z and nothing else; on
    any other text it follows the case mappings of the Unicode database,
    [unicode_lower], of which nothing is assumed. *)
Definition lower (unicode_lower : string -> string) (s : string) : string :=
  if isascii s then ascii_lower s else unicode_lower s.

(** [str(n)] for a natural number. *)
Fixpoint of_nat_digits (fuel n : nat) (acc : string) : string :=
  match fuel with
  | 0 => acc
  | S fuel' =>
      let acc' := String (ascii_of_nat (48 + n mod 10)) acc in
      if (n <? 10)%nat then acc' else of_nat_digits fuel' (n / 10) acc'
  end.

Definition of_nat (n : nat) : string := of_nat_digits (S n) n EmptyString.

(** [sep.join(parts)] *)
Fixpoint join (sep : string) (parts : list string) : string :=
  match parts with
  | [] => EmptyString
  | [p] => p
  | p :: rest => p +:+ sep +:+ join sep rest
  end.

End PyStr.

(** ** Data model *)

(** A row of the vector engine's collection table ([vector_db.models.Collection]). *)
Record Collection := mkCollection { uuid : string; name : string }.

(** A row of [knowledge.models.Knowledge]. *)
Record Knowledge := mkKnowledge { url : string; collection_id : string }.

(** A chat message: the role is the constructor. *)
Inductive Message :=
| SystemMessage (content : string)
| HumanMessage (content : string)
| AIMessage (content : string).

(** The file of a multipart upload. *)
Record UploadedFile := mkFile { file_name : string; file_body : string }.

(** [request.data] *)
Record Request := mkRequest {
  fields : gmap string string;
  upload : option UploadedFile
}.

Record CreateData := mkCreateData { cd_file : UploadedFile; cd_openai_api_key : string }.
Record DeleteData := mkDeleteData { dd_url : string; dd_openai_api_key : string }.
Record RetrieveData := mkRetrieveData {
  rd_question : string;
  rd_openai_api_key : string;
  rd_user_id : string
}.

(** [JsonResponse({"message": m}, status=s)] *)
Record JsonResponse := mkResponse { status : nat; message : string }.

(** Exceptions.  [Exception m] is any exception whose [str] is [m];
    reading a local that was never assigned is kept apart. *)
Inductive Exn :=
| Exception (msg : string)
| UnboundLocalError (var : string).

Definition str (e : Exn) : string :=
  match e with
  | Exception m => m
  | UnboundLocalError v =>
      "cannot access local variable '" +:+ v +:+ "' where it is not associated with a value"
  end.

(** Calls made to the collaborators, in the order they are made. *)
Inductive Event :=
| EvSetEnv (key value : string)
| EvMakedirs (path : string)
| EvSave (path : string)
| EvUploadBlob (storage_path : string)
| EvLoad (file_path : string)
| EvFromDocuments (collection_name : string)
| EvCollectionGet (key : string)
| EvKnowledgeCreate (url cid : string)
| EvKnowledgeGet (url : string)
| EvRmtree (path : string)
| EvDeleteCollection (collection_name : string)
| EvKnowledgeDelete (url : string)
| EvDeleteBlob (blob_name : string)
| EvHaveEmbeddings
| EvEmbed (text : string)
| EvTop3
| EvMostSimilar (shortlist : list string)
| EvHistoryRead (session_id : string)
| EvContextualize (question : string) (follow_up : bool)
| EvRetrieve (collection_name query : string)
| EvSynthesize (prompt : list Message)
| EvHistoryAdd (session_id : string) (m : Message).

(** The state the handlers act on. *)
Record World := mkWorld {
  environ : gmap string string;          (* os.environ *)
  tmp_fs : gset string;                  (* staging directories under tmp/ *)
  bucket : gset string;                  (* object names in the blob bucket *)
  pg_collection : list Collection;       (* catalog, in insertion order *)
  pg_embedding : list (string * string); (* (collection uuid, chunk text) *)
  knowledge_tbl : list Knowledge;
  redis : gmap string (list Message);    (* chat history per session key *)
  frame : gmap string string;            (* locals of the running handler *)
  entropy : nat;                         (* position in the random stream *)
  trace : list Event
}.

Definition set_environ (f : gmap string string -> gmap string string) (w : World) : World :=
  mkWorld (f (environ w)) (tmp_fs w) (bucket w) (pg_collection w) (pg_embedding w)
          (knowledge_tbl w) (redis w) (frame w) (entropy w) (trace w).
Definition set_tmp_fs (f : gset string -> gset string) (w : World) : World :=
  mkWorld (environ w) (f (tmp_fs w)) (bucket w) (pg_collection w) (pg_embedding w)
          (knowledge_tbl w) (redis w) (frame w) (entropy w) (trace w).
Definition set_bucket (f : gset string -> gset string) (w : World) : World :=
  mkWorld (environ w) (tmp_fs w) (f (bucket w)) (pg_collection w) (pg_embedding w)
          (knowledge_tbl w) (redis w) (frame w) (entropy w) (trace w).
Definition set_pg (f : list Collection -> list Collection)
    (g : list (string * string) -> list (string * string)) (w : World) : World :=
  mkWorld (environ w) (tmp_fs w) (bucket w) (f (pg_collection w)) (g (pg_embedding w))
          (knowledge_tbl w) (redis w) (frame w) (entropy w) (trace w).
Definition set_knowledge (f : list Knowledge -> list Knowledge) (w : World) : World :=
  mkWorld (environ w) (tmp_fs w) (bucket w) (pg_collection w) (pg_embedding w)
          (f (knowledge_tbl w)) (redis w) (frame w) (entropy w) (trace w).
Definition set_redis (f : gmap string (list Message) -> gmap string (list Message))
    (w : World) : World :=
  mkWorld (environ w) (tmp_fs w) (bucket w) (pg_collection w) (pg_embedding w)
          (knowledge_tbl w) (f (redis w)) (frame w) (entropy w) (trace w).
Definition set_frame (f : gmap string string -> gmap string string) (w : World) : World :=
  mkWorld (environ w) (tmp_fs w) (bucket w) (pg_collection w) (pg_embedding w)
          (knowledge_tbl w) (redis w) (f (frame w)) (entropy w) (trace w).
Definition set_entropy (f : nat -> nat) (w : World) : World :=
  mkWorld (environ w) (tmp_fs w) (bucket w) (pg_collection w) (pg_embedding w)
          (knowledge_tbl w) (redis w) (frame w) (f (entropy w)) (trace w).
Definition set_trace (f : list Event -> list Event) (w : World) : World :=
  mkWorld (environ w) (tmp_fs w) (bucket w) (pg_collection w) (pg_embedding w)
          (knowledge_tbl w) (redis w) (frame w) (entropy w) (f (trace w)).

(** ** The monad of the handlers: state, and exceptions that keep the state *)

Inductive Outcome (A : Type) :=
| Return (a : A)
| Raise (e : Exn).
Arguments Return {A} a.
Arguments Raise {A} e.

Definition M (A : Type) : Type := World -> Outcome A * World.

Definition ret {A} (a : A) : M A := fun w => (Return a, w).

Definition raise {A} (e : Exn) : M A := fun w => (Raise e, w).

Definition bind {A B} (m : M A) (k : A -> M B) : M B :=
  fun w =>
    match m w with
    | (Return a, w') => k a w'
    | (Raise e, w') => (Raise e, w')
    end.

(** [try: body / except Exception as e: handler e] *)
Definition try_except {A} (body : M A) (handler : Exn -> M A) : M A :=
  fun w =>
    match body w with
    | (Return a, w') => (Return a, w')
    | (Raise e, w') => handler e w'
    end.

Notation "x <- c ;; k" := (bind c (fun x => k))
  (at level 100, c at next level, right associativity).
Notation "c ;; k" := (bind c (fun _ => k))
  (at level 100, right associativity).

(** A fallible pure call: [inl m] raises an exception whose text is [m]. *)
Definition lift {A} (r : string + A) : M A :=
  match r with
  | inl m => raise (Exception m)
  | inr a => ret a
  end.

Definition log (ev : Event) : M unit :=
  fun w => (Return tt, set_trace (fun t => t ++ [ev]) w).

(** Assignment to, and read of, a tracked local of the running handler. *)
Definition assign (var value : string) : M unit :=
  fun w => (Return tt, set_frame (fun f => <[var := value]> f) w).

Definition local (var : string) : M string :=
  fun w =>
    match frame w !! var with
    | Some v => (Return v, w)
    | None => (Raise (UnboundLocalError var), w)
    end.

(** A handler starts with no local bound. *)
Definition enter {A} (body : M A) : M A :=
  fun w => body (set_frame (fun _ => ∅) w).

(** ** The collaborators

    Everything the handlers import and call without defining it: the
    configuration constants, the serializers, the random sources, the blob
    and file helpers, the embedding and chat services and the vector
    search.  A call that can fail gives [inl m], [m] the text of the
    exception.  [fault] says which calls to a store or to the file system
    fail, and with what text.  [Vector] is the type of an embedding and
    [Score] of a similarity. *)
Record Services (Vector Score : Type) := mkServices {
  BUCKET_NAME : string;
  CONTEXTUALIZE_Q_SYSTEM_PROMPT : string;
  DEFAULT_SYSTEM_PROMPT : string;
  DOC_EXTENSIONS : list string;
  KnowledgeCreateSerializer : Request -> string + CreateData;
  KnowledgeDeleteSerializer : Request -> string + DeleteData;
  KnowledgeRetrieveSerializer : Request -> string + RetrieveData;
  token_urlsafe : nat -> string;
  uuid4 : nat -> string;
  blob_url : string -> string -> string;
  get_blob_name : string -> string;
  (* the loader for a path and an extension, as the result of its load() *)
  get_loader : string -> string -> option (string + list string);
  split_documents : list string -> list string;
  (* str.lower on text that is not ASCII *)
  unicode_lower : string -> string;
  generate_embeddings : string -> string -> string + Vector;
  (* query vector, collection id, chunks of the collection *)
  similarity : Vector -> string -> list string -> Score;
  score_leb : Score -> Score -> bool;
  chat_model : list Message -> string + string;
  (* chunks of the searched collection, query text *)
  similarity_search : list string -> string -> string + list string;
  fault : Event -> option string
}.

Arguments BUCKET_NAME {Vector Score} _.
Arguments CONTEXTUALIZE_Q_SYSTEM_PROMPT {Vector Score} _.
Arguments DEFAULT_SYSTEM_PROMPT {Vector Score} _.
Arguments DOC_EXTENSIONS {Vector Score} _.
Arguments KnowledgeCreateSerializer {Vector Score} _ _.
Arguments KnowledgeDeleteSerializer {Vector Score} _ _.
Arguments KnowledgeRetrieveSerializer {Vector Score} _ _.
Arguments token_urlsafe {Vector Score} _ _.
Arguments uuid4 {Vector Score} _ _.
Arguments blob_url {Vector Score} _ _ _.
Arguments get_blob_name {Vector Score} _ _.
Arguments get_loader {Vector Score} _ _ _.
Arguments split_documents {Vector Score} _ _.
Arguments unicode_lower {Vector Score} _ _.
Arguments generate_embeddings {Vector Score} _ _ _.
Arguments similarity {Vector Score} _ _ _ _.
Arguments score_leb {Vector Score} _ _ _.
Arguments chat_model {Vector Score} _ _.
Arguments similarity_search {Vector Score} _ _ _.
Arguments fault {Vector Score} _ _.

(** ** Collection selection *)

(** A similarity candidate: transient, produced during selection only. *)
Record Candidate (Score : Type) := mkCandidate { cand_id : string; cand_score : Score }.
Arguments mkCandidate {Score} _ _.
Arguments cand_id {Score} _.
Arguments cand_score {Score} _.

Module Selector.
Section Selector.
Context {Score : Type} (leb : Score -> Score -> bool).

(** Insert [c], which comes before every element of [l] in the catalog,
    into the ranking [l]: it goes in front of the first candidate that
    does not beat it, so a tie keeps catalog order. *)
Fixpoint insert_ranked (c : Candidate Score) (l : list (Candidate Score))
    : list (Candidate Score) :=
  match l with
  | [] => [c]
  | d :: r =>
      if leb (cand_score d) (cand_score c) then c :: l
      else d :: insert_ranked c r
  end.

(** Stable ranking, best first. *)
Fixpoint rank (l : list (Candidate Score)) : list (Candidate Score) :=
  match l with
  | [] => []
  | c :: r => insert_ranked c (rank r)
  end.

(** Modelled from the spec: [EmbeddingsHelper.get_top3_similar_collections],
    which is not in the sources.  Spec 4.2: rank the collections by
    similarity to the query vector and produce the top-3 ranked
    candidates, ties in catalog insertion order. *)
Definition get_top3_similar_collections (scored : list (Candidate Score))
    : list (Candidate Score) :=
  take 3 (rank scored).

(** The better of a running best and the next candidate; the earlier one
    stays on a tie. *)
Fixpoint best_of (c : Candidate Score) (rest : list (Candidate Score))
    : Candidate Score :=
  match rest with
  | [] => c
  | d :: r => best_of (if leb (cand_score d) (cand_score c) then c else d) r
  end.

(** Modelled from the spec: [EmbeddingsHelper.get_most_similar_collection],
    which is not in the sources.  Spec 4.2: pick the single best of the
    shortlisted three; with nothing to pick from, selection fails with
    NoCollectionsAvailable. *)
Definition get_most_similar_collection (top3 : list (Candidate Score))
    : string + string :=
  match top3 with
  | [] => inl "NoCollectionsAvailable"
  | c :: rest => inr (cand_id (best_of c rest))
  end.

(** [c] is at least as similar as [d]. *)
Definition no_worse (c d : Candidate Score) : Prop :=
  leb (cand_score d) (cand_score c) = true.

(** The comparison of scores is a total preorder. *)
Definition total_preorder : Prop :=
  (forall a b, leb a b = true \/ leb b a = true)
  /\ (forall a b d, leb a b = true -> leb b d = true -> leb a d = true).

End Selector.
End Selector.

(** ** The chat-history store: one ordered log per session key *)

(** [RedisChatMessageHistory(k).messages]: a key never written to has the
    empty log. *)
Definition stored (k : string) (store : gmap string (list Message)) : list Message :=
  default [] (store !! k).

(** [RedisChatMessageHistory(k).add_message(m)] *)
Definition append_message (k : string) (m : Message)
    (store : gmap string (list Message)) : gmap string (list Message) :=
  <[k := stored k store ++ [m]]> store.

Arguments stored : simpl never.
Arguments append_message : simpl never.

(** The rows matched by [Model.objects.get]: none is [DoesNotExist],
    several are [MultipleObjectsReturned], whose text gives their number
    when it is below the 21 rows that [get] fetches at most. *)
Definition exactly_one {A} (model : string) (matched : list A) : string + A :=
  match matched with
  | [r] => inr r
  | [] => inl (model +:+ " matching query does not exist.")
  | _ :: _ :: _ =>
      inl ("get() returned more than one " +:+ model +:+ " -- it returned "
             +:+ (if (length matched <? 21)%nat then PyStr.of_nat (length matched)
                  else "more than 20")
             +:+ "!")
  end.

Definition has_rows {A} (rows : list A) : bool :=
  match rows with
  | [] => false
  | _ :: _ => true
  end.

(** ** The handlers *)

Section Views.
Context {Vector Score : Type} (svc : Services Vector Score).

(** A call to a store or to the file system: it is logged, then fails
    if the fault plan says so, and has its effect otherwise. *)
Definition call (ev : Event) (effect : World -> World) : M unit :=
  fun w =>
    let w1 := set_trace (fun t => t ++ [ev]) w in
    match fault svc ev with
    | Some m => (Raise (Exception m), w1)
    | None => (Return tt, effect w1)
    end.

Definition get_world : M World := fun w => (Return w, w).

(** [os.environ[key] = value] *)
Definition setenv (key value : string) : M unit :=
  fun w =>
    (Return tt,
     set_environ (fun e => <[key := value]> e)
                 (set_trace (fun t => t ++ [EvSetEnv key value]) w)).

(** [base64.urlsafe_b64encode(secrets.token_bytes(24)).decode("utf-8")] *)
Definition fresh_token : M string :=
  fun w => (Return (token_urlsafe svc (entropy w)), set_entropy S w).

(** [os.path.join] of a directory and one component. *)
Definition path_join (dir file : string) : string :=
  match file with
  | String "/" _ => file
  | _ => dir +:+ "/" +:+ file
  end.

(** [os.makedirs(path, exist_ok=True)] *)
Definition makedirs (path : string) : M unit :=
  call (EvMakedirs path) (set_tmp_fs (fun d => {[path]} ∪ d)).

(** [FileSystemStorage(location=...).save(file_name, file)] *)
Definition storage_save (file_path : string) : M unit :=
  call (EvSave file_path) id.

(** [shutil.rmtree(path)]: a missing directory is an error. *)
Definition rmtree (path : string) : M unit :=
  w <- get_world ;;
  if bool_decide (path ∈ tmp_fs w)
  then call (EvRmtree path) (set_tmp_fs (fun d => d ∖ {[path]}))
  else log (EvRmtree path) ;;
       raise (Exception ("[Errno 2] No such file or directory: '" +:+ path +:+ "'")).

(** [GoogleStorageAPI.upload_blob(bucket, file_path, storage_path)] *)
Definition upload_blob (storage_path : string) : M string :=
  call (EvUploadBlob storage_path) (set_bucket (fun b => {[storage_path]} ∪ b)) ;;
  ret (blob_url svc (BUCKET_NAME svc) storage_path).

(** [GoogleStorageAPI.delete_blob(bucket, blob_name)] *)
Definition delete_blob (blob_name : string) : M unit :=
  call (EvDeleteBlob blob_name) (set_bucket (fun b => b ∖ {[blob_name]})).

(** [Model.objects.get(...)]: exactly one row must match. *)
Definition objects_get {A} (model : string) (ev : Event) (rows : World -> list A)
    (p : A -> bool) : M A :=
  call ev id ;;
  w <- get_world ;;
  lift (exactly_one model (List.filter p (rows w))).

(** [Knowledge.objects.create(url=..., collection_id=...)] *)
Definition Knowledge_create (u cid : string) : M unit :=
  call (EvKnowledgeCreate u cid) (set_knowledge (fun t => t ++ [mkKnowledge u cid])).

(** [Knowledge.objects.filter(url=url).delete()] *)
Definition Knowledge_filter_delete (u : string) : M unit :=
  call (EvKnowledgeDelete u)
       (set_knowledge (List.filter (fun k => negb (String.eqb (url k) u)))).

(** The collection a store bound to [collection_name] works on: the
    first row of that name. *)
Definition get_collection (collection_name : string) (w : World) : option Collection :=
  List.find (fun c => String.eqb (name c) collection_name) (pg_collection w).

Definition chunks_of_uuid (cid : string) (w : World) : list string :=
  List.map snd (List.filter (fun r => String.eqb (fst r) cid) (pg_embedding w)).

Definition chunks_of (collection_name : string) (w : World) : list string :=
  match get_collection collection_name w with
  | Some c => chunks_of_uuid (uuid c) w
  | None => []
  end.

(** The effect of [PGVector.from_documents(embedding, documents,
    collection_name, ...)]: the collection is created unless one of that
    name exists, and the chunks are stored under it. *)
Definition store_documents (docs : list string) (collection_name : string)
    (w : World) : World :=
  match get_collection collection_name w with
  | Some c =>
      set_pg id (fun e => e ++ List.map (fun d => (uuid c, d)) docs) w
  | None =>
      let cid := uuid4 svc (entropy w) in
      set_pg (fun cs => cs ++ [mkCollection cid collection_name])
             (fun e => e ++ List.map (fun d => (cid, d)) docs)
             (set_entropy S w)
  end.

Definition from_documents (docs : list string) (collection_name : string) : M unit :=
  call (EvFromDocuments collection_name) (store_documents docs collection_name).

Fixpoint remove_first {A} (p : A -> bool) (l : list A) : list A :=
  match l with
  | [] => []
  | a :: r => if p a then r else a :: remove_first p r
  end.

(** The effect of [store.delete_collection()]: the collection row goes,
    and its chunks with it; nothing happens when no row has that name. *)
Definition drop_collection (collection_name : string) (w : World) : World :=
  match get_collection collection_name w with
  | Some c =>
      set_pg (remove_first (fun c' => String.eqb (name c') collection_name))
             (List.filter (fun r => negb (String.eqb (fst r) (uuid c)))) w
  | None => w
  end.

Definition delete_collection (collection_name : string) : M unit :=
  call (EvDeleteCollection collection_name) (drop_collection collection_name).

(** *** [KnowledgeView.post] (lines 54-126) *)
Definition KnowledgeView_post (request : Request) : M JsonResponse :=
  enter (try_except
    (validated_data <- lift (KnowledgeCreateSerializer svc request) ;;
     let file := cd_file validated_data in
     let file_name := file_name file in
     let file_extension :=
       PyStr.lower (unicode_lower svc) (PyStr.splitext_ext file_name) in
     if negb (bool_decide (file_extension ∈ DOC_EXTENSIONS svc)) then
       ret (mkResponse 400 "Please upload a txt file")
     else
       safe_string <- fresh_token ;;
       assign "tmp_storage_path" ("tmp/" +:+ safe_string) ;;
       tmp_storage_path <- local "tmp_storage_path" ;;
       makedirs tmp_storage_path ;;
       let file_path := path_join tmp_storage_path file_name in
       storage_save file_path ;;
       let storage_path := "knowledges/" +:+ safe_string +:+ "_" +:+ file_name in
       knowledge_url <- upload_blob storage_path ;;
       let openai_api_key := cd_openai_api_key validated_data in
       setenv "OPENAI_API_KEY" openai_api_key ;;
       match get_loader svc file_path file_extension with
       | None =>
           ret (mkResponse 400
                  ("File extension " +:+ file_extension +:+ " is not supported"))
       | Some loader =>
           log (EvLoad file_path) ;;
           knowledge <- lift loader ;;
           let docs := split_documents svc knowledge in
           let collection_name := "langchain_" +:+ safe_string in
           from_documents docs collection_name ;;
           collection <- objects_get "Collection" (EvCollectionGet collection_name)
                           pg_collection
                           (fun c => String.eqb (name c) collection_name) ;;
           let collection_id := uuid collection in
           Knowledge_create knowledge_url collection_id ;;
           tmp_storage_path <- local "tmp_storage_path" ;;
           rmtree tmp_storage_path ;;
           ret (mkResponse 200 "Successfully created embeddings")
       end)
    (fun e =>
       tmp_storage_path <- local "tmp_storage_path" ;;
       rmtree tmp_storage_path ;;
       let error_message := str e in
       ret (mkResponse 500 error_message))).

(** *** [KnowledgeView.delete] (lines 128-160) *)
Definition KnowledgeView_delete (request : Request) : M JsonResponse :=
  enter (try_except
    (validated_data <- lift (KnowledgeDeleteSerializer svc request) ;;
     let url_ := dd_url validated_data in
     let openai_api_key := dd_openai_api_key validated_data in
     setenv "OPENAI_API_KEY" openai_api_key ;;
     knowledge <- objects_get "Knowledge" (EvKnowledgeGet url_) knowledge_tbl
                    (fun k => String.eqb (url k) url_) ;;
     let collection_id_ := collection_id knowledge in
     collection <- objects_get "Collection" (EvCollectionGet collection_id_)
                     pg_collection
                     (fun c => String.eqb (uuid c) collection_id_) ;;
     let collection_name := name collection in
     delete_collection collection_name ;;
     Knowledge_filter_delete url_ ;;
     let blob_name := get_blob_name svc url_ in
     delete_blob blob_name ;;
     ret (mkResponse 200 "Successfully deleted"))
    (fun e =>
       let error_message := str e in
       ret (mkResponse 500 error_message))).

(** Modelled from the spec: [DBHelper.have_embeddings], which is not in
    the sources.  Spec 4.6, step 1: reject if no collections exist at
    all. *)
Definition have_embeddings : M bool :=
  log EvHaveEmbeddings ;;
  w <- get_world ;;
  ret (has_rows (pg_collection w)).

(** [EmbeddingsHelper.generate_embeddings(openai_api_key, question)] *)
Definition embed (openai_api_key question : string) : M Vector :=
  log (EvEmbed question) ;;
  lift (generate_embeddings svc openai_api_key question).

(** One candidate per catalog row, in catalog order. *)
Definition scored_catalog (v : Vector) (w : World) : list (Candidate Score) :=
  List.map
    (fun c => mkCandidate (uuid c) (similarity svc v (uuid c) (chunks_of_uuid (uuid c) w)))
    (pg_collection w).

Definition top3_similar_collections (embeddings : Vector) : M (list (Candidate Score)) :=
  call EvTop3 id ;;
  w <- get_world ;;
  ret (Selector.get_top3_similar_collections (score_leb svc) (scored_catalog embeddings w)).

Definition most_similar_collection (top3 : list (Candidate Score)) : M string :=
  log (EvMostSimilar (List.map cand_id top3)) ;;
  lift (Selector.get_most_similar_collection (score_leb svc) top3).

(** [RedisChatMessageHistory(session_id).messages] *)
Definition history_messages (session_id : string) : M (list Message) :=
  call (EvHistoryRead session_id) id ;;
  w <- get_world ;;
  ret (stored session_id (redis w)).

(** [RedisChatMessageHistory(session_id).add_message(m)]: one write to
    the store. *)
Definition history_add (session_id : string) (m : Message) : M unit :=
  call (EvHistoryAdd session_id m) (set_redis (append_message session_id m)).

(** [RunnableWithMessageHistory._exit_history], the [on_end] listener of
    the wrapped chain: [add_messages] adds the input and then the output,
    one write each.  An exception raised in a listener is logged by the
    callback manager and goes no further, so a write that fails ends the
    listener and nothing else. *)
Definition exit_history (session_id input answer : string) : M unit :=
  try_except
    (history_add session_id (HumanMessage input) ;;
     history_add session_id (AIMessage answer))
    (fun _ => ret tt).

(** [store.as_retriever()] for the store bound to [collection_name]. *)
Definition retriever (collection_name query : string) : M (list string) :=
  log (EvRetrieve collection_name query) ;;
  w <- get_world ;;
  lift (similarity_search svc (chunks_of collection_name w) query).

(** The query-rewriting half of [create_history_aware_retriever]: with
    an empty [chat_history] the input goes to the retriever as it is,
    otherwise the chat model is run on the contextualize prompt
    ([system], the history, [human] input) and its text is the query. *)
Definition contextualize (input : string) (chat_history : list Message) : M string :=
  match chat_history with
  | [] => log (EvContextualize input false) ;; ret input
  | _ :: _ =>
      log (EvContextualize input true) ;;
      lift (chat_model svc
              ([SystemMessage (CONTEXTUALIZE_Q_SYSTEM_PROMPT svc)]
                 ++ chat_history ++ [HumanMessage input]))
  end.

Definition history_aware_retriever (collection_name input : string)
    (chat_history : list Message) : M (list string) :=
  query <- contextualize input chat_history ;;
  retriever collection_name query.

Definition nl : string := String (ascii_of_nat 10) EmptyString.

(** [qa_prompt]: the system prompt followed by the retrieved chunks, the
    history, the human input. *)
Definition qa_prompt (context : list string) (input : string)
    (chat_history : list Message) : list Message :=
  [SystemMessage (DEFAULT_SYSTEM_PROMPT svc +:+ PyStr.join (nl +:+ nl) context)]
    ++ chat_history ++ [HumanMessage input].

(** [create_stuff_documents_chain(llm, qa_prompt)] *)
Definition question_answer_chain (context : list string) (input : string)
    (chat_history : list Message) : M string :=
  let prompt := qa_prompt context input chat_history in
  log (EvSynthesize prompt) ;;
  lift (chat_model svc prompt).

(** [create_retrieval_chain(history_aware_retriever, question_answer_chain)] *)
Definition rag_chain (collection_name input : string) (chat_history : list Message)
    : M string :=
  context <- history_aware_retriever collection_name input chat_history ;;
  question_answer_chain context input chat_history.

(** [RunnableWithMessageHistory(rag_chain, ...).invoke]: the stored
    messages of the session are loaded and passed as [chat_history];
    when the wrapped chain has returned, the listener adds the input and
    the answer to the store, and the answer is returned whether or not
    they were added. *)
Definition conversational_rag_chain (collection_name input session_id : string)
    : M string :=
  chat_history <- history_messages session_id ;;
  answer <- rag_chain collection_name input chat_history ;;
  exit_history session_id input answer ;;
  ret answer.

(** *** [KnowledgeRetrieveView.post] (lines 169-263) *)
Definition KnowledgeRetrieveView_post (request : Request) : M JsonResponse :=
  enter (try_except
    (validated_data <- lift (KnowledgeRetrieveSerializer svc request) ;;
     let question := rd_question validated_data in
     let openai_api_key := rd_openai_api_key validated_data in
     let user_id := rd_user_id validated_data in
     setenv "OPENAI_API_KEY" openai_api_key ;;
     have <- have_embeddings ;;
     if negb have then
       ret (mkResponse 200 "No embeddings found. Please create embeddings first")
     else
       embeddings <- embed openai_api_key question ;;
       top3_collection_ids <- top3_similar_collections embeddings ;;
       collection_id_ <- most_similar_collection top3_collection_ids ;;
       collection <- objects_get "Collection" (EvCollectionGet collection_id_)
                       pg_collection
                       (fun c => String.eqb (uuid c) collection_id_) ;;
       let collection_name := name collection in
       let session_id := user_id in
       answer <- conversational_rag_chain collection_name question session_id ;;
       ret (mkResponse 200 answer))
    (fun e =>
       let error_message := str e in
       ret (mkResponse 500 error_message))).

End Views.

(** ** Runs of the conversational chain *)

(** The query contextualizer as the design states it: on the first turn
    the question itself, on a follow-up the chat model's rewriting of the
    question under the contextualize instruction and the history. *)
Definition standalone_question {Vector Score} (svc : Services Vector Score)
    (question : string) (history : list Message) : string + string :=
  match history with
  | [] => inr question
  | _ :: _ =>
      chat_model svc
        ([SystemMessage (CONTEXTUALIZE_Q_SYSTEM_PROMPT svc)]
           ++ history ++ [HumanMessage question])
  end.

Definition follow_up (history : list Message) : bool :=
  match history with [] => false | _ :: _ => true end.

(** The world after a run that logged [evs] and left the history store as
    [store]. *)
Definition chain_world (w : World) (evs : list Event)
    (store : gmap string (list Message)) : World :=
  mkWorld (environ w) (tmp_fs w) (bucket w) (pg_collection w) (pg_embedding w)
          (knowledge_tbl w) store (frame w) (entropy w) (trace w ++ evs).

Section ChainRuns.
Context {Vector Score : Type} (svc : Services Vector Score).
Variables (collection_name input session_id : string) (w : World).

Let history : list Message := stored session_id (redis w).

(** The ways a call of the chain ends: the calls it logged, its
    outcome, and the history store it leaves.  Four failures, and three
    ways to answer: with both turns written, with the write of the human
    turn failed, and with the write of the answer failed. *)
Inductive ChainRun :
    list Event -> Outcome string -> gmap string (list Message) -> Prop :=
| chain_read_fails m :
    fault svc (EvHistoryRead session_id) = Some m ->
    ChainRun [EvHistoryRead session_id] (Raise (Exception m)) (redis w)
| chain_rewrite_fails m :
    fault svc (EvHistoryRead session_id) = None ->
    standalone_question svc input history = inl m ->
    ChainRun [EvHistoryRead session_id; EvContextualize input (follow_up history)]
             (Raise (Exception m)) (redis w)
| chain_retrieve_fails query m :
    fault svc (EvHistoryRead session_id) = None ->
    standalone_question svc input history = inr query ->
    similarity_search svc (chunks_of collection_name w) query = inl m ->
    ChainRun [EvHistoryRead session_id; EvContextualize input (follow_up history);
              EvRetrieve collection_name query]
             (Raise (Exception m)) (redis w)
| chain_synthesis_fails query context m :
    fault svc (EvHistoryRead session_id) = None ->
    standalone_question svc input history = inr query ->
    similarity_search svc (chunks_of collection_name w) query = inr context ->
    chat_model svc (qa_prompt svc context input history) = inl m ->
    ChainRun [EvHistoryRead session_id; EvContextualize input (follow_up history);
              EvRetrieve collection_name query;
              EvSynthesize (qa_prompt svc context input history)]
             (Raise (Exception m)) (redis w)
| chain_answers query context answer :
    fault svc (EvHistoryRead session_id) = None ->
    standalone_question svc input history = inr query ->
    similarity_search svc (chunks_of collection_name w) query = inr context ->
    chat_model svc (qa_prompt svc context input history) = inr answer ->
    fault svc (EvHistoryAdd session_id (HumanMessage input)) = None ->
    fault svc (EvHistoryAdd session_id (AIMessage answer)) = None ->
    ChainRun [EvHistoryRead session_id; EvContextualize input (follow_up history);
              EvRetrieve collection_name query;
              EvSynthesize (qa_prompt svc context input history);
              EvHistoryAdd session_id (HumanMessage input);
              EvHistoryAdd session_id (AIMessage answer)]
             (Return answer)
             (<[session_id := history ++ [HumanMessage input; AIMessage answer]]>
                (redis w))
| chain_answers_unsaved query context answer m :
    fault svc (EvHistoryRead session_id) = None ->
    standalone_question svc input history = inr query ->
    similarity_search svc (chunks_of collection_name w) query = inr context ->
    chat_model svc (qa_prompt svc context input history) = inr answer ->
    fault svc (EvHistoryAdd session_id (HumanMessage input)) = Some m ->
    ChainRun [EvHistoryRead session_id; EvContextualize input (follow_up history);
              EvRetrieve collection_name query;
              EvSynthesize (qa_prompt svc context input history);
              EvHistoryAdd session_id (HumanMessage input)]
             (Return answer) (redis w)
| chain_answers_half_saved query context answer m :
    fault svc (EvHistoryRead session_id) = None ->
    standalone_question svc input history = inr query ->
    similarity_search svc (chunks_of collection_name w) query = inr context ->
    chat_model svc (qa_prompt svc context input history) = inr answer ->
    fault svc (EvHistoryAdd session_id (HumanMessage input)) = None ->
    fault svc (EvHistoryAdd session_id (AIMessage answer)) = Some m ->
    ChainRun [EvHistoryRead session_id; EvContextualize input (follow_up history);
              EvRetrieve collection_name query;
              EvSynthesize (qa_prompt svc context input history);
              EvHistoryAdd session_id (HumanMessage input);
              EvHistoryAdd session_id (AIMessage answer)]
             (Return answer)
             (<[session_id := history ++ [HumanMessage input]]> (redis w)).

End ChainRuns.

(** ** Runs of the query handler *)

(** The world a handler leaves: environment [env], [evs] logged, history
    store [store], everything else as it was. *)
Definition handled (w : World) (env : gmap string string) (evs : list Event)
    (store : gmap string (list Message)) : World :=
  mkWorld env (tmp_fs w) (bucket w) (pg_collection w) (pg_embedding w)
          (knowledge_tbl w) store ∅ (entropy w) (trace w ++ evs).

(** What the handler answers when the chain has ended with [r]. *)
Definition chain_response (r : Outcome string) : JsonResponse :=
  match r with
  | Return answer => mkResponse 200 answer
  | Raise e => mkResponse 500 (str e)
  end.

Section QueryRuns.
Context {Vector Score : Type} (svc : Services Vector Score).
Variables (q : RetrieveData) (w : World).

Let question := rd_question q.
Let key := rd_openai_api_key q.

Definition shortlist_for (v : Vector) : list (Candidate Score) :=
  Selector.get_top3_similar_collections (score_leb svc) (scored_catalog svc v w).

Definition rows_with_uuid (cid : string) : list Collection :=
  List.filter (fun c => String.eqb (uuid c) cid) (pg_collection w).

(** The ways a validated query ends, after the credential has been put
    in the environment: the calls logged from there on, the response,
    the history store left. *)
Inductive QueryRun : list Event -> JsonResponse -> gmap string (list Message) -> Prop :=
| query_no_collections :
    pg_collection w = [] ->
    QueryRun [EvHaveEmbeddings]
             (mkResponse 200 "No embeddings found. Please create embeddings first")
             (redis w)
| query_embed_fails m :
    pg_collection w <> [] ->
    generate_embeddings svc key question = inl m ->
    QueryRun [EvHaveEmbeddings; EvEmbed question] (mkResponse 500 m) (redis w)
| query_ranking_fails v m :
    pg_collection w <> [] ->
    generate_embeddings svc key question = inr v ->
    fault svc EvTop3 = Some m ->
    QueryRun [EvHaveEmbeddings; EvEmbed question; EvTop3] (mkResponse 500 m) (redis w)
| query_pick_fails v m :
    pg_collection w <> [] ->
    generate_embeddings svc key question = inr v ->
    fault svc EvTop3 = None ->
    Selector.get_most_similar_collection (score_leb svc) (shortlist_for v) = inl m ->
    QueryRun [EvHaveEmbeddings; EvEmbed question; EvTop3;
              EvMostSimilar (List.map cand_id (shortlist_for v))]
             (mkResponse 500 m) (redis w)
| query_lookup_faults v cid m :
    pg_collection w <> [] ->
    generate_embeddings svc key question = inr v ->
    fault svc EvTop3 = None ->
    Selector.get_most_similar_collection (score_leb svc) (shortlist_for v) = inr cid ->
    fault svc (EvCollectionGet cid) = Some m ->
    QueryRun [EvHaveEmbeddings; EvEmbed question; EvTop3;
              EvMostSimilar (List.map cand_id (shortlist_for v)); EvCollectionGet cid]
             (mkResponse 500 m) (redis w)
| query_lookup_fails v cid m :
    pg_collection w <> [] ->
    generate_embeddings svc key question = inr v ->
    fault svc EvTop3 = None ->
    Selector.get_most_similar_collection (score_leb svc) (shortlist_for v) = inr cid ->
    fault svc (EvCollectionGet cid) = None ->
    exactly_one "Collection" (rows_with_uuid cid) = inl m ->
    QueryRun [EvHaveEmbeddings; EvEmbed question; EvTop3;
              EvMostSimilar (List.map cand_id (shortlist_for v)); EvCollectionGet cid]
             (mkResponse 500 m) (redis w)
| query_chain v cid c evs r store :
    pg_collection w <> [] ->
    generate_embeddings svc key question = inr v ->
    fault svc EvTop3 = None ->
    Selector.get_most_similar_collection (score_leb svc) (shortlist_for v) = inr cid ->
    fault svc (EvCollectionGet cid) = None ->
    exactly_one "Collection" (rows_with_uuid cid) = inr c ->
    ChainRun svc (name c) question (rd_user_id q) w evs r store ->
    QueryRun ([EvHaveEmbeddings; EvEmbed question; EvTop3;
               EvMostSimilar (List.map cand_id (shortlist_for v)); EvCollectionGet cid]
                ++ evs)
             (chain_response r) store.

End QueryRuns.

(** ** The order of the pipeline steps *)

Inductive Step :=
| StepEmbed
| StepSelect
| StepContextualize
| StepRetrieve
| StepSynthesize.

Definition stage (s : Step) : nat :=
  match s with
  | StepEmbed => 2
  | StepSelect => 3
  | StepContextualize => 4
  | StepRetrieve => 5
  | StepSynthesize => 6
  end.

(** The step a logged call belongs to: shortlisting, picking and resolving
    the picked id are the selection; loading the session's history and
    deciding on the rewriting are the contextualization. *)
Definition step_of (ev : Event) : option Step :=
  match ev with
  | EvEmbed _ => Some StepEmbed
  | EvTop3 | EvMostSimilar _ | EvCollectionGet _ => Some StepSelect
  | EvHistoryRead _ | EvContextualize _ _ => Some StepContextualize
  | EvRetrieve _ _ => Some StepRetrieve
  | EvSynthesize _ => Some StepSynthesize
  | _ => None
  end.

(** Consecutive calls of one step count once. *)
Fixpoint merge_adjacent (l : list Step) : list Step :=
  match l with
  | [] => []
  | a :: r =>
      match r with
      | b :: _ => if Nat.eqb (stage a) (stage b) then merge_adjacent r
                  else a :: merge_adjacent r
      | [] => [a]
      end
  end.

Definition steps_of (evs : list Event) : list Step :=
  merge_adjacent (omap step_of evs).

Definition pipeline : list Step :=
  [StepEmbed; StepSelect; StepContextualize; StepRetrieve; StepSynthesize].

(** ** Runs of the deletion handler *)

Definition rows_with_url (w : World) (u : string) : list Knowledge :=
  List.filter (fun k => String.eqb (url k) u) (knowledge_tbl w).

Definition without_url (u : string) (rows : list Knowledge) : list Knowledge :=
  List.filter (fun k => negb (String.eqb (url k) u)) rows.

(** The three deletions, in source order. *)
Definition deletion_steps {Vector Score} (svc : Services Vector Score)
    (u collection_name : string) : list Event :=
  [EvDeleteCollection collection_name; EvKnowledgeDelete u;
   EvDeleteBlob (get_blob_name svc u)].

(** How many of the three deletions are started: each one is started only
    when the one before it has not failed. *)
Definition deletions_started {Vector Score} (svc : Services Vector Score)
    (u collection_name : string) : nat :=
  match fault svc (EvDeleteCollection collection_name) with
  | Some _ => 1
  | None =>
      match fault svc (EvKnowledgeDelete u) with
      | Some _ => 2
      | None => 3
      end
  end.

(** The first deletion that fails, if one does. *)
Definition deletion_failure {Vector Score} (svc : Services Vector Score)
    (u collection_name : string) : option string :=
  match fault svc (EvDeleteCollection collection_name) with
  | Some m => Some m
  | None =>
      match fault svc (EvKnowledgeDelete u) with
      | Some m => Some m
      | None => fault svc (EvDeleteBlob (get_blob_name svc u))
      end
  end.

Definition fails (f : option string) : bool :=
  match f with
  | Some _ => true
  | None => false
  end.

(** ** Names of an ingestion *)

Section IngestionNames.
Context {Vector Score : Type} (svc : Services Vector Score).
Variables (d : CreateData) (w : World).

(** The names an ingestion of [d] started in [w] works with. *)
Definition ing_extension : string :=
  PyStr.lower (unicode_lower svc) (PyStr.splitext_ext (file_name (cd_file d))).
Definition ing_safe_string : string := token_urlsafe svc (entropy w).
Definition ing_tmp : string := "tmp/" +:+ ing_safe_string.
Definition ing_file_path : string := path_join ing_tmp (file_name (cd_file d)).
Definition ing_storage_path : string :=
  "knowledges/" +:+ ing_safe_string +:+ "_" +:+ file_name (cd_file d).

End IngestionNames.

(** ** A concrete deployment, to run the handlers on *)

Module Demo.

Definition ok_fields (keys : list string) (r : Request) : bool :=
  forallb (fun k => bool_decide (is_Some (fields r !! k))) keys.

Definition field (k : string) (r : Request) : string := default EmptyString (fields r !! k).

Definition create_serializer (r : Request) : string + CreateData :=
  match upload r, fields r !! "openai_api_key" with
  | Some f, Some k => inr (mkCreateData f k)
  | _, _ => inl "This field is required."
  end.

Definition delete_serializer (r : Request) : string + DeleteData :=
  if ok_fields ["url"; "openai_api_key"] r
  then inr (mkDeleteData (field "url" r) (field "openai_api_key" r))
  else inl "This field is required.".

Definition retrieve_serializer (r : Request) : string + RetrieveData :=
  if ok_fields ["question"; "openai_api_key"; "user_id"] r
  then inr (mkRetrieveData (field "question" r) (field "openai_api_key" r)
                           (field "user_id" r))
  else inl "This field is required.".

(** Embeddings are one-component integer vectors, the length of the
    text; a collection is the more similar to a query the closer the
    length of its first chunk is to it.  Enough to route a short and a
    long question to different collections. *)
Definition embed_text (key text : string) : string + list Z :=
  if String.eqb key EmptyString then inl "Incorrect API key provided"
  else inr [Z.of_nat (String.length text)].

Definition sim (v : list Z) (cid : string) (chunks : list string) : Z :=
  match v, chunks with
  | x :: _, c :: _ => (- Z.abs (x - Z.of_nat (String.length c)))%Z
  | _, _ => (-1000)%Z
  end.

Definition chat (prompt : list Message) : string + string :=
  match last prompt with
  | Some (HumanMessage q) =>
      if String.eqb q "crash" then inl "Connection error."
      else inr ("re: " +:+ q)
  | _ => inl "empty prompt"
  end.

Definition search (chunks : list string) (query : string) : string + list string :=
  if String.eqb query "re: timeout" then inl "could not connect to server"
  else inr (take 4 chunks).

(** The deployment accepts '.txt' and '.pdf' uploads but can only load
    '.txt'. *)
Definition loader (file_path ext : string) : option (string + list string) :=
  if String.eqb ext ".txt" then Some (inr ["body of " +:+ file_path]) else None.

Definition services (faults : Event -> option string) : Services (list Z) Z :=
  mkServices (list Z) Z
    "kb-bucket" "Rewrite as a standalone question; do NOT answer it."
    "Answer from the context. "
    [".txt"; ".pdf"]
    create_serializer delete_serializer retrieve_serializer
    (fun n => "tok" +:+ String (ascii_of_nat (48 + n)) EmptyString)
    (fun n => "uuid-" +:+ String (ascii_of_nat (48 + n)) EmptyString)
    (fun b p => "https://storage/" +:+ b +:+ "/" +:+ p)
    (fun u => String.substring 26 (String.length u - 26) u)
    loader
    (fun docs => docs)
    PyStr.ascii_lower
    embed_text sim Z.leb chat search faults.

Definition no_fault : Event -> option string := fun _ => None.

(** The upload fails, and so does the removal of the staging directory. *)
Definition upload_and_cleanup_fail (ev : Event) : option string :=
  match ev with
  | EvUploadBlob _ => Some "503 Service Unavailable"
  | EvRmtree _ => Some "[Errno 13] Permission denied"
  | _ => None
  end.

(** The blob store refuses the deletion. *)
Definition blob_delete_fails (ev : Event) : option string :=
  match ev with
  | EvDeleteBlob _ => Some "403 Forbidden"
  | _ => None
  end.

Definition empty_world : World :=
  mkWorld ∅ ∅ ∅ [] [] [] ∅ ∅ 0 [].

Definition notes_url : string := "https://storage/kb-bucket/knowledges/tok0_notes.txt".
Definition manual_url : string := "https://storage/kb-bucket/knowledges/tok2_manual.txt".

(** Two ingested documents, and one earlier exchange of session "s1". *)
Definition library : World :=
  mkWorld ∅ ∅
    ({["knowledges/tok0_notes.txt"]} ∪ {["knowledges/tok2_manual.txt"]})
    [mkCollection "uuid-1" "langchain_tok0"; mkCollection "uuid-3" "langchain_tok2"]
    [("uuid-1", "X is ten."); ("uuid-3", "The manual says that Y is the sum of X and two.")]
    [mkKnowledge notes_url "uuid-1"; mkKnowledge manual_url "uuid-3"]
    (<["s1" := [HumanMessage "Hi"; AIMessage "re: Hi"]]> ∅)
    ∅ 4 [].

Definition request (kv : list (string * string)) (f : option UploadedFile) : Request :=
  mkRequest (list_to_map kv) f.

Definition ask (user question : string) : Request :=
  request [("openai_api_key", "sk-2"); ("question", question); ("user_id", user)] None.

Definition asked (user question : string) : RetrieveData :=
  mkRetrieveData question "sk-2" user.

Definition upload_of (file : string) : Request :=
  request [("openai_api_key", "sk-1")] (Some (mkFile file "hello")).

Definition removal_of (u : string) : Request :=
  request [("openai_api_key", "sk-3"); ("url", u)] None.

End Demo.

(** ** What an ingestion mints

    The names under which a successful ingestion of [d] from [w] stores
    its results: the collection, the id the catalog gives it, and the url
    of the blob. *)

Section IngestionResults.
Context {Vector Score : Type} (svc : Services Vector Score).
Variables (d : CreateData) (w : World).

Definition ing_collection_name : string := "langchain_" +:+ ing_safe_string svc w.
Definition ing_collection_id : string := uuid4 svc (S (entropy w)).
Definition ing_url : string := blob_url svc (BUCKET_NAME svc) (ing_storage_path svc d w).
End IngestionResults.

(** ** The lookups of a deletion *)

(** The world a deletion leaves when it stops before the first deletion. *)
Definition delete_stopped (w : World) (key : string) (evs : list Event) : World :=
  mkWorld (<["OPENAI_API_KEY" := key]> (environ w)) (tmp_fs w) (bucket w)
          (pg_collection w) (pg_embedding w) (knowledge_tbl w) (redis w) ∅
          (entropy w) (trace w ++ EvSetEnv "OPENAI_API_KEY" key :: evs).

(** [Knowledge.objects.get(url=u)] as a whole: the call may fail, and so
    may the match. *)
Definition knowledge_lookup {Vector Score} (svc : Services Vector Score)
    (w : World) (u : string) : string + Knowledge :=
  match fault svc (EvKnowledgeGet u) with
  | Some m => inl m
  | None => exactly_one "Knowledge" (rows_with_url w u)
  end.

(** [Collection.objects.get(uuid=cid)] as a whole. *)
Definition collection_lookup {Vector Score} (svc : Services Vector Score)
    (w : World) (cid : string) : string + Collection :=
  match fault svc (EvCollectionGet cid) with
  | Some m => inl m
  | None => exactly_one "Collection" (rows_with_uuid w cid)
  end.

(** ** Shapes of logs and of file names *)

(** A log made of exchanges: a human turn, then its answer, and so on. *)
Fixpoint well_paired (l : list Message) : bool :=
  match l with
  | [] => true
  | HumanMessage _ :: AIMessage _ :: r => well_paired r
  | _ => false
  end.

(** [c in s], for a character [c]. *)
Fixpoint contains (c : ascii) (s : string) : bool :=
  match s with
  | EmptyString => false
  | String a r => Ascii.eqb a c || contains c r
  end.

(** ** More sample data *)

Module Scenarios.

(** The write to the vector store fails. *)
Definition store_write_fails (ev : Event) : option string :=
  match ev with
  | EvFromDocuments _ => Some "could not connect to server"
  | _ => None
  end.

(** The staging directory cannot be removed. *)
Definition cleanup_fails (ev : Event) : option string :=
  match ev with
  | EvRmtree _ => Some "[Errno 13] Permission denied"
  | _ => None
  end.

(** The library, with the knowledge row of the notes pointing at a
    collection id that is not in the catalog. *)
Definition stale_library : World :=
  mkWorld ∅ ∅
    ({["knowledges/tok0_notes.txt"]} ∪ {["knowledges/tok2_manual.txt"]})
    [mkCollection "uuid-1" "langchain_tok0"; mkCollection "uuid-3" "langchain_tok2"]
    [("uuid-1", "X is ten.")]
    [mkKnowledge Demo.notes_url "uuid-7"; mkKnowledge Demo.manual_url "uuid-3"]
    ∅ ∅ 4 [].

(** One collection, with no chunk in it. *)
Definition empty_collection : World :=
  mkWorld ∅ ∅ ∅ [mkCollection "uuid-9" "langchain_empty"] [] [] ∅ ∅ 0 [].

(** Five collections of one chunk each, the chunks of lengths 3, 30, 9,
    12 and 50: for a question of length 10 the catalog order is not the
    order of similarity. *)
Definition shelf : World :=
  mkWorld ∅ ∅ ∅
    [mkCollection "uuid-1" "langchain_a"; mkCollection "uuid-2" "langchain_b";
     mkCollection "uuid-3" "langchain_c"; mkCollection "uuid-4" "langchain_d";
     mkCollection "uuid-5" "langchain_e"]
    [("uuid-1", "Yes");
     ("uuid-2", "The first chapter of the book.");
     ("uuid-3", "X is ten.");
     ("uuid-4", "Y is twelve.");
     ("uuid-5", "The second chapter of the book, which is longer...")]
    [] ∅ ∅ 0 [].

(** The store refuses the write of an answer turn. *)
Definition answer_write_fails (ev : Event) : option string :=
  match ev with
  | EvHistoryAdd _ (AIMessage _) => Some "Error 111 connecting to localhost:6379."
  | _ => None
  end.

Definition todo : CreateData := mkCreateData (mkFile "todo.txt" "hello") "sk-1".

Definition todo_url : string := "https://storage/kb-bucket/knowledges/tok4_todo.txt".

End Scenarios.

(** * Proofs *)

(** ** Collection selection: the shortlist and the pick *)

Module SelectorFacts.
Section SelectorFacts.
Context {Score : Type} (leb : Score -> Score -> bool).

Lemma insert_ranked_In (c x : Candidate Score) (l : list (Candidate Score)) :
  In x (Selector.insert_ranked leb c l) <-> x = c \/ In x l.
Proof.
  induction l as [|d r IH]; simpl.
  - intuition.
  - destruct (leb (cand_score d) (cand_score c)); simpl.
    + intuition.
    + rewrite IH. intuition.
Qed.

Lemma insert_ranked_length (c : Candidate Score) (l : list (Candidate Score)) :
  length (Selector.insert_ranked leb c l) = S (length l).
Proof.
  induction l as [|d r IH]; simpl; [reflexivity|].
  destruct (leb (cand_score d) (cand_score c)); simpl; congruence.
Qed.

Lemma rank_In (x : Candidate Score) (l : list (Candidate Score)) :
  In x (Selector.rank leb l) <-> In x l.
Proof.
  induction l as [|c r IH]; simpl; [reflexivity|].
  rewrite insert_ranked_In, IH. intuition.
Qed.

Lemma rank_length (l : list (Candidate Score)) :
  length (Selector.rank leb l) = length l.
Proof.
  induction l as [|c r IH]; simpl; [reflexivity|].
  rewrite insert_ranked_length. congruence.
Qed.

Lemma best_of_In (c : Candidate Score) (rest : list (Candidate Score)) :
  In (Selector.best_of leb c rest) (c :: rest).
Proof.
  revert c. induction rest as [|d r IH]; intros c; simpl.
  - now left.
  - specialize (IH (if leb (cand_score d) (cand_score c) then c else d)).
    destruct (leb (cand_score d) (cand_score c)); simpl in IH; intuition.
Qed.

(** Under a total and transitive comparison the pick beats or ties every
    candidate it was picked among. *)
Lemma best_of_max (c : Candidate Score) (rest : list (Candidate Score)) :
  (forall a b, leb a b = true \/ leb b a = true) ->
  (forall a b d, leb a b = true -> leb b d = true -> leb a d = true) ->
  forall x, In x (c :: rest) ->
    leb (cand_score x) (cand_score (Selector.best_of leb c rest)) = true.
Proof.
  intros Htotal Htrans. revert c.
  induction rest as [|d r IH]; intros c x Hin.
  - destruct Hin as [<-|[]]. simpl. destruct (Htotal (cand_score c) (cand_score c)); assumption.
  - simpl.
    set (c' := if leb (cand_score d) (cand_score c) then c else d).
    assert (Hc' : leb (cand_score c') (cand_score (Selector.best_of leb c' r)) = true).
    { apply IH. now left. }
    assert (Hc : leb (cand_score c) (cand_score c') = true).
    { subst c'. destruct (leb (cand_score d) (cand_score c)) eqn:E.
      - destruct (Htotal (cand_score c) (cand_score c)); assumption.
      - destruct (Htotal (cand_score c) (cand_score d)) as [H|H]; [exact H|congruence]. }
    assert (Hd : leb (cand_score d) (cand_score c') = true).
    { subst c'. destruct (leb (cand_score d) (cand_score c)) eqn:E.
      - exact E.
      - destruct (Htotal (cand_score d) (cand_score d)); assumption. }
    destruct Hin as [<-|[<-|Hin]].
    + exact (Htrans _ _ _ Hc Hc').
    + exact (Htrans _ _ _ Hd Hc').
    + apply IH. now right.
Qed.

Lemma take_In {A} (n : nat) (x : A) (l : list A) : In x (take n l) -> In x l.
Proof.
  revert l. induction n as [|n IH]; intros [|a l]; simpl; try tauto.
  intros [->|H]; [now left | right; auto].
Qed.

Lemma top3_length (l : list (Candidate Score)) :
  length (Selector.get_top3_similar_collections leb l) = Nat.min 3 (length l).
Proof.
  unfold Selector.get_top3_similar_collections.
  rewrite length_take, rank_length. reflexivity.
Qed.

Lemma top3_In (x : Candidate Score) (l : list (Candidate Score)) :
  In x (Selector.get_top3_similar_collections leb l) -> In x l.
Proof.
  unfold Selector.get_top3_similar_collections.
  intros H. apply take_In in H. exact (proj1 (rank_In x l) H).
Qed.

Lemma insert_ranked_Permutation (c : Candidate Score) (l : list (Candidate Score)) :
  Permutation (Selector.insert_ranked leb c l) (c :: l).
Proof.
  induction l as [|d r IH]; simpl; [reflexivity|].
  destruct (leb (cand_score d) (cand_score c)); [reflexivity|].
  rewrite IH. apply perm_swap.
Qed.

(** The ranking reorders the candidates and does nothing else. *)
Lemma rank_Permutation (l : list (Candidate Score)) :
  Permutation (Selector.rank leb l) l.
Proof.
  induction l as [|c r IH]; simpl; [reflexivity|].
  rewrite insert_ranked_Permutation, IH. reflexivity.
Qed.

Lemma insert_ranked_sorted (c : Candidate Score) (l : list (Candidate Score)) :
  Selector.total_preorder leb ->
  StronglySorted (Selector.no_worse leb) l ->
  StronglySorted (Selector.no_worse leb) (Selector.insert_ranked leb c l).
Proof.
  intros [Htotal Htrans]. induction 1 as [|d r Hr IH Hd]; simpl.
  - constructor; constructor.
  - destruct (leb (cand_score d) (cand_score c)) eqn:E.
    + constructor; [constructor; assumption|].
      constructor; [exact E|].
      apply List.Forall_forall. intros y Hy.
      apply (proj1 (List.Forall_forall _ _) Hd) in Hy.
      exact (Htrans _ _ _ Hy E).
    + constructor; [exact IH|].
      apply List.Forall_forall. intros y Hy.
      apply insert_ranked_In in Hy as [->|Hy].
      * destruct (Htotal (cand_score c) (cand_score d)) as [H|H]; [exact H|congruence].
      * exact (proj1 (List.Forall_forall _ _) Hd y Hy).
Qed.

(** Under a total preorder the ranking is sorted, best first. *)
Lemma rank_sorted (l : list (Candidate Score)) :
  Selector.total_preorder leb ->
  StronglySorted (Selector.no_worse leb) (Selector.rank leb l).
Proof.
  intros Hord. induction l as [|c r IH]; simpl; [constructor|].
  now apply insert_ranked_sorted.
Qed.

Lemma StronglySorted_app_inv {A} (R : A -> A -> Prop) (a b : list A) :
  StronglySorted R (a ++ b) ->
  StronglySorted R a /\ forall x y, In x a -> In y b -> R x y.
Proof.
  induction a as [|x a IH]; simpl; intros H.
  - split; [constructor | intros ? ? []].
  - apply StronglySorted_inv in H as [Hs Hx].
    destruct (IH Hs) as [Ha Hab].
    apply List.Forall_app in Hx as [Hxa Hxb].
    split; [constructor; assumption|].
    intros x' y [<-|Hx'] Hy.
    + exact (proj1 (List.Forall_forall _ _) Hxb y Hy).
    + now apply Hab.
Qed.

(** The shortlist and what it leaves out: together they are the scored
    catalog; under a total preorder the shortlist is sorted, best first,
    and none of its candidates is worse than one left out. *)
Lemma top3_split (l : list (Candidate Score)) :
  let shortlist := Selector.get_top3_similar_collections leb l in
  let rest := drop 3 (Selector.rank leb l) in
  Permutation l (shortlist ++ rest)
  /\ (Selector.total_preorder leb ->
      StronglySorted (Selector.no_worse leb) shortlist
      /\ forall c d, In c shortlist -> In d rest -> Selector.no_worse leb c d).
Proof.
  intros shortlist rest. subst shortlist rest.
  unfold Selector.get_top3_similar_collections.
  rewrite take_drop. split.
  - symmetry. apply rank_Permutation.
  - intros Hord. apply StronglySorted_app_inv.
    rewrite take_drop. now apply rank_sorted.
Qed.

Lemma top3_nonempty (l : list (Candidate Score)) :
  l <> [] -> Selector.get_top3_similar_collections leb l <> [].
Proof.
  intros Hl Htop. apply (f_equal (@length _)) in Htop.
  rewrite top3_length in Htop. destruct l; [congruence | simpl in Htop; lia].
Qed.

End SelectorFacts.
End SelectorFacts.

Lemma scored_catalog_ids {Vector Score} (svc : Services Vector Score) (v : Vector)
    (w : World) :
  List.map cand_id (scored_catalog svc v w) = List.map uuid (pg_collection w).
Proof.
  unfold scored_catalog. rewrite List.map_map. reflexivity.
Qed.

Lemma scored_catalog_length {Vector Score} (svc : Services Vector Score) (v : Vector)
    (w : World) :
  length (scored_catalog svc v w) = length (pg_collection w).
Proof. unfold scored_catalog. apply List.length_map. Qed.

(** ** The conversational chain *)

Lemma history_add_twice (store : gmap string (list Message)) (k : string)
    (a b : Message) :
  append_message k b (append_message k a store)
  = <[k := stored k store ++ [a; b]]> store.
Proof.
  unfold append_message, stored.
  rewrite lookup_insert_eq, insert_insert_eq. simpl.
  rewrite <- app_assoc. reflexivity.
Qed.

(** Normal form of a world built by nested updates.  Call-by-need keeps
    the work linear in the nesting depth. *)
Ltac world_norm :=
  lazy beta iota zeta delta
    [chain_world set_environ set_tmp_fs set_bucket set_pg set_knowledge set_redis
     set_frame set_entropy set_trace
     environ tmp_fs bucket pg_collection pg_embedding knowledge_tbl redis frame
     entropy trace].

Ltac unfold_chain :=
  unfold conversational_rag_chain, rag_chain, history_aware_retriever,
    question_answer_chain, contextualize, retriever, history_messages,
    exit_history, history_add, try_except, call, lift, log, get_world, bind, ret,
    raise.

Lemma chunks_of_pg (collection_name : string) (w w' : World) :
  pg_collection w' = pg_collection w ->
  pg_embedding w' = pg_embedding w ->
  chunks_of collection_name w' = chunks_of collection_name w.
Proof.
  intros Hc He. unfold chunks_of, get_collection, chunks_of_uuid.
  rewrite Hc, He. reflexivity.
Qed.

Arguments chunks_of : simpl never.

(** One path through the chain: the goal is the equation between the
    chain's result and the run's, the hypotheses say how the services
    answered. *)
Ltac chain_path :=
  rewrite <- ?history_add_twice;
  unfold standalone_question, qa_prompt in *;
  match goal with
  | |- context [stored ?k (redis ?w)] =>
      let Hh := fresh "Hh" in
      destruct (stored k (redis w)) eqn:Hh
  end;
  cbn in *; simplify_eq;
  repeat first
    [ match goal with
      | Hw : World |- context [chunks_of ?c ?w'] =>
          lazymatch w' with
          | Hw => fail
          | _ => rewrite (chunks_of_pg c Hw w' eq_refl eq_refl)
          end
      end
    | match goal with
      | H : ?x = _ |- context [?x] => rewrite H; cbn
      end ];
  world_norm; rewrite <- ?app_assoc; reflexivity.

(** Every call of the chain is one of the runs. *)
Lemma conversational_rag_chain_run {Vector Score} (svc : Services Vector Score)
    (collection_name input session_id : string) (w : World) :
  exists evs r store,
    ChainRun svc collection_name input session_id w evs r store /\
    conversational_rag_chain svc collection_name input session_id w
      = (r, chain_world w evs store).
Proof.
  unfold_chain. cbn.
  destruct (fault svc (EvHistoryRead session_id)) as [m|] eqn:Hread.
  { do 3 eexists. split; [apply chain_read_fails; eassumption | reflexivity]. }
  cbn.
  destruct (standalone_question svc input (stored session_id (redis w)))
    as [m|query] eqn:Hq.
  { do 3 eexists. split; [apply chain_rewrite_fails; eassumption|]. chain_path. }
  destruct (similarity_search svc (chunks_of collection_name w) query)
    as [m|context] eqn:Hs.
  { do 3 eexists. split; [eapply chain_retrieve_fails; eassumption|]. chain_path. }
  destruct (chat_model svc
              (qa_prompt svc context input (stored session_id (redis w))))
    as [m|answer] eqn:Ha.
  { do 3 eexists. split; [eapply chain_synthesis_fails; eassumption|]. chain_path. }
  destruct (fault svc (EvHistoryAdd session_id (HumanMessage input)))
    as [m|] eqn:Hw1.
  { do 3 eexists. split; [eapply chain_answers_unsaved; eassumption|]. chain_path. }
  destruct (fault svc (EvHistoryAdd session_id (AIMessage answer)))
    as [m|] eqn:Hw2.
  { do 3 eexists. split; [eapply chain_answers_half_saved; eassumption|].
    fold (append_message session_id (HumanMessage input) (redis w)). chain_path. }
  do 3 eexists. split; [eapply chain_answers; eassumption|]. chain_path.
Qed.

Lemma ChainRun_frame {Vector Score} (svc : Services Vector Score)
    (collection_name input session_id : string) (w0 w : World)
    (evs : list Event) (r : Outcome string) (store : gmap string (list Message)) :
  redis w0 = redis w ->
  pg_collection w0 = pg_collection w ->
  pg_embedding w0 = pg_embedding w ->
  ChainRun svc collection_name input session_id w0 evs r store ->
  ChainRun svc collection_name input session_id w evs r store.
Proof.
  intros Hr Hc He Hrun.
  pose proof (chunks_of_pg collection_name w w0 Hc He) as Hch.
  destruct Hrun; rewrite ?Hr, ?Hch in *.
  - now apply chain_read_fails.
  - now apply chain_rewrite_fails.
  - now eapply chain_retrieve_fails.
  - now eapply chain_synthesis_fails.
  - now eapply chain_answers.
  - eapply chain_answers_unsaved; eassumption.
  - eapply chain_answers_half_saved; eassumption.
Qed.

Arguments conversational_rag_chain : simpl never.

(** Unfolding of the handlers' glue, and of nothing else. *)
Ltac run_norm :=
  lazy beta iota zeta delta
    [KnowledgeRetrieveView_post KnowledgeView_post KnowledgeView_delete
     enter try_except bind ret raise lift log call get_world setenv assign local
     have_embeddings embed top3_similar_collections most_similar_collection
     objects_get fresh_token makedirs storage_save rmtree upload_blob delete_blob
     Knowledge_create Knowledge_filter_delete from_documents delete_collection
     chain_response handled chain_world
     set_environ set_tmp_fs set_bucket set_pg set_knowledge set_redis
     set_frame set_entropy set_trace
     environ tmp_fs bucket pg_collection pg_embedding knowledge_tbl redis frame
     entropy trace negb id str].

Ltac fold_world w :=
  change (let (_, _, _, x, _, _, _, _, _, _) := w in x) with (pg_collection w) in *;
  change (let (_, _, _, _, x, _, _, _, _, _) := w in x) with (pg_embedding w) in *;
  change (let (x, _, _, _, _, _, _, _, _, _) := w in x) with (environ w) in *;
  change (let (_, x, _, _, _, _, _, _, _, _) := w in x) with (tmp_fs w) in *;
  change (let (_, _, x, _, _, _, _, _, _, _) := w in x) with (bucket w) in *;
  change (let (_, _, _, _, _, x, _, _, _, _) := w in x) with (knowledge_tbl w) in *;
  change (let (_, _, _, _, _, _, x, _, _, _) := w in x) with (redis w) in *;
  change (let (_, _, _, _, _, _, _, x, _, _) := w in x) with (frame w) in *;
  change (let (_, _, _, _, _, _, _, _, x, _) := w in x) with (entropy w) in *;
  change (let (_, _, _, _, _, _, _, _, _, x) := w in x) with (trace w) in *.

(** The query handler always answers: a request the serializer refuses
    gets a 500 with the refusal, a validated one ends as one of the runs. *)
Lemma KnowledgeRetrieveView_post_run {Vector Score} (svc : Services Vector Score)
    (request : Request) (w : World) :
  match KnowledgeRetrieveSerializer svc request with
  | inl m =>
      KnowledgeRetrieveView_post svc request w
        = (Return (mkResponse 500 m), handled w (environ w) [] (redis w))
  | inr q =>
      exists evs resp store,
        QueryRun svc q w evs resp store /\
        KnowledgeRetrieveView_post svc request w
          = (Return resp,
             handled w (<["OPENAI_API_KEY" := rd_openai_api_key q]> (environ w))
                     (EvSetEnv "OPENAI_API_KEY" (rd_openai_api_key q) :: evs) store)
  end.
Proof.
  destruct (KnowledgeRetrieveSerializer svc request) as [m|q] eqn:Hv.
  { run_norm. rewrite Hv. run_norm. rewrite app_nil_r. reflexivity. }
  run_norm. rewrite Hv. run_norm. fold_world w.
  destruct (has_rows (pg_collection w)) eqn:Hcat; cycle 1.
  { do 3 eexists. split.
    - apply query_no_collections. destruct (pg_collection w); [reflexivity|discriminate].
    - run_norm. rewrite <- ?app_assoc. reflexivity. }
  assert (Hne : pg_collection w <> []).
  { intros E. rewrite E in Hcat. discriminate. }
  run_norm.
  destruct (generate_embeddings svc (rd_openai_api_key q) (rd_question q))
    as [m|v] eqn:He.
  { do 3 eexists. split; [eapply query_embed_fails; eassumption|].
    run_norm. rewrite <- ?app_assoc. reflexivity. }
  run_norm.
  destruct (fault svc EvTop3) as [m|] eqn:Ht.
  { do 3 eexists. split; [eapply query_ranking_fails; eassumption|].
    run_norm. rewrite <- ?app_assoc. reflexivity. }
  run_norm. fold_world w.
  change (scored_catalog svc v _) with (scored_catalog svc v w).
  fold (shortlist_for svc w v).
  destruct (Selector.get_most_similar_collection (score_leb svc) (shortlist_for svc w v))
    as [m|cid] eqn:Hp.
  { do 3 eexists. split; [eapply query_pick_fails; eassumption|].
    run_norm. rewrite <- ?app_assoc. reflexivity. }
  run_norm.
  destruct (fault svc (EvCollectionGet cid)) as [m|] eqn:Hf.
  { do 3 eexists. split; [eapply query_lookup_faults; eassumption|].
    run_norm. rewrite <- ?app_assoc. reflexivity. }
  run_norm. fold_world w. fold (rows_with_uuid w cid).
  destruct (exactly_one "Collection" (rows_with_uuid w cid)) as [m|c] eqn:Hl.
  { do 3 eexists. split; [eapply query_lookup_fails; eassumption|].
    run_norm. rewrite <- ?app_assoc. reflexivity. }
  run_norm.
  match goal with
  | |- context [conversational_rag_chain svc ?n ?i ?s ?w0] =>
      destruct (conversational_rag_chain_run svc n i s w0)
        as (evs & r & store & Hrun & Heq);
      rewrite Heq;
      apply (ChainRun_frame svc n i s w0 w) in Hrun; [|reflexivity..]
  end.
  do 3 eexists. split; [eapply query_chain; eassumption|].
  destruct r as [answer|e]; run_norm; rewrite <- ?app_assoc; reflexivity.
Qed.

(** ** The query path *)

Lemma handled_trace (w : World) (env : gmap string string) (evs : list Event)
    (store : gmap string (list Message)) :
  trace (handled w env evs store) = trace w ++ evs.
Proof. reflexivity. Qed.

Lemma handled_redis (w : World) (env : gmap string string) (evs : list Event)
    (store : gmap string (list Message)) :
  redis (handled w env evs store) = store.
Proof. reflexivity. Qed.


(** The run of a validated request, read off the handler's result. *)
Lemma validated_query_run {Vector Score} (svc : Services Vector Score)
    (request : Request) (q : RetrieveData) (w : World) :
  KnowledgeRetrieveSerializer svc request = inr q ->
  exists evs resp store,
    QueryRun svc q w evs resp store /\
    KnowledgeRetrieveView_post svc request w
      = (Return resp,
         handled w (<["OPENAI_API_KEY" := rd_openai_api_key q]> (environ w))
                 (EvSetEnv "OPENAI_API_KEY" (rd_openai_api_key q) :: evs) store).
Proof.
  intros Hv. pose proof (KnowledgeRetrieveView_post_run svc request w) as H.
  rewrite Hv in H. exact H.
Qed.

(** Membership in an explicit list of logged calls. *)
Ltac event_eq H :=
  first [discriminate H | injection H; clear H; intros; subst | idtac].

Ltac in_events H :=
  simpl in H;
  lazymatch type of H with
  | _ \/ _ => destruct H as [H|H]; [event_eq H | in_events H]
  | False => destruct H
  | _ => event_eq H
  end.

(** *** Selection inside the handler *)

Lemma shortlist_pick {Vector Score} (svc : Services Vector Score)
    (v : Vector) (w : World) :
  pg_collection w <> [] ->
  exists c,
    Selector.get_most_similar_collection (score_leb svc) (shortlist_for svc w v)
      = inr (cand_id c) /\
    In c (shortlist_for svc w v) /\
    In (cand_id c) (List.map uuid (pg_collection w)) /\
    (Selector.total_preorder (score_leb svc) ->
     forall x, In x (shortlist_for svc w v) -> Selector.no_worse (score_leb svc) c x).
Proof.
  intros Hne. unfold shortlist_for.
  assert (Hs : Selector.get_top3_similar_collections (score_leb svc)
                 (scored_catalog svc v w) <> []).
  { apply SelectorFacts.top3_nonempty. intros E.
    apply (f_equal (@length _)) in E. rewrite scored_catalog_length in E.
    destruct (pg_collection w); [congruence | discriminate]. }
  destruct (Selector.get_top3_similar_collections (score_leb svc)
              (scored_catalog svc v w)) as [|c rest] eqn:E; [congruence|].
  exists (Selector.best_of (score_leb svc) c rest).
  pose proof (SelectorFacts.best_of_In (score_leb svc) c rest) as Hin.
  split; [reflexivity|]. split; [exact Hin|]. split.
  - rewrite <- (scored_catalog_ids svc v w).
    apply List.in_map. apply (SelectorFacts.top3_In (score_leb svc)).
    rewrite E. exact Hin.
  - intros [Htotal Htrans] x Hx.
    now apply (SelectorFacts.best_of_max (score_leb svc) c rest Htotal Htrans).
Qed.

(** C1. Over a non-empty catalog the selection is in two stages.  The
    first gives a shortlist of exactly [min 3 (catalog size)] of the
    scored catalog's candidates: the shortlist and the candidates it
    leaves out are together a reordering of the scored catalog, and when
    the comparison of scores is a total preorder the shortlist is sorted
    best first and no candidate left out beats a shortlisted one, so the
    shortlist is the top three.  The second picks one candidate of the
    shortlist, whose id is the id of a catalog row; under a total
    preorder no candidate of the whole catalog beats the pick.  The
    handler runs the two stages in that order on the embedding of the
    question: the second is given the shortlist of the first, and the
    collection looked up next is the one picked. *)
Theorem C1_two_stage_selection {Vector Score} (svc : Services Vector Score)
    (request : Request) (q : RetrieveData) (v : Vector) (w : World) :
  pg_collection w <> [] ->
  let scored := scored_catalog svc v w in
  let shortlist := shortlist_for svc w v in
  let no_worse := Selector.no_worse (score_leb svc) in
  let ordered := Selector.total_preorder (score_leb svc) in
  length shortlist = Nat.min 3 (length (pg_collection w)) /\
  (exists rest,
     Permutation scored (shortlist ++ rest) /\
     (ordered ->
      StronglySorted no_worse shortlist /\
      forall c d, In c shortlist -> In d rest -> no_worse c d)) /\
  exists c,
    Selector.get_most_similar_collection (score_leb svc) shortlist = inr (cand_id c) /\
    In c shortlist /\
    In (cand_id c) (List.map uuid (pg_collection w)) /\
    (ordered -> forall x, In x scored -> no_worse c x) /\
    (KnowledgeRetrieveSerializer svc request = inr q ->
     generate_embeddings svc (rd_openai_api_key q) (rd_question q) = inr v ->
     fault svc EvTop3 = None ->
     exists rest,
       trace (snd (KnowledgeRetrieveView_post svc request w))
       = trace w
           ++ [EvSetEnv "OPENAI_API_KEY" (rd_openai_api_key q); EvHaveEmbeddings;
               EvEmbed (rd_question q); EvTop3;
               EvMostSimilar (List.map cand_id shortlist);
               EvCollectionGet (cand_id c)]
           ++ rest).
Proof.
  intros Hne scored shortlist no_worse ordered.
  split.
  { subst shortlist. unfold shortlist_for.
    rewrite SelectorFacts.top3_length, scored_catalog_length. reflexivity. }
  destruct (SelectorFacts.top3_split (score_leb svc) scored) as [Hperm Hsorted].
  fold (shortlist_for svc w v) in Hperm, Hsorted. fold shortlist in Hperm, Hsorted.
  split.
  { eexists. split; [exact Hperm | exact Hsorted]. }
  destruct (shortlist_pick svc v w Hne) as (c & Hpick & Hin & Hid & Hmax).
  exists c. fold shortlist in Hpick, Hin, Hmax.
  split; [exact Hpick|]. split; [exact Hin|]. split; [exact Hid|].
  split.
  { intros Hord x Hx.
    apply (Permutation_in x Hperm) in Hx. apply in_app_or in Hx as [Hx|Hx].
    - now apply Hmax.
    - exact (proj2 (Hsorted Hord) c x Hin Hx). }
  intros Hv Hemb Hrank.
  destruct (validated_query_run svc request q w Hv)
    as (evs & resp & store & Hrun & Heq).
  rewrite Heq. cbn [snd]. rewrite handled_trace.
  destruct Hrun as [ Hnil | m _ He | v' m _ He Ht | v' m _ He Ht Hp
                   | v' cid m _ He Ht Hp Hf | v' cid m _ He Ht Hp Hf Hl
                   | v' cid c' evs r store _ He Ht Hp Hf Hl Hchain];
    try congruence;
    rewrite Hemb in He; injection He as <-;
    fold shortlist in Hp; rewrite Hpick in Hp; try discriminate;
    injection Hp as <-.
  - exists []. reflexivity.
  - exists []. reflexivity.
  - exists evs. reflexivity.
Qed.

(** C3. A validated query issued while the catalog has no collection is
    answered with status 200 and the text asking to create embeddings
    first; the only calls made are the environment write and the catalog
    check, so no embedding is generated. *)
Theorem C3_no_collections_fast_reject {Vector Score} (svc : Services Vector Score)
    (request : Request) (q : RetrieveData) (w : World) :
  KnowledgeRetrieveSerializer svc request = inr q ->
  pg_collection w = [] ->
  let run := KnowledgeRetrieveView_post svc request w in
  fst run = Return (mkResponse 200 "No embeddings found. Please create embeddings first")
  /\ trace (snd run)
     = trace w ++ [EvSetEnv "OPENAI_API_KEY" (rd_openai_api_key q); EvHaveEmbeddings]
  /\ (forall text, ~ In (EvEmbed text)
        [EvSetEnv "OPENAI_API_KEY" (rd_openai_api_key q); EvHaveEmbeddings])
  /\ redis (snd run) = redis w.
Proof.
  intros Hv Hcat run.
  destruct (validated_query_run svc request q w Hv) as (evs & resp & store & Hrun & Heq).
  subst run. rewrite Heq. cbn [fst snd].
  rewrite handled_trace, handled_redis.
  destruct Hrun; try congruence.
  repeat split; try reflexivity.
  intros text [E|[E|[]]]; discriminate.
Qed.


(** *** The order of the pipeline steps *)

Lemma exactly_one_inv {A} (model : string) (matched : list A) (r : A) :
  exactly_one model matched = inr r -> matched = [r].
Proof.
  destruct matched as [|a [|b rest]]; simpl; intros E; try discriminate.
  injection E as <-. reflexivity.
Qed.

Lemma rows_with_uuid_one (w : World) (cid : string) (c : Collection) :
  exactly_one "Collection" (rows_with_uuid w cid) = inr c ->
  In c (pg_collection w) /\ uuid c = cid.
Proof.
  intros E. apply exactly_one_inv in E.
  assert (Hin : In c (rows_with_uuid w cid)) by (rewrite E; now left).
  unfold rows_with_uuid in Hin. apply List.filter_In in Hin as [Hin Heq].
  split; [exact Hin|]. now apply String.eqb_eq.
Qed.

(** C4. The steps of a query run, in the order their calls were made, are
    an initial part of: embed, select, contextualize, retrieve,
    synthesize.  So no step starts before the one before it in that list
    has been made, and a run that answers from a non-empty catalog has
    made all five in that order.  What is embedded is the question as it
    came, and what is searched is the collection that was picked. *)
Theorem C4_pipeline_order {Vector Score} (svc : Services Vector Score)
    (request : Request) (w : World) :
  let run := KnowledgeRetrieveView_post svc request w in
  exists evs n,
    trace (snd run) = trace w ++ evs /\
    steps_of evs = take n pipeline /\
    (forall resp, fst run = Return resp -> status resp = 200 ->
       pg_collection w <> [] -> steps_of evs = pipeline) /\
    (forall q text, KnowledgeRetrieveSerializer svc request = inr q ->
       In (EvEmbed text) evs -> text = rd_question q) /\
    (forall collection_name query, In (EvRetrieve collection_name query) evs ->
       exists c, In c (pg_collection w) /\ name c = collection_name /\
                 In (EvCollectionGet (uuid c)) evs).
Proof.
  intros run. subst run.
  pose proof (KnowledgeRetrieveView_post_run svc request w) as H.
  destruct (KnowledgeRetrieveSerializer svc request) as [m|q] eqn:Hv.
  { rewrite H. cbn [fst snd]. rewrite handled_trace.
    exists [], 0. split; [reflexivity|]. split; [reflexivity|].
    split; [|split].
    - intros resp E. injection E as <-. discriminate.
    - intros ? ? ? [].
    - intros ? ? []. }
  destruct H as (evs & resp & store & Hrun & Heq).
  rewrite Heq. cbn [fst snd]. rewrite handled_trace.
  eexists.
  assert (Hfail : forall (m : string) (resp' : JsonResponse) (P : Prop),
            Return (mkResponse 500 m) = Return resp' -> status resp' = 200 -> P).
  { intros m0 resp' P E Hs. injection E as <-. discriminate. }
  assert (Hq : forall (q' : RetrieveData) (P : Prop),
            (q' = q -> P) -> @inr string _ q = inr q' -> P).
  { intros q' P HP E. injection E as <-. now apply HP. }
  destruct Hrun as [ Hnil | | | | | | v cid c evs r store Hne He Ht Hp Hf Hl Hchain].
  - exists 0. split; [reflexivity|]. split; [reflexivity|].
    split; [|split].
    + intros resp _ _ Hc. destruct (Hc Hnil).
    + intros q' text E Hin. in_events Hin.
    + intros cn qu Hin. in_events Hin.
  - exists 1. split; [reflexivity|]. split; [reflexivity|].
    split; [|split].
    + intros; eapply Hfail; eauto.
    + intros q' text E Hin. apply (Hq q'); [intros ->|exact E]. in_events Hin. reflexivity.
    + intros cn qu Hin. in_events Hin.
  - exists 2. split; [reflexivity|]. split; [reflexivity|].
    split; [|split].
    + intros; eapply Hfail; eauto.
    + intros q' text E Hin. apply (Hq q'); [intros ->|exact E]. in_events Hin. reflexivity.
    + intros cn qu Hin. in_events Hin.
  - exists 2. split; [reflexivity|]. split; [reflexivity|].
    split; [|split].
    + intros; eapply Hfail; eauto.
    + intros q' text E Hin. apply (Hq q'); [intros ->|exact E]. in_events Hin. reflexivity.
    + intros cn qu Hin. in_events Hin.
  - exists 2. split; [reflexivity|]. split; [reflexivity|].
    split; [|split].
    + intros; eapply Hfail; eauto.
    + intros q' text E Hin. apply (Hq q'); [intros ->|exact E]. in_events Hin. reflexivity.
    + intros cn qu Hin. in_events Hin.
  - exists 2. split; [reflexivity|]. split; [reflexivity|].
    split; [|split].
    + intros; eapply Hfail; eauto.
    + intros q' text E Hin. apply (Hq q'); [intros ->|exact E]. in_events Hin. reflexivity.
    + intros cn qu Hin. in_events Hin.
  - apply rows_with_uuid_one in Hl as [Hin_c Hcid].
    destruct Hchain.
    + exists 3. split; [reflexivity|]. split; [reflexivity|].
      split; [|split].
      * intros; eapply Hfail; eauto.
      * intros q' text E Hin. apply (Hq q'); [intros ->|exact E]. in_events Hin. reflexivity.
      * intros cn qu Hin. in_events Hin.
    + exists 3. split; [reflexivity|]. split; [reflexivity|].
      split; [|split].
      * intros; eapply Hfail; eauto.
      * intros q' text E Hin. apply (Hq q'); [intros ->|exact E]. in_events Hin. reflexivity.
      * intros cn qu Hin. in_events Hin.
    + exists 4. split; [reflexivity|]. split; [reflexivity|].
      split; [|split].
      * intros; eapply Hfail; eauto.
      * intros q' text E Hin. apply (Hq q'); [intros ->|exact E]. in_events Hin. reflexivity.
      * intros cn qu Hin. in_events Hin.
        exists c. repeat split; auto. simpl. rewrite ?Hcid. tauto.
    + exists 5. split; [reflexivity|]. split; [reflexivity|].
      split; [|split].
      * intros; reflexivity.
      * intros q' text E Hin. apply (Hq q'); [intros ->|exact E]. in_events Hin. reflexivity.
      * intros cn qu Hin. in_events Hin.
        exists c. repeat split; auto. simpl. rewrite ?Hcid. tauto.
    + exists 5. split; [reflexivity|]. split; [reflexivity|].
      split; [|split].
      * intros; reflexivity.
      * intros q' text E Hin. apply (Hq q'); [intros ->|exact E]. in_events Hin. reflexivity.
      * intros cn qu Hin. in_events Hin.
        exists c. repeat split; auto. simpl. rewrite ?Hcid. tauto.
    + exists 5. split; [reflexivity|]. split; [reflexivity|].
      split; [|split].
      * intros; reflexivity.
      * intros q' text E Hin. apply (Hq q'); [intros ->|exact E]. in_events Hin. reflexivity.
      * intros cn qu Hin. in_events Hin.
        exists c. repeat split; auto. simpl. rewrite ?Hcid. tauto.
    + exists 5. split; [reflexivity|]. split; [reflexivity|].
      split; [|split].
      * intros; reflexivity.
      * intros q' text E Hin. apply (Hq q'); [intros ->|exact E]. in_events Hin. reflexivity.
      * intros cn qu Hin. in_events Hin.
        exists c. repeat split; auto. simpl. rewrite ?Hcid. tauto.
Qed.

(** *** The contextualizer *)

Lemma standalone_first_turn {Vector Score} (svc : Services Vector Score)
    (question query : string) :
  standalone_question svc question [] = inr query -> query = question.
Proof. simpl. intros E. injection E as <-. reflexivity. Qed.

Lemma standalone_follow_up {Vector Score} (svc : Services Vector Score)
    (question : string) (h : list Message) :
  h <> [] ->
  standalone_question svc question h
  = chat_model svc
      (SystemMessage (CONTEXTUALIZE_Q_SYSTEM_PROMPT svc) :: h ++ [HumanMessage question]).
Proof. destruct h; [congruence | reflexivity]. Qed.

(** C5. Whatever is searched in a query run is the standalone question of
    the contextualizer, which has two cases and no other: with no stored
    history for the session it is the question unchanged; with history it
    is what the chat model returns for the contextualize instruction, the
    history and the question.  The contextualization is logged right
    before the search, and nothing is searched before it.  The rewriting
    is a search query only: the answer of the run comes from the synthesis
    prompt, which carries the question as asked. *)
Theorem C5_contextualizer_two_behaviours {Vector Score} (svc : Services Vector Score)
    (request : Request) (q : RetrieveData) (w : World) (evs : list Event)
    (collection_name query : string) :
  KnowledgeRetrieveSerializer svc request = inr q ->
  let run := KnowledgeRetrieveView_post svc request w in
  let h := stored (rd_user_id q) (redis w) in
  trace (snd run) = trace w ++ evs ->
  In (EvRetrieve collection_name query) evs ->
  standalone_question svc (rd_question q) h = inr query
  /\ (h = [] -> query = rd_question q)
  /\ (h <> [] ->
      chat_model svc
        (SystemMessage (CONTEXTUALIZE_Q_SYSTEM_PROMPT svc)
           :: h ++ [HumanMessage (rd_question q)]) = inr query)
  /\ (exists pre post,
        evs = pre ++ EvContextualize (rd_question q) (follow_up h)
                  :: EvRetrieve collection_name query :: post
        /\ forall c' q', ~ In (EvRetrieve c' q') pre)
  /\ (forall resp, fst run = Return resp -> status resp = 200 ->
        exists context,
          chat_model svc (qa_prompt svc context (rd_question q) h)
          = inr (message resp)).
Proof.
  intros Hv run h Htrace Hin. subst run.
  destruct (validated_query_run svc request q w Hv)
    as (evs0 & resp & store & Hrun & Heq).
  rewrite Heq in *. cbn [fst snd] in *. rewrite handled_trace in Htrace.
  apply app_inv_head in Htrace. subst evs.
  assert (Hcases : forall query', standalone_question svc (rd_question q) h = inr query' ->
            (h = [] -> query' = rd_question q)
            /\ (h <> [] ->
                chat_model svc
                  (SystemMessage (CONTEXTUALIZE_Q_SYSTEM_PROMPT svc)
                     :: h ++ [HumanMessage (rd_question q)]) = inr query')).
  { intros query' Hs. split.
    - intros Hh. rewrite Hh in Hs. now apply standalone_first_turn in Hs.
    - intros Hh. now rewrite <- (standalone_follow_up svc _ h Hh). }
  destruct Hrun as [ | | | | | | v cid c evs r store Hne He Ht Hp Hf Hl Hchain];
    try (in_events Hin; fail).
  destruct Hchain as [ | | query0 m Hr Hq Hs | query0 context m Hr Hq Hs Ha
                     | query0 context answer Hr Hq Hs Ha Hw1 Hw2
                     | query0 context answer m Hr Hq Hs Ha Hw1
                     | query0 context answer m Hr Hq Hs Ha Hw1 Hw2 ];
    try (in_events Hin; fail).
  - in_events Hin. fold h in Hq.
    split; [exact Hq|]. destruct (Hcases _ Hq) as [H1 H2].
    split; [exact H1|]. split; [exact H2|]. split.
    + eexists [_; _; _; _; _; _; _], []. split; [reflexivity|].
      intros c' q' Hpre. in_events Hpre.
    + intros resp E Hs200. injection E as <-. discriminate.
  - in_events Hin. fold h in Hq.
    split; [exact Hq|]. destruct (Hcases _ Hq) as [H1 H2].
    split; [exact H1|]. split; [exact H2|]. split.
    + eexists [_; _; _; _; _; _; _], [_]. split; [reflexivity|].
      intros c' q' Hpre. in_events Hpre.
    + intros resp E Hs200. injection E as <-. discriminate.
  - in_events Hin. fold h in Hq.
    split; [exact Hq|]. destruct (Hcases _ Hq) as [H1 H2].
    split; [exact H1|]. split; [exact H2|]. split.
    + eexists [_; _; _; _; _; _; _], [_; _; _]. split; [reflexivity|].
      intros c' q' Hpre. in_events Hpre.
    + intros resp E Hs200. injection E as <-. exists context. exact Ha.
  - in_events Hin. fold h in Hq.
    split; [exact Hq|]. destruct (Hcases _ Hq) as [H1 H2].
    split; [exact H1|]. split; [exact H2|]. split.
    + eexists [_; _; _; _; _; _; _], [_; _]. split; [reflexivity|].
      intros c' q' Hpre. in_events Hpre.
    + intros resp E Hs200. injection E as <-. exists context. exact Ha.
  - in_events Hin. fold h in Hq.
    split; [exact Hq|]. destruct (Hcases _ Hq) as [H1 H2].
    split; [exact H1|]. split; [exact H2|]. split.
    + eexists [_; _; _; _; _; _; _], [_; _; _]. split; [reflexivity|].
      intros c' q' Hpre. in_events Hpre.
    + intros resp E Hs200. injection E as <-. exists context. exact Ha.
Qed.

(** *** The session key *)

Lemma stored_insert_eq (k : string) (l : list Message)
    (store : gmap string (list Message)) :
  stored k (<[k := l]> store) = l.
Proof. unfold stored. rewrite lookup_insert_eq. reflexivity. Qed.

(** What one run does to the history store, and under which key. *)
Lemma QueryRun_history {Vector Score} (svc : Services Vector Score)
    (q : RetrieveData) (w : World) (evs : list Event) (resp : JsonResponse)
    (store : gmap string (list Message)) :
  QueryRun svc q w evs resp store ->
  let sid := rd_user_id q in
  let h := stored sid (redis w) in
  (forall s, In (EvHistoryRead s) evs -> s = sid)
  /\ (forall s m, In (EvHistoryAdd s m) evs -> s = sid)
  /\ (forall k, k <> sid -> store !! k = redis w !! k)
  /\ (forall a, resp = mkResponse 200 a -> pg_collection w <> [] ->
        let turns := [HumanMessage (rd_question q); AIMessage a] in
        (exists context,
           chat_model svc (qa_prompt svc context (rd_question q) h) = inr a)
        /\ (exists l, l `prefix_of` turns /\ stored sid store = h ++ l)
        /\ ((forall m, fault svc (EvHistoryAdd sid m) = None) ->
            store = <[sid := h ++ turns]> (redis w))).
Proof.
  intros Hrun sid h.
  destruct Hrun as [ Hnil | | | | | | v cid c evs r store Hne He Ht Hp Hf Hl Hchain].
  1-6: (split; [intros s Hin; in_events Hin|];
        split; [intros s m' Hin; in_events Hin|];
        split; [reflexivity|];
        intros a E Hc; first [destruct (Hc Hnil) | discriminate E]).
  destruct Hchain as [ | | |
                     | query context answer Hr Hq Hs Ha Hw1 Hw2
                     | query context answer m Hr Hq Hs Ha Hw1
                     | query context answer m Hr Hq Hs Ha Hw1 Hw2 ].
  1-4: (split; [intros s Hin; in_events Hin; reflexivity|];
        split; [intros s m' Hin; in_events Hin|];
        split; [reflexivity|];
        intros a E Hc; discriminate E).
  - split; [intros s Hin; in_events Hin; reflexivity|].
    split; [intros s m' Hin; in_events Hin; reflexivity|].
    split.
    + intros k Hk. apply lookup_insert_ne. intros E. apply Hk. symmetry. exact E.
    + intros a E _. injection E as <-. cbv zeta.
      split; [exists context; exact Ha|].
      split; [|intros _; reflexivity].
      eexists. split; [reflexivity|]. apply stored_insert_eq.
  - split; [intros s Hin; in_events Hin; reflexivity|].
    split; [intros s m' Hin; in_events Hin; reflexivity|].
    split; [reflexivity|].
    intros a E _. injection E as <-. cbv zeta.
    split; [exists context; exact Ha|].
    split.
    + exists []. split; [apply prefix_nil | symmetry; apply app_nil_r].
    + intros Hno. fold sid in Hw1. rewrite Hno in Hw1. discriminate.
  - split; [intros s Hin; in_events Hin; reflexivity|].
    split; [intros s m' Hin; in_events Hin; reflexivity|].
    split.
    + intros k Hk. apply lookup_insert_ne. intros E. apply Hk. symmetry. exact E.
    + intros a E _. injection E as <-. cbv zeta.
      split; [exists context; exact Ha|].
      split.
      * exists [HumanMessage (rd_question q)].
        split; [exists [AIMessage answer]; reflexivity | apply stored_insert_eq].
      * intros Hno. fold sid in Hw2. rewrite Hno in Hw2. discriminate.
Qed.

(** C10. The key under which the query handler reads and writes the chat
    history is the request's [user_id] and nothing else: over two
    requests in a row that carry the same [user_id], every history call
    is made under that key and no other key of the store changes,
    whatever collections the two requests are routed to.  When both are
    answered, the second is synthesized over the log as the first has
    left it, and each adds to that one log the turns that its writes got
    through, after those of the other; when no write to the session
    fails, the log ends up with the four turns in order. *)
Theorem C10_session_key_is_user_id {Vector Score} (svc : Services Vector Score)
    (request1 request2 : Request) (q1 q2 : RetrieveData) (w : World) :
  KnowledgeRetrieveSerializer svc request1 = inr q1 ->
  KnowledgeRetrieveSerializer svc request2 = inr q2 ->
  rd_user_id q2 = rd_user_id q1 ->
  let sid := rd_user_id q1 in
  let run1 := KnowledgeRetrieveView_post svc request1 w in
  let run2 := KnowledgeRetrieveView_post svc request2 (snd run1) in
  (forall evs, trace (snd run2) = trace w ++ evs ->
     (forall s, In (EvHistoryRead s) evs -> s = sid)
     /\ (forall s m, In (EvHistoryAdd s m) evs -> s = sid))
  /\ (forall k, k <> sid -> redis (snd run2) !! k = redis w !! k)
  /\ (forall a1 a2,
        pg_collection w <> [] ->
        fst run1 = Return (mkResponse 200 a1) ->
        fst run2 = Return (mkResponse 200 a2) ->
        let h := stored sid (redis w) in
        let turns1 := [HumanMessage (rd_question q1); AIMessage a1] in
        let turns2 := [HumanMessage (rd_question q2); AIMessage a2] in
        (exists context,
           chat_model svc
             (qa_prompt svc context (rd_question q2) (stored sid (redis (snd run1))))
           = inr a2)
        /\ (exists l1 l2,
              l1 `prefix_of` turns1 /\ l2 `prefix_of` turns2
              /\ stored sid (redis (snd run1)) = h ++ l1
              /\ stored sid (redis (snd run2)) = h ++ l1 ++ l2)
        /\ ((forall m, fault svc (EvHistoryAdd sid m) = None) ->
            stored sid (redis (snd run1)) = h ++ turns1
            /\ stored sid (redis (snd run2)) = h ++ turns1 ++ turns2)).
Proof.
  intros Hv1 Hv2 Hsid sid run1 run2. subst run1 run2.
  destruct (validated_query_run svc request1 q1 w Hv1)
    as (evs1 & resp1 & store1 & Hrun1 & Heq1).
  rewrite Heq1. cbn [fst snd].
  set (w1 := handled w _ _ store1).
  destruct (validated_query_run svc request2 q2 w1 Hv2)
    as (evs2 & resp2 & store2 & Hrun2 & Heq2).
  rewrite Heq2. cbn [fst snd].
  rewrite handled_redis, handled_trace.
  destruct (QueryRun_history svc q1 w evs1 resp1 store1 Hrun1)
    as (Hr1 & Ha1 & Hk1 & Hok1).
  destruct (QueryRun_history svc q2 w1 evs2 resp2 store2 Hrun2)
    as (Hr2 & Ha2 & Hk2 & Hok2).
  cbv zeta in Hok1, Hok2.
  rewrite Hsid in Hr2, Ha2, Hk2, Hok2. fold sid in Hr1, Ha1, Hk1, Hok1, Hr2, Ha2, Hk2, Hok2.
  assert (Hredis1 : redis w1 = store1) by reflexivity.
  assert (Hpg1 : pg_collection w1 = pg_collection w) by reflexivity.
  split; [|split].
  - intros evs Htrace. subst w1. rewrite handled_trace, <- app_assoc in Htrace.
    apply app_inv_head in Htrace. subst evs.
    split.
    + intros s Hin. apply in_app_or in Hin as [Hin|Hin].
      * destruct Hin as [E|Hin]; [discriminate|]. now apply Hr1.
      * destruct Hin as [E|Hin]; [discriminate|]. now apply Hr2.
    + intros s m Hin. apply in_app_or in Hin as [Hin|Hin].
      * destruct Hin as [E|Hin]; [discriminate|]. now apply (Ha1 s m).
      * destruct Hin as [E|Hin]; [discriminate|]. now apply (Ha2 s m).
  - intros k Hk. rewrite (Hk2 k Hk), Hredis1. now apply Hk1.
  - intros a1 a2 Hne E1 E2. injection E1 as ->. injection E2 as ->.
    destruct (Hok1 a1 eq_refl Hne) as (_ & (l1 & Hp1 & Hl1) & Hall1).
    assert (Hne1 : pg_collection w1 <> []) by (rewrite Hpg1; exact Hne).
    destruct (Hok2 a2 eq_refl Hne1) as ((context & Hc2) & (l2 & Hp2 & Hl2) & Hall2).
    rewrite Hredis1 in Hc2, Hl2, Hall2.
    cbv zeta. split; [exists context; exact Hc2|]. split.
    + exists l1, l2. repeat (split; [assumption|]).
      rewrite Hl2, Hl1, <- app_assoc. reflexivity.
    + intros Hno. specialize (Hall1 Hno). specialize (Hall2 Hno).
      assert (Hst1 : stored sid store1
                     = stored sid (redis w)
                         ++ [HumanMessage (rd_question q1); AIMessage a1]).
      { rewrite Hall1. apply stored_insert_eq. }
      split; [exact Hst1|].
      rewrite Hall2, stored_insert_eq, Hst1, <- app_assoc. reflexivity.
Qed.

(** ** The deletion path *)

(** A path on which the collection has been dropped: the lookup by name
    made on the way reads the catalog of [w]. *)
Ltac deletion_path w n :=
  unfold drop_collection;
  repeat match goal with
         | |- context [get_collection n ?w1] =>
             lazymatch w1 with
             | w => fail
             | _ => change (get_collection n w1) with (get_collection n w)
             end
         end;
  destruct (get_collection n w); run_norm; fold_world w; rewrite <- !app_assoc;
  repeat (split; [reflexivity|]); reflexivity.

(** The run of a validated deletion request whose reference is known. *)
Lemma KnowledgeView_delete_run {Vector Score} (svc : Services Vector Score)
    (request : Request) (d : DeleteData) (k : Knowledge) (c : Collection)
    (w : World) :
  KnowledgeDeleteSerializer svc request = inr d ->
  fault svc (EvKnowledgeGet (dd_url d)) = None ->
  exactly_one "Knowledge" (rows_with_url w (dd_url d)) = inr k ->
  fault svc (EvCollectionGet (collection_id k)) = None ->
  exactly_one "Collection" (rows_with_uuid w (collection_id k)) = inr c ->
  let run := KnowledgeView_delete svc request w in
  let u := dd_url d in
  let f1 := fault svc (EvDeleteCollection (name c)) in
  let f2 := fault svc (EvKnowledgeDelete u) in
  let f3 := fault svc (EvDeleteBlob (get_blob_name svc u)) in
  trace (snd run)
    = trace w
        ++ [EvSetEnv "OPENAI_API_KEY" (dd_openai_api_key d);
            EvKnowledgeGet u; EvCollectionGet (collection_id k)]
        ++ take (deletions_started svc u (name c)) (deletion_steps svc u (name c))
  /\ fst run
     = Return (match deletion_failure svc u (name c) with
               | Some m => mkResponse 500 m
               | None => mkResponse 200 "Successfully deleted"
               end)
  /\ pg_collection (snd run)
     = (if fails f1 then pg_collection w else pg_collection (drop_collection (name c) w))
  /\ pg_embedding (snd run)
     = (if fails f1 then pg_embedding w else pg_embedding (drop_collection (name c) w))
  /\ knowledge_tbl (snd run)
     = (if fails f1 then knowledge_tbl w
        else if fails f2 then knowledge_tbl w
        else without_url u (knowledge_tbl w))
  /\ bucket (snd run)
     = (if fails f1 then bucket w
        else if fails f2 then bucket w
        else if fails f3 then bucket w
        else bucket w ∖ {[get_blob_name svc u]}).
Proof.
  intros Hv Hkf Hk Hcf Hc run u f1 f2 f3. subst run u f1 f2 f3.
  unfold deletions_started, deletion_failure, deletion_steps.
  run_norm. rewrite Hv. run_norm. rewrite Hkf. run_norm. fold_world w.
  fold (rows_with_url w (dd_url d)). rewrite Hk. run_norm. rewrite Hcf.
  run_norm. fold_world w. fold (rows_with_uuid w (collection_id k)).
  rewrite Hc. run_norm.
  destruct (fault svc (EvDeleteCollection (name c))) as [m1|].
  { run_norm. fold_world w. rewrite <- !app_assoc. repeat (split; [reflexivity|]); reflexivity. }
  run_norm.
  destruct (fault svc (EvKnowledgeDelete (dd_url d))) as [m2|].
  { deletion_path w (name c). }
  run_norm.
  destruct (fault svc (EvDeleteBlob (get_blob_name svc (dd_url d)))) as [m3|].
  { deletion_path w (name c). }
  deletion_path w (name c).
Qed.

Lemma remove_first_length {A} (p : A -> bool) (l : list A) (x : A) :
  In x l -> p x = true -> S (length (remove_first p l)) = length l.
Proof.
  induction l as [|a r IH]; simpl; [tauto|].
  intros [->|Hin] Hp.
  - rewrite Hp. reflexivity.
  - destruct (p a); [reflexivity|]. simpl. f_equal. now apply IH.
Qed.

Lemma get_collection_known (w : World) (c : Collection) :
  In c (pg_collection w) -> exists c', get_collection (name c) w = Some c'.
Proof.
  intros Hin. unfold get_collection.
  destruct (List.find (fun c0 => String.eqb (name c0) (name c)) (pg_collection w))
    as [c'|] eqn:E; [eauto|].
  apply (List.find_none _ _ E) in Hin. rewrite String.eqb_refl in Hin. discriminate.
Qed.

Lemma drop_collection_length (w : World) (c : Collection) :
  In c (pg_collection w) ->
  S (length (pg_collection (drop_collection (name c) w))) = length (pg_collection w).
Proof.
  intros Hin. unfold drop_collection.
  destruct (get_collection_known w c Hin) as [c' ->].
  cbn. apply (remove_first_length _ _ c Hin). apply String.eqb_refl.
Qed.

(** C8. For a validated deletion request whose reference is known (one
    knowledge row has the url, one collection row has its collection id),
    the handler starts the three deletions in the order: collection in the
    vector store, knowledge row, blob; each is started only when the one
    before has not failed.  Nothing is undone when a later one fails: the
    collection stays dropped when the row deletion fails, and the
    collection and the row stay deleted when the blob deletion fails.  The
    response is 200 when none fails and a 500 with the failure's text
    otherwise.  Dropping the collection takes one row out of the catalog. *)
Theorem C8_deletion_steps_in_order {Vector Score} (svc : Services Vector Score)
    (request : Request) (d : DeleteData) (k : Knowledge) (c : Collection)
    (w : World) :
  KnowledgeDeleteSerializer svc request = inr d ->
  fault svc (EvKnowledgeGet (dd_url d)) = None ->
  exactly_one "Knowledge" (rows_with_url w (dd_url d)) = inr k ->
  fault svc (EvCollectionGet (collection_id k)) = None ->
  exactly_one "Collection" (rows_with_uuid w (collection_id k)) = inr c ->
  let run := KnowledgeView_delete svc request w in
  let u := dd_url d in
  let f1 := fault svc (EvDeleteCollection (name c)) in
  let f2 := fault svc (EvKnowledgeDelete u) in
  let f3 := fault svc (EvDeleteBlob (get_blob_name svc u)) in
  trace (snd run)
    = trace w
        ++ [EvSetEnv "OPENAI_API_KEY" (dd_openai_api_key d);
            EvKnowledgeGet u; EvCollectionGet (collection_id k)]
        ++ take (deletions_started svc u (name c)) (deletion_steps svc u (name c))
  /\ fst run
     = Return (match deletion_failure svc u (name c) with
               | Some m => mkResponse 500 m
               | None => mkResponse 200 "Successfully deleted"
               end)
  /\ pg_collection (snd run)
     = (if fails f1 then pg_collection w else pg_collection (drop_collection (name c) w))
  /\ pg_embedding (snd run)
     = (if fails f1 then pg_embedding w else pg_embedding (drop_collection (name c) w))
  /\ knowledge_tbl (snd run)
     = (if fails f1 then knowledge_tbl w
        else if fails f2 then knowledge_tbl w
        else without_url u (knowledge_tbl w))
  /\ bucket (snd run)
     = (if fails f1 then bucket w
        else if fails f2 then bucket w
        else if fails f3 then bucket w
        else bucket w ∖ {[get_blob_name svc u]})
  /\ S (length (pg_collection (drop_collection (name c) w))) = length (pg_collection w).
Proof.
  intros Hv Hkf Hk Hcf Hc run u f1 f2 f3.
  destruct (KnowledgeView_delete_run svc request d k c w Hv Hkf Hk Hcf Hc)
    as (Ht & Hr & Hpc & Hpe & Hkt & Hb).
  repeat (split; [assumption|]).
  apply drop_collection_length.
  now apply rows_with_uuid_one in Hc as [Hin _].
Qed.

(** ** The ingestion path *)

(** An extension outside [DOC_EXTENSIONS] is refused before anything is
    staged: the world is left as it was. *)
Lemma KnowledgeView_post_extension_refused {Vector Score} (svc : Services Vector Score)
    (request : Request) (d : CreateData) (w : World) :
  KnowledgeCreateSerializer svc request = inr d ->
  ing_extension svc d ∉ DOC_EXTENSIONS svc ->
  KnowledgeView_post svc request w
  = (Return (mkResponse 400 "Please upload a txt file"), set_frame (fun _ => ∅) w).
Proof.
  intros Hv Hext. run_norm. rewrite Hv. run_norm.
  fold (ing_extension svc d). rewrite (bool_decide_eq_false_2 _ Hext). run_norm.
  fold_world w. reflexivity.
Qed.

(** No loader for an accepted extension: the answer is a 400, given after
    the file has been staged and uploaded and the credential put in the
    environment; nothing is cleaned up. *)
Lemma KnowledgeView_post_no_loader {Vector Score} (svc : Services Vector Score)
    (request : Request) (d : CreateData) (w : World) :
  KnowledgeCreateSerializer svc request = inr d ->
  ing_extension svc d ∈ DOC_EXTENSIONS svc ->
  fault svc (EvMakedirs (ing_tmp svc w)) = None ->
  fault svc (EvSave (ing_file_path svc d w)) = None ->
  fault svc (EvUploadBlob (ing_storage_path svc d w)) = None ->
  get_loader svc (ing_file_path svc d w) (ing_extension svc d) = None ->
  let run := KnowledgeView_post svc request w in
  fst run = Return (mkResponse 400
                      ("File extension " +:+ ing_extension svc d +:+ " is not supported"))
  /\ bucket (snd run) = {[ing_storage_path svc d w]} ∪ bucket w
  /\ tmp_fs (snd run) = {[ing_tmp svc w]} ∪ tmp_fs w
  /\ environ (snd run) = <["OPENAI_API_KEY" := cd_openai_api_key d]> (environ w)
  /\ trace (snd run)
     = trace w ++ [EvMakedirs (ing_tmp svc w); EvSave (ing_file_path svc d w);
                   EvUploadBlob (ing_storage_path svc d w);
                   EvSetEnv "OPENAI_API_KEY" (cd_openai_api_key d)]
  /\ pg_collection (snd run) = pg_collection w
  /\ knowledge_tbl (snd run) = knowledge_tbl w.
Proof.
  intros Hv Hext Hmk Hsave Hup Hload run. subst run.
  run_norm. rewrite Hv. run_norm.
  fold (ing_extension svc d). rewrite (bool_decide_eq_true_2 _ Hext). run_norm.
  fold_world w. fold (ing_safe_string svc w). fold (ing_tmp svc w).
  rewrite lookup_insert_eq. run_norm.
  rewrite Hmk. run_norm.
  fold (ing_file_path svc d w). rewrite Hsave. run_norm.
  fold (ing_storage_path svc d w). rewrite Hup. run_norm.
  rewrite Hload. run_norm. fold_world w. rewrite <- !app_assoc.
  repeat (split; [reflexivity|]); reflexivity.
Qed.

(** A request the serializer refuses: the exception reaches the except
    clause before [tmp_storage_path] is assigned, the clause reads it, and
    what leaves the handler is that second exception. *)
Lemma KnowledgeView_post_invalid {Vector Score} (svc : Services Vector Score)
    (request : Request) (m : string) (w : World) :
  KnowledgeCreateSerializer svc request = inl m ->
  KnowledgeView_post svc request w
  = (Raise (UnboundLocalError "tmp_storage_path"), set_frame (fun _ => ∅) w).
Proof.
  intros Hv. run_norm. rewrite Hv. run_norm.
  rewrite lookup_empty. fold_world w. reflexivity.
Qed.

(** One more case split on the way through the ingestion handler. *)
Ltac path_split :=
  match goal with
  | |- context [match fault ?s ?e with _ => _ end] => destruct (fault s e) eqn:?
  | |- context [match get_loader ?s ?a ?b with _ => _ end] =>
      destruct (get_loader s a b) as [[?|?]|] eqn:?
  | |- context [match exactly_one ?m ?l with _ => _ end] =>
      destruct (exactly_one m l) eqn:?
  | |- context [bool_decide (?x ∈ ?X)] => destruct (bool_decide (x ∈ X)) eqn:?
  | |- context [store_documents _ _ _ _] => unfold store_documents
  | |- context [match get_collection ?n ?w with _ => _ end] =>
      destruct (get_collection n w) eqn:?
  end.



(** With the staging directory made and removable, the handler always
    answers, and every answer other than the 400 of a missing loader is
    given with the staging directory removed: the clean-up is run after
    the last step and after any exception alike. *)
Lemma KnowledgeView_post_cleans_up {Vector Score} (svc : Services Vector Score)
    (request : Request) (d : CreateData) (w : World) :
  KnowledgeCreateSerializer svc request = inr d ->
  ing_extension svc d ∈ DOC_EXTENSIONS svc ->
  fault svc (EvMakedirs (ing_tmp svc w)) = None ->
  fault svc (EvRmtree (ing_tmp svc w)) = None ->
  let run := KnowledgeView_post svc request w in
  exists resp,
    fst run = Return resp
    /\ (status resp = 400 \/ ing_tmp svc w ∉ tmp_fs (snd run)).
Proof.
  intros Hv Hext Hmk Hrm run. subst run.
  run_norm. rewrite Hv. run_norm.
  fold (ing_extension svc d). rewrite (bool_decide_eq_true_2 _ Hext). run_norm.
  fold_world w. fold (ing_safe_string svc w). fold (ing_tmp svc w).
  rewrite lookup_insert_eq. run_norm.
  rewrite Hmk. run_norm.
  assert (Hin : ing_tmp svc w ∈ {[ing_tmp svc w]} ∪ tmp_fs w) by set_solver.
  repeat (first [ rewrite lookup_insert_eq
                | rewrite Hrm
                | rewrite (bool_decide_eq_true_2 _ Hin)
                | path_split ];
          run_norm).
  all: fold_world w.
  all: eexists; (split; [reflexivity|]);
    first [left; reflexivity | right; cbn; clear; set_solver].
Qed.

(** C6. Two ingestion requests that fail, and what the caller gets.  A
    request without a file is refused by the serializer with "This field
    is required."; the except clause then reads [tmp_storage_path], which
    was never assigned, and the handler ends with that error instead of a
    response.  A request whose upload fails with "503 Service Unavailable"
    while the staging directory cannot be removed ends with the error of
    the removal: the text of the upload failure is lost, and the staging
    directory is still there. *)
Theorem C6_cleanup_failure_masks_error :
  (let run := KnowledgeView_post (Demo.services Demo.no_fault)
                (Demo.request [("openai_api_key", "sk-1")] None) Demo.empty_world in
   KnowledgeCreateSerializer (Demo.services Demo.no_fault)
     (Demo.request [("openai_api_key", "sk-1")] None) = inl "This field is required."
   /\ fst run = Raise (UnboundLocalError "tmp_storage_path")
   /\ trace (snd run) = [])
  /\
  (let run := KnowledgeView_post (Demo.services Demo.upload_and_cleanup_fail)
                (Demo.upload_of "notes.txt") Demo.empty_world in
   fst run = Raise (Exception "[Errno 13] Permission denied")
   /\ trace (snd run)
      = [EvMakedirs "tmp/tok0"; EvSave "tmp/tok0/notes.txt";
         EvUploadBlob "knowledges/tok0_notes.txt"; EvRmtree "tmp/tok0"]
   /\ "tmp/tok0" ∈ tmp_fs (snd run)).
Proof.
  split.
  - cbv zeta. split; [vm_compute; reflexivity|].
    rewrite (KnowledgeView_post_invalid _ _ "This field is required.")
      by (vm_compute; reflexivity).
    split; reflexivity.
  - cbv zeta. split; [vm_compute; reflexivity|].
    split; [vm_compute; reflexivity|].
    refine (bool_decide_unpack _ _). vm_compute. exact I.
Qed.

(** C7. An upload "notes.pdf" in a deployment that accepts ".pdf" but has
    a loader for ".txt" only is answered with a 400 naming the extension,
    after the file has been staged and uploaded: the blob is in the
    bucket and the staging directory is left behind.  No collection and
    no knowledge row is written.  An upload "notes.exe", whose extension
    is not accepted, is answered with a 400 and leaves no trace at all. *)
Theorem C7_no_loader_rejected_after_upload :
  (let run := KnowledgeView_post (Demo.services Demo.no_fault)
                (Demo.upload_of "notes.pdf") Demo.empty_world in
   fst run = Return (mkResponse 400 "File extension .pdf is not supported")
   /\ "knowledges/tok0_notes.pdf" ∈ bucket (snd run)
   /\ "tmp/tok0" ∈ tmp_fs (snd run)
   /\ trace (snd run)
      = [EvMakedirs "tmp/tok0"; EvSave "tmp/tok0/notes.pdf";
         EvUploadBlob "knowledges/tok0_notes.pdf"; EvSetEnv "OPENAI_API_KEY" "sk-1"]
   /\ pg_collection (snd run) = []
   /\ knowledge_tbl (snd run) = [])
  /\
  (let run := KnowledgeView_post (Demo.services Demo.no_fault)
                (Demo.upload_of "notes.exe") Demo.empty_world in
   fst run = Return (mkResponse 400 "Please upload a txt file")
   /\ bucket (snd run) = ∅
   /\ tmp_fs (snd run) = ∅
   /\ trace (snd run) = []).
Proof.
  split.
  - cbv zeta.
    destruct (KnowledgeView_post_no_loader (Demo.services Demo.no_fault)
                (Demo.upload_of "notes.pdf") (mkCreateData (mkFile "notes.pdf" "hello") "sk-1")
                Demo.empty_world)
      as (Hr & Hb & Ht & _ & Htr & Hc & Hk);
      try (vm_compute; reflexivity).
    { refine (bool_decide_unpack _ _). vm_compute. exact I. }
    split; [exact Hr|].
    split; [rewrite Hb; refine (bool_decide_unpack _ _); vm_compute; exact I|].
    split; [rewrite Ht; refine (bool_decide_unpack _ _); vm_compute; exact I|].
    split; [exact Htr|]. split; [exact Hc | exact Hk].
  - cbv zeta.
    rewrite (KnowledgeView_post_extension_refused (Demo.services Demo.no_fault)
               (Demo.upload_of "notes.exe")
               (mkCreateData (mkFile "notes.exe" "hello") "sk-1")).
    + repeat split.
    + vm_compute. reflexivity.
    + intros Hin. apply (bool_decide_pack _) in Hin. vm_compute in Hin. exact Hin.
Qed.

(** ** The credential and the process environment *)



(** ** The theorems at work on the demo deployment *)


(** On the shelf of five the pick is a candidate that none of the five
    beats. *)
Lemma C1_two_stage_selection_witness :
  exists c,
    Selector.get_most_similar_collection Z.leb
      (shortlist_for (Demo.services Demo.no_fault) Scenarios.shelf [10%Z])
    = inr (cand_id c)
    /\ forall x,
         In x (scored_catalog (Demo.services Demo.no_fault) [10%Z] Scenarios.shelf) ->
         (cand_score x <=? cand_score c)%Z = true.
Proof.
  assert (Hne : pg_collection Scenarios.shelf <> []) by (vm_compute; discriminate).
  assert (Hord : Selector.total_preorder Z.leb).
  { split; [intros a b | intros a b d]; rewrite !Z.leb_le; lia. }
  destruct (C1_two_stage_selection (Demo.services Demo.no_fault)
              (Demo.ask "s1" "What is X?") (Demo.asked "s1" "What is X?")
              [10%Z] Scenarios.shelf Hne)
    as (_ & _ & c & Hpick & _ & _ & Hmax & _).
  exists c. split; [exact Hpick | exact (Hmax Hord)].
Defined.

(** A question asked before anything was ingested. *)
Lemma C3_no_collections_fast_reject_witness :
  fst (KnowledgeRetrieveView_post (Demo.services Demo.no_fault)
         (Demo.ask "s1" "What is X?") Demo.empty_world)
  = Return (mkResponse 200 "No embeddings found. Please create embeddings first").
Proof.
  refine (proj1 (C3_no_collections_fast_reject (Demo.services Demo.no_fault)
                   (Demo.ask "s1" "What is X?") (Demo.asked "s1" "What is X?")
                   Demo.empty_world _ _));
    vm_compute; reflexivity.
Defined.

(** Session "s1" has history, so its question is rewritten before the
    search. *)
Lemma C5_contextualizer_two_behaviours_witness :
  standalone_question (Demo.services Demo.no_fault) "What is X?"
    (stored "s1" (redis Demo.library))
  = inr "re: What is X?".
Proof.
  refine (proj1 (C5_contextualizer_two_behaviours (Demo.services Demo.no_fault)
                   (Demo.ask "s1" "What is X?") (Demo.asked "s1" "What is X?")
                   Demo.library
                   [EvSetEnv "OPENAI_API_KEY" "sk-2"; EvHaveEmbeddings;
                    EvEmbed "What is X?"; EvTop3; EvMostSimilar ["uuid-1"; "uuid-3"];
                    EvCollectionGet "uuid-1"; EvHistoryRead "s1";
                    EvContextualize "What is X?" true;
                    EvRetrieve "langchain_tok0" "re: What is X?";
                    EvSynthesize
                      [SystemMessage "Answer from the context. X is ten.";
                       HumanMessage "Hi"; AIMessage "re: Hi";
                       HumanMessage "What is X?"];
                    EvHistoryAdd "s1" (HumanMessage "What is X?");
                    EvHistoryAdd "s1" (AIMessage "re: What is X?")]
                   "langchain_tok0" "re: What is X?" _ _ _)).
  - vm_compute. reflexivity.
  - vm_compute. reflexivity.
  - simpl. tauto.
Defined.

(** The blob store refuses: the collection is gone all the same. *)
Lemma C8_deletion_steps_in_order_witness :
  fst (KnowledgeView_delete (Demo.services Demo.blob_delete_fails)
         (Demo.removal_of Demo.notes_url) Demo.library)
  = Return (mkResponse 500 "403 Forbidden")
  /\ pg_collection (snd (KnowledgeView_delete (Demo.services Demo.blob_delete_fails)
                           (Demo.removal_of Demo.notes_url) Demo.library))
     = [mkCollection "uuid-3" "langchain_tok2"].
Proof.
  destruct (C8_deletion_steps_in_order (Demo.services Demo.blob_delete_fails)
              (Demo.removal_of Demo.notes_url) (mkDeleteData Demo.notes_url "sk-3")
              (mkKnowledge Demo.notes_url "uuid-1")
              (mkCollection "uuid-1" "langchain_tok0") Demo.library)
    as (_ & Hr & Hc & _); try (vm_compute; reflexivity).
  split; [exact Hr | exact Hc].
Defined.

(** Two questions of one session: the log holds both exchanges in order. *)
Lemma C10_session_key_is_user_id_witness :
  stored "s1"
    (redis (snd (KnowledgeRetrieveView_post (Demo.services Demo.no_fault)
                   (Demo.ask "s1" "And what does the manual say about the value of Y then?")
                   (snd (KnowledgeRetrieveView_post (Demo.services Demo.no_fault)
                           (Demo.ask "s1" "What is X?") Demo.library)))))
  = [HumanMessage "Hi"; AIMessage "re: Hi";
     HumanMessage "What is X?"; AIMessage "re: What is X?";
     HumanMessage "And what does the manual say about the value of Y then?";
     AIMessage "re: And what does the manual say about the value of Y then?"].
Proof.
  refine (proj2 (proj2 (proj2
            (proj2 (proj2
               (C10_session_key_is_user_id (Demo.services Demo.no_fault)
                  (Demo.ask "s1" "What is X?")
                  (Demo.ask "s1" "And what does the manual say about the value of Y then?")
                  (Demo.asked "s1" "What is X?")
                  (Demo.asked "s1" "And what does the manual say about the value of Y then?")
                  Demo.library _ _ _))
               "re: What is X?"
               "re: And what does the manual say about the value of Y then?"
               _ _ _)) _));
    try (vm_compute; reflexivity).
  vm_compute. discriminate.
Defined.

(** The two requests of the witness above are served from different
    collections. *)
Example same_session_two_collections :
  let run1 := KnowledgeRetrieveView_post (Demo.services Demo.no_fault)
                (Demo.ask "s1" "What is X?") Demo.library in
  let run2 := KnowledgeRetrieveView_post (Demo.services Demo.no_fault)
                (Demo.ask "s1" "And what does the manual say about the value of Y then?")
                (snd run1) in
  In (EvRetrieve "langchain_tok0" "re: What is X?") (trace (snd run1))
  /\ In (EvRetrieve "langchain_tok2"
           "re: And what does the manual say about the value of Y then?")
        (trace (snd run2)).
Proof.
  cbv zeta. split; vm_compute; tauto.
Qed.


(** * Further properties of the handlers *)

(** ** Ingestion, path by path *)

Lemma find_none_filter {A} (p : A -> bool) (l : list A) :
  List.find p l = None -> List.filter p l = [].
Proof.
  induction l as [|a r IH]; simpl; [reflexivity|].
  destruct (p a); [discriminate | exact IH].
Qed.

Lemma filter_snoc_only {A} (p : A -> bool) (l : list A) (x : A) :
  List.filter p l = [] -> p x = true -> List.filter p (l ++ [x]) = [x].
Proof.
  intros Hl Hx. rewrite List.filter_app, Hl. simpl. rewrite Hx. reflexivity.
Qed.

Ltac frame_get_collection w :=
  repeat match goal with
         | |- context [get_collection ?n ?w1] =>
             lazymatch w1 with
             | w => fail
             | _ => change (get_collection n w1) with (get_collection n w)
             end
         end.

Lemma KnowledgeView_post_succeeds {Vector Score} (svc : Services Vector Score)
    (request : Request) (d : CreateData) (knowledge : list string) (w : World) :
  KnowledgeCreateSerializer svc request = inr d ->
  ing_extension svc d ∈ DOC_EXTENSIONS svc ->
  fault svc (EvMakedirs (ing_tmp svc w)) = None ->
  fault svc (EvSave (ing_file_path svc d w)) = None ->
  fault svc (EvUploadBlob (ing_storage_path svc d w)) = None ->
  get_loader svc (ing_file_path svc d w) (ing_extension svc d) = Some (inr knowledge) ->
  fault svc (EvFromDocuments (ing_collection_name svc w)) = None ->
  get_collection (ing_collection_name svc w) w = None ->
  fault svc (EvCollectionGet (ing_collection_name svc w)) = None ->
  fault svc (EvKnowledgeCreate (ing_url svc d w) (ing_collection_id svc w)) = None ->
  fault svc (EvRmtree (ing_tmp svc w)) = None ->
  KnowledgeView_post svc request w
  = (Return (mkResponse 200 "Successfully created embeddings"),
     mkWorld (<["OPENAI_API_KEY" := cd_openai_api_key d]> (environ w))
             (({[ing_tmp svc w]} ∪ tmp_fs w) ∖ {[ing_tmp svc w]})
             ({[ing_storage_path svc d w]} ∪ bucket w)
             (pg_collection w
                ++ [mkCollection (ing_collection_id svc w) (ing_collection_name svc w)])
             (pg_embedding w
                ++ List.map (fun c => (ing_collection_id svc w, c))
                     (split_documents svc knowledge))
             (knowledge_tbl w ++ [mkKnowledge (ing_url svc d w) (ing_collection_id svc w)])
             (redis w)
             (<["tmp_storage_path" := ing_tmp svc w]> ∅)
             (S (S (entropy w)))
             (trace w
                ++ [EvMakedirs (ing_tmp svc w); EvSave (ing_file_path svc d w);
                    EvUploadBlob (ing_storage_path svc d w);
                    EvSetEnv "OPENAI_API_KEY" (cd_openai_api_key d);
                    EvLoad (ing_file_path svc d w);
                    EvFromDocuments (ing_collection_name svc w);
                    EvCollectionGet (ing_collection_name svc w);
                    EvKnowledgeCreate (ing_url svc d w) (ing_collection_id svc w);
                    EvRmtree (ing_tmp svc w)])).
Proof.
  intros Hv Hext Hmk Hsave Hup Hload Hfd Hfresh Hcg Hkc Hrm.
  run_norm. rewrite Hv. run_norm.
  fold (ing_extension svc d). rewrite (bool_decide_eq_true_2 _ Hext). run_norm.
  fold_world w. fold (ing_safe_string svc w). fold (ing_tmp svc w).
  rewrite lookup_insert_eq. run_norm.
  rewrite Hmk. run_norm.
  fold (ing_file_path svc d w). rewrite Hsave. run_norm.
  fold (ing_storage_path svc d w). rewrite Hup. run_norm.
  rewrite Hload. run_norm.
  fold (ing_collection_name svc w). rewrite Hfd. run_norm.
  unfold store_documents. frame_get_collection w. rewrite Hfresh. run_norm.
  fold_world w. fold (ing_collection_id svc w).
  rewrite Hcg. run_norm. fold_world w.
  rewrite (filter_snoc_only _ (pg_collection w)
             (mkCollection (ing_collection_id svc w) (ing_collection_name svc w)))
    by (first [ apply find_none_filter; exact Hfresh | apply String.eqb_refl ]).
  cbn [exactly_one]. run_norm. cbn [uuid].
  fold (ing_url svc d w). rewrite Hkc. run_norm.
  rewrite lookup_insert_eq. run_norm.
  assert (Hin : ing_tmp svc w ∈ {[ing_tmp svc w]} ∪ tmp_fs w) by set_solver.
  rewrite (bool_decide_eq_true_2 _ Hin). run_norm. rewrite Hrm. run_norm.
  fold_world w. rewrite <- !app_assoc. reflexivity.
Qed.


(** The ingestion handler up to and including the upload, all of it
    succeeding. *)
Ltac ingest_to_upload svc d w Hv Hext Hmk Hsave Hup :=
  run_norm; rewrite Hv; run_norm;
  fold (ing_extension svc d); rewrite (bool_decide_eq_true_2 _ Hext); run_norm;
  fold_world w; fold (ing_safe_string svc w); fold (ing_tmp svc w);
  rewrite lookup_insert_eq; run_norm;
  rewrite Hmk; run_norm;
  fold (ing_file_path svc d w); rewrite Hsave; run_norm;
  fold (ing_storage_path svc d w); rewrite Hup; run_norm.

Lemma KnowledgeView_post_store_fails {Vector Score} (svc : Services Vector Score)
    (request : Request) (d : CreateData) (knowledge : list string) (m : string)
    (w : World) :
  KnowledgeCreateSerializer svc request = inr d ->
  ing_extension svc d ∈ DOC_EXTENSIONS svc ->
  fault svc (EvMakedirs (ing_tmp svc w)) = None ->
  fault svc (EvSave (ing_file_path svc d w)) = None ->
  fault svc (EvUploadBlob (ing_storage_path svc d w)) = None ->
  get_loader svc (ing_file_path svc d w) (ing_extension svc d) = Some (inr knowledge) ->
  fault svc (EvFromDocuments (ing_collection_name svc w)) = Some m ->
  fault svc (EvRmtree (ing_tmp svc w)) = None ->
  KnowledgeView_post svc request w
  = (Return (mkResponse 500 m),
     mkWorld (<["OPENAI_API_KEY" := cd_openai_api_key d]> (environ w))
             (({[ing_tmp svc w]} ∪ tmp_fs w) ∖ {[ing_tmp svc w]})
             ({[ing_storage_path svc d w]} ∪ bucket w)
             (pg_collection w) (pg_embedding w) (knowledge_tbl w) (redis w)
             (<["tmp_storage_path" := ing_tmp svc w]> ∅)
             (S (entropy w))
             (trace w
                ++ [EvMakedirs (ing_tmp svc w); EvSave (ing_file_path svc d w);
                    EvUploadBlob (ing_storage_path svc d w);
                    EvSetEnv "OPENAI_API_KEY" (cd_openai_api_key d);
                    EvLoad (ing_file_path svc d w);
                    EvFromDocuments (ing_collection_name svc w);
                    EvRmtree (ing_tmp svc w)])).
Proof.
  intros Hv Hext Hmk Hsave Hup Hload Hfd Hrm.
  ingest_to_upload svc d w Hv Hext Hmk Hsave Hup.
  rewrite Hload. run_norm.
  fold (ing_collection_name svc w). rewrite Hfd. run_norm.
  rewrite lookup_insert_eq. run_norm.
  assert (Hin : ing_tmp svc w ∈ {[ing_tmp svc w]} ∪ tmp_fs w) by set_solver.
  rewrite (bool_decide_eq_true_2 _ Hin). run_norm. rewrite Hrm. run_norm.
  fold_world w. rewrite <- !app_assoc. reflexivity.
Qed.

Lemma KnowledgeView_post_cleanup_fails {Vector Score} (svc : Services Vector Score)
    (request : Request) (d : CreateData) (knowledge : list string) (m : string)
    (w : World) :
  KnowledgeCreateSerializer svc request = inr d ->
  ing_extension svc d ∈ DOC_EXTENSIONS svc ->
  fault svc (EvMakedirs (ing_tmp svc w)) = None ->
  fault svc (EvSave (ing_file_path svc d w)) = None ->
  fault svc (EvUploadBlob (ing_storage_path svc d w)) = None ->
  get_loader svc (ing_file_path svc d w) (ing_extension svc d) = Some (inr knowledge) ->
  fault svc (EvFromDocuments (ing_collection_name svc w)) = None ->
  get_collection (ing_collection_name svc w) w = None ->
  fault svc (EvCollectionGet (ing_collection_name svc w)) = None ->
  fault svc (EvKnowledgeCreate (ing_url svc d w) (ing_collection_id svc w)) = None ->
  fault svc (EvRmtree (ing_tmp svc w)) = Some m ->
  KnowledgeView_post svc request w
  = (Raise (Exception m),
     mkWorld (<["OPENAI_API_KEY" := cd_openai_api_key d]> (environ w))
             ({[ing_tmp svc w]} ∪ tmp_fs w)
             ({[ing_storage_path svc d w]} ∪ bucket w)
             (pg_collection w
                ++ [mkCollection (ing_collection_id svc w) (ing_collection_name svc w)])
             (pg_embedding w
                ++ List.map (fun c => (ing_collection_id svc w, c))
                     (split_documents svc knowledge))
             (knowledge_tbl w ++ [mkKnowledge (ing_url svc d w) (ing_collection_id svc w)])
             (redis w)
             (<["tmp_storage_path" := ing_tmp svc w]> ∅)
             (S (S (entropy w)))
             (trace w
                ++ [EvMakedirs (ing_tmp svc w); EvSave (ing_file_path svc d w);
                    EvUploadBlob (ing_storage_path svc d w);
                    EvSetEnv "OPENAI_API_KEY" (cd_openai_api_key d);
                    EvLoad (ing_file_path svc d w);
                    EvFromDocuments (ing_collection_name svc w);
                    EvCollectionGet (ing_collection_name svc w);
                    EvKnowledgeCreate (ing_url svc d w) (ing_collection_id svc w);
                    EvRmtree (ing_tmp svc w); EvRmtree (ing_tmp svc w)])).
Proof.
  intros Hv Hext Hmk Hsave Hup Hload Hfd Hfresh Hcg Hkc Hrm.
  ingest_to_upload svc d w Hv Hext Hmk Hsave Hup.
  rewrite Hload. run_norm.
  fold (ing_collection_name svc w). rewrite Hfd. run_norm.
  unfold store_documents. frame_get_collection w. rewrite Hfresh. run_norm.
  fold_world w. fold (ing_collection_id svc w).
  rewrite Hcg. run_norm. fold_world w.
  rewrite (filter_snoc_only _ (pg_collection w)
             (mkCollection (ing_collection_id svc w) (ing_collection_name svc w)))
    by (first [ apply find_none_filter; exact Hfresh | apply String.eqb_refl ]).
  cbn [exactly_one]. run_norm. cbn [uuid].
  fold (ing_url svc d w). rewrite Hkc. run_norm.
  rewrite lookup_insert_eq. run_norm.
  assert (Hin : ing_tmp svc w ∈ {[ing_tmp svc w]} ∪ tmp_fs w) by set_solver.
  rewrite (bool_decide_eq_true_2 _ Hin). run_norm. rewrite Hrm. run_norm.
  rewrite lookup_insert_eq. run_norm.
  rewrite (bool_decide_eq_true_2 _ Hin). run_norm. rewrite Hrm. run_norm.
  fold_world w. rewrite <- !app_assoc. reflexivity.
Qed.

(** ** Deletion, path by path *)

Lemma KnowledgeView_delete_invalid {Vector Score} (svc : Services Vector Score)
    (request : Request) (m : string) (w : World) :
  KnowledgeDeleteSerializer svc request = inl m ->
  KnowledgeView_delete svc request w
  = (Return (mkResponse 500 m), set_frame (fun _ => ∅) w).
Proof.
  intros Hv. run_norm. rewrite Hv. run_norm. fold_world w. reflexivity.
Qed.

Lemma KnowledgeView_delete_unknown {Vector Score} (svc : Services Vector Score)
    (request : Request) (d : DeleteData) (m : string) (w : World) :
  KnowledgeDeleteSerializer svc request = inr d ->
  knowledge_lookup svc w (dd_url d) = inl m ->
  KnowledgeView_delete svc request w
  = (Return (mkResponse 500 m),
     delete_stopped w (dd_openai_api_key d) [EvKnowledgeGet (dd_url d)]).
Proof.
  unfold knowledge_lookup. intros Hv Hk. run_norm. rewrite Hv. run_norm.
  destruct (fault svc (EvKnowledgeGet (dd_url d))) as [m'|].
  - injection Hk as ->. run_norm.
    unfold delete_stopped. fold_world w. rewrite <- !app_assoc. reflexivity.
  - run_norm. fold_world w. fold (rows_with_url w (dd_url d)). rewrite Hk. run_norm.
    unfold delete_stopped. fold_world w. rewrite <- !app_assoc. reflexivity.
Qed.

Lemma knowledge_lookup_found {Vector Score} (svc : Services Vector Score)
    (w : World) (u : string) (k : Knowledge) :
  knowledge_lookup svc w u = inr k ->
  fault svc (EvKnowledgeGet u) = None
  /\ exactly_one "Knowledge" (rows_with_url w u) = inr k.
Proof.
  unfold knowledge_lookup. destruct (fault svc (EvKnowledgeGet u)); [discriminate|].
  auto.
Qed.

Lemma collection_lookup_found {Vector Score} (svc : Services Vector Score)
    (w : World) (cid : string) (c : Collection) :
  collection_lookup svc w cid = inr c ->
  fault svc (EvCollectionGet cid) = None
  /\ exactly_one "Collection" (rows_with_uuid w cid) = inr c.
Proof.
  unfold collection_lookup. destruct (fault svc (EvCollectionGet cid)); [discriminate|].
  auto.
Qed.

Lemma KnowledgeView_delete_stale {Vector Score} (svc : Services Vector Score)
    (request : Request) (d : DeleteData) (k : Knowledge) (m : string) (w : World) :
  KnowledgeDeleteSerializer svc request = inr d ->
  knowledge_lookup svc w (dd_url d) = inr k ->
  collection_lookup svc w (collection_id k) = inl m ->
  KnowledgeView_delete svc request w
  = (Return (mkResponse 500 m),
     delete_stopped w (dd_openai_api_key d)
       [EvKnowledgeGet (dd_url d); EvCollectionGet (collection_id k)]).
Proof.
  intros Hv Hk Hc. apply knowledge_lookup_found in Hk as [Hkf Hk].
  unfold collection_lookup in Hc.
  run_norm. rewrite Hv. run_norm. rewrite Hkf. run_norm.
  fold_world w. fold (rows_with_url w (dd_url d)). rewrite Hk. run_norm.
  destruct (fault svc (EvCollectionGet (collection_id k))) as [m'|].
  - injection Hc as ->. run_norm.
    unfold delete_stopped. fold_world w. rewrite <- !app_assoc. reflexivity.
  - run_norm. fold_world w. fold (rows_with_uuid w (collection_id k)).
    rewrite Hc. run_norm.
    unfold delete_stopped. fold_world w. rewrite <- !app_assoc. reflexivity.
Qed.

Ltac delete_stores_done w d :=
  let E := fresh "E" in
  intros E; injection E as <- <-; run_norm; fold_world w;
  (split; [eexists; split; [reflexivity | first [left; reflexivity | right; reflexivity]]|]);
  (split; [reflexivity|]); (split; [reflexivity|]); (split; [reflexivity|]);
  (split;
    [ first [ left; split; reflexivity
            | match goal with
              | Hg : get_collection ?n ?w0 = _ |- _ =>
                  change (get_collection n w0) with (get_collection n w) in Hg;
                  right; exists n; unfold drop_collection; rewrite Hg;
                  run_norm; fold_world w; split; reflexivity
              end ] |]);
  (split;
    [ first [ left; reflexivity
            | right; exists d; split; [reflexivity | reflexivity] ] |]);
  first [ left; reflexivity
        | right; exists d; split; [reflexivity | reflexivity] ].

(** What a deletion can have done to the stores when it is over, whatever
    the request and whatever failed. *)
Lemma KnowledgeView_delete_stores {Vector Score} (svc : Services Vector Score)
    (request : Request) (w : World) :
  let run := KnowledgeView_delete svc request w in
  (exists resp, fst run = Return resp /\ (status resp = 200 \/ status resp = 500))
  /\ redis (snd run) = redis w
  /\ tmp_fs (snd run) = tmp_fs w
  /\ entropy (snd run) = entropy w
  /\ ((pg_collection (snd run) = pg_collection w
       /\ pg_embedding (snd run) = pg_embedding w)
      \/ exists n, pg_collection (snd run) = pg_collection (drop_collection n w)
                   /\ pg_embedding (snd run) = pg_embedding (drop_collection n w))
  /\ (knowledge_tbl (snd run) = knowledge_tbl w
      \/ exists d, KnowledgeDeleteSerializer svc request = inr d
                   /\ knowledge_tbl (snd run) = without_url (dd_url d) (knowledge_tbl w))
  /\ (bucket (snd run) = bucket w
      \/ exists d, KnowledgeDeleteSerializer svc request = inr d
                   /\ bucket (snd run) = bucket w ∖ {[get_blob_name svc (dd_url d)]}).
Proof.
  intros run. subst run.
  destruct (KnowledgeDeleteSerializer svc request) as [m|d] eqn:Hv.
  { rewrite (KnowledgeView_delete_invalid svc request m w Hv). cbn [fst snd].
    split; [eexists; split; [reflexivity | right; reflexivity]|].
    repeat (split; [first [reflexivity | left; split; reflexivity | left; reflexivity]|]).
    left; reflexivity. }
  destruct (KnowledgeView_delete svc request w) as [r w'] eqn:E. cbn [fst snd].
  revert E. run_norm. rewrite Hv. run_norm.
  repeat (first
            [ match goal with
              | |- context [drop_collection _ _] =>
                  unfold drop_collection; frame_get_collection w
              end
            | path_split ];
          run_norm).
  all: delete_stores_done w d.
Qed.


(** *** Rows that a deletion keeps *)

Lemma remove_first_incl {A} (p : A -> bool) (l : list A) (x : A) :
  In x (remove_first p l) -> In x l.
Proof.
  induction l as [|a r IH]; simpl; [tauto|].
  destruct (p a); simpl; intuition.
Qed.

Lemma remove_first_keeps {A} (p : A -> bool) (l : list A) (x : A) :
  In x l -> p x = false -> In x (remove_first p l).
Proof.
  induction l as [|a r IH]; simpl; [tauto|].
  intros [->|Hin] Hp.
  - rewrite Hp. now left.
  - destruct (p a); [exact Hin | right; now apply IH].
Qed.

Lemma remove_first_length_le {A} (p : A -> bool) (l : list A) :
  length l <= S (length (remove_first p l)).
Proof.
  induction l as [|a r IH]; simpl; [lia|].
  destruct (p a); simpl; lia.
Qed.

Lemma drop_collection_rows (n : string) (w : World) :
  (forall c, In c (pg_collection (drop_collection n w)) -> In c (pg_collection w))
  /\ (forall c, In c (pg_collection w) -> name c <> n ->
                 In c (pg_collection (drop_collection n w)))
  /\ length (pg_collection w) <= S (length (pg_collection (drop_collection n w)))
  /\ (forall r, In r (pg_embedding (drop_collection n w)) -> In r (pg_embedding w)).
Proof.
  unfold drop_collection. destruct (get_collection n w) as [c0|]; cbn.
  - split; [intros c; apply remove_first_incl|].
    split.
    { intros c Hin Hn. apply remove_first_keeps; [exact Hin|].
      apply String.eqb_neq. exact Hn. }
    split; [apply remove_first_length_le|].
    intros r Hin. apply List.filter_In in Hin. tauto.
  - repeat split; auto.
Qed.

Lemma without_url_In (u : string) (rows : list Knowledge) (k : Knowledge) :
  In k (without_url u rows) <-> In k rows /\ url k <> u.
Proof.
  unfold without_url. rewrite List.filter_In, negb_true_iff, String.eqb_neq.
  reflexivity.
Qed.

Lemma rows_with_url_without (u : string) (w w' : World) :
  knowledge_tbl w' = without_url u (knowledge_tbl w) ->
  rows_with_url w' u = [].
Proof.
  intros E. unfold rows_with_url. rewrite E. unfold without_url. clear E.
  induction (knowledge_tbl w) as [|k r IH]; simpl; [reflexivity|].
  destruct (String.eqb (url k) u) eqn:Hu; simpl; [exact IH|].
  rewrite Hu. exact IH.
Qed.

(** X7. A validated deletion request whose url has no knowledge row, or
    more than one, or whose lookup fails, is answered with a 500 that
    carries the lookup's error; the credential has been written, and
    nothing is deleted: catalog, chunks, knowledge rows and bucket are
    what they were.  With no row at all the text is the one of
    [DoesNotExist]. *)
Theorem X7_delete_unknown_reference {Vector Score} (svc : Services Vector Score)
    (request : Request) (d : DeleteData) (m : string) (w : World) :
  KnowledgeDeleteSerializer svc request = inr d ->
  knowledge_lookup svc w (dd_url d) = inl m ->
  let run := KnowledgeView_delete svc request w in
  fst run = Return (mkResponse 500 m)
  /\ pg_collection (snd run) = pg_collection w
  /\ pg_embedding (snd run) = pg_embedding w
  /\ knowledge_tbl (snd run) = knowledge_tbl w
  /\ bucket (snd run) = bucket w
  /\ trace (snd run)
     = trace w ++ [EvSetEnv "OPENAI_API_KEY" (dd_openai_api_key d);
                   EvKnowledgeGet (dd_url d)]
  /\ (fault svc (EvKnowledgeGet (dd_url d)) = None ->
      rows_with_url w (dd_url d) = [] ->
      m = "Knowledge matching query does not exist.").
Proof.
  intros Hv Hk run. subst run.
  rewrite (KnowledgeView_delete_unknown svc request d m w Hv Hk). cbn [fst snd].
  repeat (split; [reflexivity|]).
  intros Hf Hrows. unfold knowledge_lookup in Hk. rewrite Hf, Hrows in Hk.
  cbn in Hk. injection Hk as <-. reflexivity.
Qed.

(** X8. A validated deletion request whose knowledge row names a
    collection id that no single catalog row has (a stale id) is answered
    with a 500 carrying the lookup's error, after the two lookups and
    before any deletion: the knowledge row, the catalog, the chunks and
    the blob all stay. *)
Theorem X8_delete_stale_collection {Vector Score} (svc : Services Vector Score)
    (request : Request) (d : DeleteData) (k : Knowledge) (m : string) (w : World) :
  KnowledgeDeleteSerializer svc request = inr d ->
  knowledge_lookup svc w (dd_url d) = inr k ->
  collection_lookup svc w (collection_id k) = inl m ->
  let run := KnowledgeView_delete svc request w in
  fst run = Return (mkResponse 500 m)
  /\ pg_collection (snd run) = pg_collection w
  /\ pg_embedding (snd run) = pg_embedding w
  /\ knowledge_tbl (snd run) = knowledge_tbl w
  /\ bucket (snd run) = bucket w
  /\ trace (snd run)
     = trace w ++ [EvSetEnv "OPENAI_API_KEY" (dd_openai_api_key d);
                   EvKnowledgeGet (dd_url d); EvCollectionGet (collection_id k)].
Proof.
  intros Hv Hk Hc run. subst run.
  rewrite (KnowledgeView_delete_stale svc request d k m w Hv Hk Hc). cbn [fst snd].
  repeat (split; [reflexivity|]). reflexivity.
Qed.

(** X9. Whatever the request and whatever fails on the way, a deletion
    adds nothing to any store and removes little: every knowledge row
    whose url is not the requested one is kept, every blob but the one
    of the requested url is kept, at most one catalog row is removed,
    chunks are only removed, and the chat history and the staging
    directories are not touched. *)
Theorem X9_delete_keeps_other_documents {Vector Score} (svc : Services Vector Score)
    (request : Request) (w : World) :
  let run := KnowledgeView_delete svc request w in
  (forall k, In k (knowledge_tbl (snd run)) -> In k (knowledge_tbl w))
  /\ (forall k, In k (knowledge_tbl w) ->
        (forall d, KnowledgeDeleteSerializer svc request = inr d -> url k <> dd_url d) ->
        In k (knowledge_tbl (snd run)))
  /\ (forall b, b ∈ bucket (snd run) -> b ∈ bucket w)
  /\ (forall b, b ∈ bucket w ->
        (forall d, KnowledgeDeleteSerializer svc request = inr d ->
                   b <> get_blob_name svc (dd_url d)) ->
        b ∈ bucket (snd run))
  /\ (forall c, In c (pg_collection (snd run)) -> In c (pg_collection w))
  /\ length (pg_collection w) <= S (length (pg_collection (snd run)))
  /\ (forall r, In r (pg_embedding (snd run)) -> In r (pg_embedding w))
  /\ redis (snd run) = redis w
  /\ tmp_fs (snd run) = tmp_fs w.
Proof.
  intros run.
  destruct (KnowledgeView_delete_stores svc request w)
    as (_ & Hredis & Htmp & _ & Hpg & Hkn & Hbk).
  fold run in Hredis, Htmp, Hpg, Hkn, Hbk.
  split; [|split; [|split; [|split; [|split; [|split; [|split; [|split]]]]]]].
  - intros k Hin. destruct Hkn as [E|(d & _ & E)]; rewrite E in Hin; [exact Hin|].
    now apply without_url_In in Hin as [Hin _].
  - intros k Hin Hu. destruct Hkn as [E|(d & Hv & E)]; rewrite E; [exact Hin|].
    apply without_url_In. split; [exact Hin | now apply Hu].
  - intros b Hin. destruct Hbk as [E|(d & _ & E)]; rewrite E in Hin;
      [exact Hin | set_solver].
  - intros b Hin Hb. destruct Hbk as [E|(d & Hv & E)]; rewrite E; [exact Hin|].
    specialize (Hb d Hv). set_solver.
  - intros c Hin. destruct Hpg as [[E _]|(n & E & _)]; rewrite E in Hin; [exact Hin|].
    now apply (proj1 (drop_collection_rows n w)).
  - destruct Hpg as [[E _]|(n & E & _)]; rewrite E; [lia|].
    apply (drop_collection_rows n w).
  - intros r Hin. destruct Hpg as [[_ E]|(n & _ & E)]; rewrite E in Hin; [exact Hin|].
    now apply (drop_collection_rows n w).
  - exact Hredis.
  - exact Htmp.
Qed.

Lemma delete_succeeded {Vector Score} (svc : Services Vector Score)
    (request : Request) (w : World) :
  fst (KnowledgeView_delete svc request w)
    = Return (mkResponse 200 "Successfully deleted") ->
  exists d,
    KnowledgeDeleteSerializer svc request = inr d
    /\ fault svc (EvKnowledgeGet (dd_url d)) = None
    /\ knowledge_tbl (snd (KnowledgeView_delete svc request w))
       = without_url (dd_url d) (knowledge_tbl w).
Proof.
  intros Hok.
  assert (Hno : forall (m : string) (w' : World),
            fst (Return (mkResponse 500 m), w')
            = Return (mkResponse 200 "Successfully deleted") -> False).
  { intros m w' E. cbn in E. injection E as E _. discriminate E. }
  destruct (KnowledgeDeleteSerializer svc request) as [m|d] eqn:Hv.
  { rewrite (KnowledgeView_delete_invalid svc request m w Hv) in Hok.
    destruct (Hno _ _ Hok). }
  destruct (knowledge_lookup svc w (dd_url d)) as [m|k] eqn:Hk.
  { rewrite (KnowledgeView_delete_unknown svc request d m w Hv Hk) in Hok.
    destruct (Hno _ _ Hok). }
  destruct (collection_lookup svc w (collection_id k)) as [m|c] eqn:Hc.
  { rewrite (KnowledgeView_delete_stale svc request d k m w Hv Hk Hc) in Hok.
    destruct (Hno _ _ Hok). }
  exists d.
  destruct (knowledge_lookup_found svc w _ k Hk) as [Hkf Hk1].
  destruct (collection_lookup_found svc w _ c Hc) as [Hcf Hc1].
  destruct (KnowledgeView_delete_run svc request d k c w Hv Hkf Hk1 Hcf Hc1)
    as (_ & Hr & _ & _ & Hkt & _).
  cbv zeta in Hr, Hkt. rewrite Hr in Hok.
  split; [reflexivity|]. split; [exact Hkf|].
  rewrite Hkt. unfold deletion_failure in Hok.
  destruct (fault svc (EvDeleteCollection (name c))) as [m1|];
    [injection Hok as E _; discriminate E|].
  destruct (fault svc (EvKnowledgeDelete (dd_url d))) as [m2|];
    [injection Hok as E _; discriminate E|].
  reflexivity.
Qed.

(** X10. Deleting is not idempotent: when a deletion request has been
    answered "Successfully deleted", the same request sent again is
    answered with a 500 saying that no knowledge row matches, and that
    second run deletes nothing. *)
Theorem X10_delete_twice {Vector Score} (svc : Services Vector Score)
    (request : Request) (w : World) :
  let run1 := KnowledgeView_delete svc request w in
  let run2 := KnowledgeView_delete svc request (snd run1) in
  fst run1 = Return (mkResponse 200 "Successfully deleted") ->
  fst run2 = Return (mkResponse 500 "Knowledge matching query does not exist.")
  /\ pg_collection (snd run2) = pg_collection (snd run1)
  /\ pg_embedding (snd run2) = pg_embedding (snd run1)
  /\ knowledge_tbl (snd run2) = knowledge_tbl (snd run1)
  /\ bucket (snd run2) = bucket (snd run1).
Proof.
  intros run1 run2 Hok. subst run2.
  destruct (delete_succeeded svc request w Hok) as (d & Hv & Hkf & Hkt).
  fold run1 in Hkt.
  assert (Hk : knowledge_lookup svc (snd run1) (dd_url d)
               = inl "Knowledge matching query does not exist.").
  { unfold knowledge_lookup. rewrite Hkf.
    rewrite (rows_with_url_without (dd_url d) w (snd run1) Hkt). reflexivity. }
  rewrite (KnowledgeView_delete_unknown svc request d _ (snd run1) Hv Hk).
  cbn [fst snd]. repeat (split; [reflexivity|]). reflexivity.
Qed.

(** ** Ingestion: outcomes *)

(** X1. An upload with an accepted extension and a loader, into a
    catalog that has no collection of the minted name, with no call
    failing, is answered "Successfully created embeddings" and leaves
    exactly this: one new catalog row named "langchain_" followed by the
    token, the chunks of the document stored under that row's id, one new
    knowledge row that links the blob's url to that id, the blob in the
    bucket, and no staging directory. *)
Theorem X1_ingestion_creates_one_collection {Vector Score}
    (svc : Services Vector Score) (request : Request) (d : CreateData)
    (knowledge : list string) (w : World) :
  KnowledgeCreateSerializer svc request = inr d ->
  ing_extension svc d ∈ DOC_EXTENSIONS svc ->
  get_loader svc (ing_file_path svc d w) (ing_extension svc d) = Some (inr knowledge) ->
  get_collection (ing_collection_name svc w) w = None ->
  (forall ev, fault svc ev = None) ->
  let run := KnowledgeView_post svc request w in
  fst run = Return (mkResponse 200 "Successfully created embeddings")
  /\ pg_collection (snd run)
     = pg_collection w
         ++ [mkCollection (ing_collection_id svc w) (ing_collection_name svc w)]
  /\ pg_embedding (snd run)
     = pg_embedding w
         ++ List.map (fun c => (ing_collection_id svc w, c)) (split_documents svc knowledge)
  /\ knowledge_tbl (snd run)
     = knowledge_tbl w ++ [mkKnowledge (ing_url svc d w) (ing_collection_id svc w)]
  /\ bucket (snd run) = {[ing_storage_path svc d w]} ∪ bucket w
  /\ (ing_tmp svc w ∉ tmp_fs (snd run))
  /\ redis (snd run) = redis w.
Proof.
  intros Hv Hext Hload Hfresh Hok run. subst run.
  rewrite (KnowledgeView_post_succeeds svc request d knowledge w); auto.
  cbn [fst snd pg_collection pg_embedding knowledge_tbl bucket tmp_fs redis].
  repeat (split; [reflexivity|]). split; [set_solver | reflexivity].
Qed.

(** X2. An upload whose lower-cased extension is not among the accepted
    ones is answered with a 400 before anything is done: no token is
    drawn, no directory made, no blob uploaded, the credential is not
    written to the environment, no call is logged, and every store is
    what it was. *)
Theorem X2_refused_extension_has_no_effect {Vector Score}
    (svc : Services Vector Score) (request : Request) (d : CreateData) (w : World) :
  KnowledgeCreateSerializer svc request = inr d ->
  ing_extension svc d ∉ DOC_EXTENSIONS svc ->
  let run := KnowledgeView_post svc request w in
  fst run = Return (mkResponse 400 "Please upload a txt file")
  /\ environ (snd run) = environ w
  /\ tmp_fs (snd run) = tmp_fs w
  /\ bucket (snd run) = bucket w
  /\ pg_collection (snd run) = pg_collection w
  /\ pg_embedding (snd run) = pg_embedding w
  /\ knowledge_tbl (snd run) = knowledge_tbl w
  /\ redis (snd run) = redis w
  /\ entropy (snd run) = entropy w
  /\ trace (snd run) = trace w.
Proof.
  intros Hv Hext run. subst run.
  rewrite (KnowledgeView_post_extension_refused svc request d w Hv Hext).
  cbn [fst snd]. repeat (split; [reflexivity|]). reflexivity.
Qed.

(** X18. An upload request that the serializer refuses is not answered
    at all: the except clause reads [tmp_storage_path], which is assigned
    only after validation, so the handler ends with an
    [UnboundLocalError] whatever the serializer's message was.  Nothing
    has been done by then: no call was made and every store is what it
    was. *)
Theorem X18_invalid_upload_raises {Vector Score}
    (svc : Services Vector Score) (request : Request) (m : string) (w : World) :
  KnowledgeCreateSerializer svc request = inl m ->
  let run := KnowledgeView_post svc request w in
  fst run = Raise (UnboundLocalError "tmp_storage_path")
  /\ environ (snd run) = environ w
  /\ tmp_fs (snd run) = tmp_fs w
  /\ bucket (snd run) = bucket w
  /\ pg_collection (snd run) = pg_collection w
  /\ pg_embedding (snd run) = pg_embedding w
  /\ knowledge_tbl (snd run) = knowledge_tbl w
  /\ entropy (snd run) = entropy w
  /\ trace (snd run) = trace w.
Proof.
  intros Hv run. subst run.
  rewrite (KnowledgeView_post_invalid svc request m w Hv).
  cbn [fst snd]. repeat (split; [reflexivity|]). reflexivity.
Qed.

(** X3. Ingestion is not atomic: when the write to the vector store
    fails after a successful upload, the caller gets a 500 with that
    failure's text and the staging directory is removed, but the blob
    uploaded before stays in the bucket, with no catalog row, no chunk
    and no knowledge row added for it. *)
Theorem X3_store_failure_leaves_blob {Vector Score}
    (svc : Services Vector Score) (request : Request) (d : CreateData)
    (knowledge : list string) (m : string) (w : World) :
  KnowledgeCreateSerializer svc request = inr d ->
  ing_extension svc d ∈ DOC_EXTENSIONS svc ->
  get_loader svc (ing_file_path svc d w) (ing_extension svc d) = Some (inr knowledge) ->
  fault svc (EvMakedirs (ing_tmp svc w)) = None ->
  fault svc (EvSave (ing_file_path svc d w)) = None ->
  fault svc (EvUploadBlob (ing_storage_path svc d w)) = None ->
  fault svc (EvFromDocuments (ing_collection_name svc w)) = Some m ->
  fault svc (EvRmtree (ing_tmp svc w)) = None ->
  let run := KnowledgeView_post svc request w in
  fst run = Return (mkResponse 500 m)
  /\ (ing_storage_path svc d w ∈ bucket (snd run))
  /\ pg_collection (snd run) = pg_collection w
  /\ pg_embedding (snd run) = pg_embedding w
  /\ knowledge_tbl (snd run) = knowledge_tbl w
  /\ ing_tmp svc w ∉ tmp_fs (snd run).
Proof.
  intros Hv Hext Hload Hmk Hsave Hup Hfd Hrm run. subst run.
  rewrite (KnowledgeView_post_store_fails svc request d knowledge m w);
    try assumption.
  cbn [fst snd pg_collection pg_embedding knowledge_tbl bucket tmp_fs].
  split; [reflexivity|]. split; [set_solver|].
  repeat (split; [reflexivity|]). set_solver.
Qed.

(** X4. When everything has been written and only the final removal of
    the staging directory fails, the handler does not answer: the
    removal is tried again in the except clause, fails again, and that
    exception leaves the handler.  The collection, its chunks, the
    knowledge row and the blob are all in place, and the staging
    directory is still there. *)
Theorem X4_final_cleanup_failure_raises {Vector Score}
    (svc : Services Vector Score) (request : Request) (d : CreateData)
    (knowledge : list string) (m : string) (w : World) :
  KnowledgeCreateSerializer svc request = inr d ->
  ing_extension svc d ∈ DOC_EXTENSIONS svc ->
  get_loader svc (ing_file_path svc d w) (ing_extension svc d) = Some (inr knowledge) ->
  get_collection (ing_collection_name svc w) w = None ->
  fault svc (EvMakedirs (ing_tmp svc w)) = None ->
  fault svc (EvSave (ing_file_path svc d w)) = None ->
  fault svc (EvUploadBlob (ing_storage_path svc d w)) = None ->
  fault svc (EvFromDocuments (ing_collection_name svc w)) = None ->
  fault svc (EvCollectionGet (ing_collection_name svc w)) = None ->
  fault svc (EvKnowledgeCreate (ing_url svc d w) (ing_collection_id svc w)) = None ->
  fault svc (EvRmtree (ing_tmp svc w)) = Some m ->
  let run := KnowledgeView_post svc request w in
  fst run = Raise (Exception m)
  /\ In (mkCollection (ing_collection_id svc w) (ing_collection_name svc w))
        (pg_collection (snd run))
  /\ In (mkKnowledge (ing_url svc d w) (ing_collection_id svc w))
        (knowledge_tbl (snd run))
  /\ (ing_storage_path svc d w ∈ bucket (snd run))
  /\ ing_tmp svc w ∈ tmp_fs (snd run).
Proof.
  intros Hv Hext Hload Hfresh Hmk Hsave Hup Hfd Hcg Hkc Hrm run. subst run.
  rewrite (KnowledgeView_post_cleanup_fails svc request d knowledge m w);
    try assumption.
  cbn [fst snd pg_collection knowledge_tbl bucket tmp_fs].
  split; [reflexivity|].
  split; [apply in_or_app; right; now left|].
  split; [apply in_or_app; right; now left|].
  split; set_solver.
Qed.

(** *** Ingestion undone by deletion *)

Lemma find_snoc_fresh {A} (p : A -> bool) (l : list A) (x : A) :
  List.find p l = None -> p x = true -> List.find p (l ++ [x]) = Some x.
Proof.
  induction l as [|a r IH]; simpl; intros Hl Hx.
  - rewrite Hx. reflexivity.
  - destruct (p a); [discriminate | now apply IH].
Qed.

Lemma remove_first_snoc_fresh {A} (p : A -> bool) (l : list A) (x : A) :
  List.find p l = None -> p x = true -> remove_first p (l ++ [x]) = l.
Proof.
  induction l as [|a r IH]; simpl; intros Hl Hx.
  - rewrite Hx. reflexivity.
  - destruct (p a); [discriminate|]. f_equal. now apply IH.
Qed.

Lemma filter_all {A} (p : A -> bool) (l : list A) :
  (forall x, In x l -> p x = true) -> List.filter p l = l.
Proof.
  induction l as [|a r IH]; simpl; intros H; [reflexivity|].
  rewrite (H a) by now left. f_equal. apply IH. intros x Hx. apply H. now right.
Qed.

Lemma filter_none {A} (p : A -> bool) (l : list A) :
  (forall x, In x l -> p x = false) -> List.filter p l = [].
Proof.
  induction l as [|a r IH]; simpl; intros H; [reflexivity|].
  rewrite (H a) by now left. apply IH. intros x Hx. apply H. now right.
Qed.

Lemma filter_nil_all_false {A} (p : A -> bool) (l : list A) :
  List.filter p l = [] -> forall x, In x l -> p x = false.
Proof.
  induction l as [|a r IH]; simpl; intros H x Hx; [destruct Hx|].
  destruct (p a) eqn:Ha; [discriminate|].
  destruct Hx as [<-|Hx]; [exact Ha | now apply IH].
Qed.

(** X11. Ingesting a document and then deleting it by the url of its
    knowledge row gives back the stores as they were before: the
    catalog, the chunks, the knowledge rows and the bucket.  This needs
    no call to fail, the minted names to be new (no collection of that
    name or id, no chunk under that id, no knowledge row with that url,
    no blob of that name), and the blob name to be recoverable from the
    url. *)
Theorem X11_ingest_then_delete_round_trip {Vector Score}
    (svc : Services Vector Score) (upload removal : Request)
    (d : CreateData) (dd : DeleteData) (knowledge : list string) (w : World) :
  KnowledgeCreateSerializer svc upload = inr d ->
  ing_extension svc d ∈ DOC_EXTENSIONS svc ->
  get_loader svc (ing_file_path svc d w) (ing_extension svc d) = Some (inr knowledge) ->
  (forall ev, fault svc ev = None) ->
  get_collection (ing_collection_name svc w) w = None ->
  rows_with_uuid w (ing_collection_id svc w) = [] ->
  chunks_of_uuid (ing_collection_id svc w) w = [] ->
  rows_with_url w (ing_url svc d w) = [] ->
  ing_storage_path svc d w ∉ bucket w ->
  KnowledgeDeleteSerializer svc removal = inr dd ->
  dd_url dd = ing_url svc d w ->
  get_blob_name svc (ing_url svc d w) = ing_storage_path svc d w ->
  let run1 := KnowledgeView_post svc upload w in
  let run2 := KnowledgeView_delete svc removal (snd run1) in
  fst run1 = Return (mkResponse 200 "Successfully created embeddings")
  /\ fst run2 = Return (mkResponse 200 "Successfully deleted")
  /\ pg_collection (snd run2) = pg_collection w
  /\ pg_embedding (snd run2) = pg_embedding w
  /\ knowledge_tbl (snd run2) = knowledge_tbl w
  /\ bucket (snd run2) = bucket w.
Proof.
  intros Hv Hext Hload Hok Hname Hid Hchunks Hurl Hblob Hdv Hdu Hbn run1 run2.
  subst run2 run1.
  rewrite (KnowledgeView_post_succeeds svc upload d knowledge w); auto.
  cbn [fst snd]. split; [reflexivity|].
  set (cid := ing_collection_id svc w) in *.
  set (cname := ing_collection_name svc w) in *.
  set (u := ing_url svc d w) in *.
  match goal with
  | |- context [KnowledgeView_delete svc removal ?w0] => set (w1 := w0)
  end.
  assert (Hk1 : exactly_one "Knowledge" (rows_with_url w1 (dd_url dd))
                = inr (mkKnowledge u cid)).
  { rewrite Hdu. unfold rows_with_url, w1. cbn [knowledge_tbl].
    rewrite (filter_snoc_only _ (knowledge_tbl w) (mkKnowledge u cid));
      [reflexivity | exact Hurl | apply String.eqb_refl]. }
  assert (Hc1 : exactly_one "Collection" (rows_with_uuid w1 cid)
                = inr (mkCollection cid cname)).
  { unfold rows_with_uuid, w1. cbn [pg_collection].
    rewrite (filter_snoc_only _ (pg_collection w) (mkCollection cid cname));
      [reflexivity | exact Hid | apply String.eqb_refl]. }
  destruct (KnowledgeView_delete_run svc removal dd (mkKnowledge u cid)
              (mkCollection cid cname) w1 Hdv (Hok _) Hk1 (Hok _) Hc1)
    as (_ & Hr & Hpc & Hpe & Hkt & Hb).
  cbv zeta in Hr, Hpc, Hpe, Hkt, Hb.
  unfold deletion_failure in Hr.
  repeat rewrite Hok in Hr. repeat rewrite Hok in Hpc. repeat rewrite Hok in Hpe.
  repeat rewrite Hok in Hkt. repeat rewrite Hok in Hb.
  cbn [fails name] in Hpc, Hpe, Hkt, Hb.
  assert (Hget : get_collection cname w1 = Some (mkCollection cid cname)).
  { unfold get_collection, w1. cbn [pg_collection].
    apply find_snoc_fresh; [exact Hname | apply String.eqb_refl]. }
  split; [exact Hr|].
  split.
  { rewrite Hpc. unfold drop_collection. rewrite Hget. unfold w1. cbn.
    apply remove_first_snoc_fresh; [exact Hname | apply String.eqb_refl]. }
  split.
  { rewrite Hpe. unfold drop_collection. rewrite Hget. unfold w1. cbn.
    rewrite List.filter_app.
    rewrite (filter_all _ (pg_embedding w)).
    - rewrite filter_none; [apply app_nil_r|].
      intros x Hx. apply List.in_map_iff in Hx as (c & <- & _). cbn.
      rewrite String.eqb_refl. reflexivity.
    - intros x Hx. apply negb_true_iff.
      unfold chunks_of_uuid in Hchunks.
      apply (f_equal (@length _)) in Hchunks. rewrite List.length_map in Hchunks.
      apply length_zero_iff_nil in Hchunks.
      exact (filter_nil_all_false _ _ Hchunks x Hx). }
  split.
  { rewrite Hkt, Hdu. unfold w1, without_url. cbn [knowledge_tbl].
    rewrite List.filter_app.
    rewrite (filter_all _ (knowledge_tbl w)).
    - cbn. rewrite String.eqb_refl. cbn. apply app_nil_r.
    - intros x Hx. apply negb_true_iff.
      exact (filter_nil_all_false _ _ Hurl x Hx). }
  rewrite Hb, Hdu, Hbn. unfold w1. cbn [bucket]. set_solver.
Qed.

(** ** Queries *)

Lemma QueryRun_status {Vector Score} (svc : Services Vector Score)
    (q : RetrieveData) (w : World) (evs : list Event) (resp : JsonResponse)
    (store : gmap string (list Message)) :
  QueryRun svc q w evs resp store -> status resp = 200 \/ status resp = 500.
Proof.
  intros Hrun. destruct Hrun; cbn; auto.
  match goal with
  | |- context [chain_response ?r] => destruct r; cbn; auto
  end.
Qed.

Lemma QueryRun_store {Vector Score} (svc : Services Vector Score)
    (q : RetrieveData) (w : World) (evs : list Event) (resp : JsonResponse)
    (store : gmap string (list Message)) :
  QueryRun svc q w evs resp store ->
  let sid := rd_user_id q in
  let human := HumanMessage (rd_question q) in
  store = redis w
  \/ exists a,
       resp = mkResponse 200 a
       /\ (store = <[sid := stored sid (redis w) ++ [human; AIMessage a]]> (redis w)
           \/ (store = <[sid := stored sid (redis w) ++ [human]]> (redis w)
               /\ fault svc (EvHistoryAdd sid (AIMessage a)) <> None)).
Proof.
  intros Hrun. cbv zeta. destruct Hrun; auto.
  match goal with
  | H : ChainRun _ _ _ _ _ _ _ _ |- _ => destruct H; auto
  end.
  - right. eexists. split; [reflexivity|]. left. reflexivity.
  - right. eexists. split; [reflexivity|]. right. split; [reflexivity|].
    congruence.
Qed.

(** X12. The deletion and the query handler always answer: whatever the
    request, the state of the stores and the calls that fail, the outcome
    is a JSON response, with status 200 or 500, never an exception. *)
Theorem X12_delete_and_query_always_answer {Vector Score}
    (svc : Services Vector Score) (removal ask : Request) (w : World) :
  (exists resp, fst (KnowledgeView_delete svc removal w) = Return resp
                /\ (status resp = 200 \/ status resp = 500))
  /\ (exists resp, fst (KnowledgeRetrieveView_post svc ask w) = Return resp
                   /\ (status resp = 200 \/ status resp = 500)).
Proof.
  split.
  - exact (proj1 (KnowledgeView_delete_stores svc removal w)).
  - pose proof (KnowledgeRetrieveView_post_run svc ask w) as H.
    destruct (KnowledgeRetrieveSerializer svc ask) as [m|q].
    + rewrite H. eexists. split; [reflexivity | right; reflexivity].
    + destruct H as (evs & resp & store & Hrun & Heq). rewrite Heq.
      exists resp. split; [reflexivity|]. exact (QueryRun_status svc q w _ _ _ Hrun).
Qed.

(** X13. A query reads the stores and never writes them: whatever the
    request and its outcome, the catalog, the chunks, the knowledge rows,
    the bucket and the staging directories are the same afterwards, and
    no random token is drawn. *)
Theorem X13_query_leaves_documents_alone {Vector Score}
    (svc : Services Vector Score) (request : Request) (w : World) :
  let run := KnowledgeRetrieveView_post svc request w in
  pg_collection (snd run) = pg_collection w
  /\ pg_embedding (snd run) = pg_embedding w
  /\ knowledge_tbl (snd run) = knowledge_tbl w
  /\ bucket (snd run) = bucket w
  /\ tmp_fs (snd run) = tmp_fs w
  /\ entropy (snd run) = entropy w.
Proof.
  intros run. subst run.
  pose proof (KnowledgeRetrieveView_post_run svc request w) as H.
  destruct (KnowledgeRetrieveSerializer svc request) as [m|q].
  - rewrite H. cbn [snd]. repeat (split; [reflexivity|]). reflexivity.
  - destruct H as (evs & resp & store & _ & Heq). rewrite Heq. cbn [snd].
    repeat (split; [reflexivity|]). reflexivity.
Qed.


Lemma well_paired_snoc_exchange (h : list Message) (a b : string) :
  well_paired h = true ->
  well_paired (h ++ [HumanMessage a; AIMessage b]) = true.
Proof.
  remember (length h) as n eqn:Hn. revert h Hn.
  induction n as [n IH] using lt_wf_ind. intros h Hn Hh.
  destruct h as [|[x|x|x] [|[y|y|y] r]]; try discriminate; [reflexivity|].
  cbn in Hh |- *. apply (IH (length r)); [subst n; cbn; lia | reflexivity | exact Hh].
Qed.

Lemma stored_insert (k sid : string) (l : list Message)
    (store : gmap string (list Message)) :
  stored k (<[sid := l]> store) = if decide (sid = k) then l else stored k store.
Proof.
  unfold stored. rewrite lookup_insert. destruct (decide (sid = k)); reflexivity.
Qed.

(** X15. The query handler only ever appends to the chat history, and
    only to the caller's session.  After any query the log of a session
    is the log it had, followed by nothing, by the human turn and its
    answer, or by the human turn alone; turns are added only by a
    request that is answered with a 200, and only to the session named
    by its [user_id].  The human turn alone is what a failed write of the
    answer leaves.  When no write to a session fails, a log of that
    session made of whole exchanges stays so. *)
Theorem X15_history_is_append_only {Vector Score}
    (svc : Services Vector Score) (request : Request) (w : World) (k : string) :
  let run := KnowledgeRetrieveView_post svc request w in
  let before := stored k (redis w) in
  let after := stored k (redis (snd run)) in
  (after = before
   \/ exists q a,
        KnowledgeRetrieveSerializer svc request = inr q
        /\ k = rd_user_id q
        /\ fst run = Return (mkResponse 200 a)
        /\ (after = before ++ [HumanMessage (rd_question q); AIMessage a]
            \/ (after = before ++ [HumanMessage (rd_question q)]
                /\ fault svc (EvHistoryAdd k (AIMessage a)) <> None)))
  /\ ((forall m, fault svc (EvHistoryAdd k m) = None) ->
      well_paired before = true -> well_paired after = true).
Proof.
  intros run before after. subst run before after.
  pose proof (KnowledgeRetrieveView_post_run svc request w) as H.
  destruct (KnowledgeRetrieveSerializer svc request) as [m|q].
  { rewrite H. cbn [fst snd]. rewrite handled_redis. split; [left; reflexivity | auto]. }
  destruct H as (evs & resp & store & Hrun & Heq). rewrite Heq. cbn [fst snd].
  rewrite handled_redis.
  destruct (QueryRun_store svc q w _ _ _ Hrun) as [->|(a & -> & Hst)];
    [split; [left; reflexivity | auto]|].
  destruct (decide (rd_user_id q = k)) as [<-|Hk].
  - destruct Hst as [->|[-> Hf]]; rewrite stored_insert, decide_True by reflexivity.
    + split.
      * right. exists q, a. repeat (split; [reflexivity|]). left. reflexivity.
      * intros _ Hp. now apply well_paired_snoc_exchange.
    + split.
      * right. exists q, a. repeat (split; [reflexivity|]). right. split; [reflexivity|].
        exact Hf.
      * intros Hno. destruct (Hf (Hno _)).
  - assert (E : stored k store = stored k (redis w)).
    { destruct Hst as [->|[-> _]]; rewrite stored_insert, decide_False by exact Hk;
        reflexivity. }
    rewrite E. split; [left; reflexivity | auto].
Qed.

Lemma append_empty_r (s : string) : s +:+ EmptyString = s.
Proof.
  induction s as [|a s IH]; [reflexivity|].
  change (String a (s +:+ EmptyString) = String a s). f_equal. exact IH.
Qed.

(** X16. A search that finds no chunk is not an error: the run goes on to
    the synthesis, whose system message is then the base prompt alone,
    followed by the history and the question as asked, and the response
    is whatever the chat model makes of it, its answer with status 200
    or its failure with status 500. *)
Theorem X16_empty_retrieval_is_answered {Vector Score}
    (svc : Services Vector Score) (request : Request) (q : RetrieveData)
    (w : World) (evs : list Event) (collection_name query : string) :
  KnowledgeRetrieveSerializer svc request = inr q ->
  let run := KnowledgeRetrieveView_post svc request w in
  let prompt :=
    SystemMessage (DEFAULT_SYSTEM_PROMPT svc)
      :: stored (rd_user_id q) (redis w) ++ [HumanMessage (rd_question q)] in
  trace (snd run) = trace w ++ evs ->
  In (EvRetrieve collection_name query) evs ->
  similarity_search svc (chunks_of collection_name w) query = inr [] ->
  In (EvSynthesize prompt) evs
  /\ fst run = Return (match chat_model svc prompt with
                       | inr answer => mkResponse 200 answer
                       | inl m => mkResponse 500 m
                       end).
Proof.
  intros Hv run prompt Htrace Hin Hempty. subst run.
  destruct (validated_query_run svc request q w Hv)
    as (evs0 & resp & store & Hrun & Heq).
  rewrite Heq in *. cbn [fst snd] in *. rewrite handled_trace in Htrace.
  apply app_inv_head in Htrace. subst evs.
  assert (Hp : qa_prompt svc [] (rd_question q) (stored (rd_user_id q) (redis w))
               = prompt).
  { unfold qa_prompt, prompt. cbn [PyStr.join]. rewrite append_empty_r. reflexivity. }
  destruct Hrun as [ | | | | | | v cid c evs r store Hne He Ht Hp' Hf Hl Hchain];
    try (in_events Hin; fail).
  destruct Hchain as [ | | query0 m Hr Hq Hs | query0 context m Hr Hq Hs Ha
                     | query0 context answer Hr Hq Hs Ha Hw1 Hw2
                     | query0 context answer m Hr Hq Hs Ha Hw1
                     | query0 context answer m Hr Hq Hs Ha Hw1 Hw2 ];
    try (in_events Hin; fail).
  - in_events Hin. congruence.
  - in_events Hin. rewrite Hempty in Hs. injection Hs as <-.
    rewrite Hp in *. rewrite Ha. split; [|reflexivity].
    simpl. tauto.
  - in_events Hin. rewrite Hempty in Hs. injection Hs as <-.
    rewrite Hp in *. rewrite Ha. split; [|reflexivity].
    simpl. tauto.
  - in_events Hin. rewrite Hempty in Hs. injection Hs as <-.
    rewrite Hp in *. rewrite Ha. split; [|reflexivity].
    simpl. tauto.
  - in_events Hin. rewrite Hempty in Hs. injection Hs as <-.
    rewrite Hp in *. rewrite Ha. split; [|reflexivity].
    simpl. tauto.
Qed.

(** ** File names *)

Module PyStrFacts.

Lemma lower_ascii_idem (a : ascii) :
  PyStr.lower_ascii (PyStr.lower_ascii a) = PyStr.lower_ascii a.
Proof. destruct a as [[] [] [] [] [] [] [] []]; reflexivity. Qed.

Lemma lower_ascii_dot (a : ascii) :
  Ascii.eqb (PyStr.lower_ascii a) "." = Ascii.eqb a ".".
Proof. destruct a as [[] [] [] [] [] [] [] []]; reflexivity. Qed.

Lemma lower_ascii_slash (a : ascii) :
  Ascii.eqb (PyStr.lower_ascii a) "/" = Ascii.eqb a "/".
Proof. destruct a as [[] [] [] [] [] [] [] []]; reflexivity. Qed.

Lemma ascii_lower_idem (s : string) :
  PyStr.ascii_lower (PyStr.ascii_lower s) = PyStr.ascii_lower s.
Proof.
  induction s as [|a s IH]; simpl; [reflexivity|].
  rewrite lower_ascii_idem, IH. reflexivity.
Qed.

Lemma rsuffix_lower (c : ascii) (s : string) :
  (forall a, Ascii.eqb (PyStr.lower_ascii a) c = Ascii.eqb a c) ->
  PyStr.rsuffix c (PyStr.ascii_lower s) = option_map PyStr.ascii_lower (PyStr.rsuffix c s).
Proof.
  intros Hc. induction s as [|a s IH]; simpl; [reflexivity|].
  rewrite IH. destruct (PyStr.rsuffix c s); simpl; [reflexivity|].
  rewrite Hc. destruct (Ascii.eqb a c); reflexivity.
Qed.

Lemma basename_lower (p : string) :
  PyStr.basename (PyStr.ascii_lower p) = PyStr.ascii_lower (PyStr.basename p).
Proof.
  unfold PyStr.basename. rewrite (rsuffix_lower "/" p lower_ascii_slash).
  destruct (PyStr.rsuffix "/" p) as [[|a r]|]; reflexivity.
Qed.

Lemma skip_dots_lower (s : string) :
  PyStr.skip_dots (PyStr.ascii_lower s) = PyStr.ascii_lower (PyStr.skip_dots s).
Proof.
  induction s as [|a s IH]; simpl; [reflexivity|].
  rewrite lower_ascii_dot. destruct (Ascii.eqb a "."); [exact IH | reflexivity].
Qed.

Lemma splitext_ext_lower (p : string) :
  PyStr.splitext_ext (PyStr.ascii_lower p) = PyStr.ascii_lower (PyStr.splitext_ext p).
Proof.
  unfold PyStr.splitext_ext.
  rewrite basename_lower, skip_dots_lower, (rsuffix_lower "." _ lower_ascii_dot).
  destruct (PyStr.rsuffix "." (PyStr.skip_dots (PyStr.basename p))); reflexivity.
Qed.

Lemma rsuffix_absent (c : ascii) (s : string) :
  contains c s = false -> PyStr.rsuffix c s = None.
Proof.
  induction s as [|a s IH]; simpl; [reflexivity|].
  intros H. apply orb_false_iff in H as [Ha Hs].
  rewrite (IH Hs), Ha. reflexivity.
Qed.

Lemma rsuffix_contains (c : ascii) (s t : string) :
  PyStr.rsuffix c s = Some t -> forall x, contains x t = true -> contains x s = true.
Proof.
  revert t. induction s as [|a s IH]; simpl; [discriminate|].
  intros t. destruct (PyStr.rsuffix c s) as [t'|] eqn:E.
  - intros Ht x Hx. injection Ht as <-. rewrite (IH t' eq_refl x Hx).
    apply orb_true_r.
  - destruct (Ascii.eqb a c); [|discriminate].
    intros Ht x Hx. injection Ht as <-. exact Hx.
Qed.

Lemma basename_contains (p : string) (x : ascii) :
  contains x (PyStr.basename p) = true -> contains x p = true.
Proof.
  unfold PyStr.basename.
  destruct (PyStr.rsuffix "/" p) as [[|a r]|] eqn:E; try tauto.
  intros Hx. apply (rsuffix_contains "/" p _ E). simpl. rewrite Hx. apply orb_true_r.
Qed.

Lemma skip_dots_contains (s : string) (x : ascii) :
  contains x (PyStr.skip_dots s) = true -> contains x s = true.
Proof.
  induction s as [|a s IH]; simpl; [tauto|].
  destruct (Ascii.eqb a "."); simpl; [|tauto].
  intros Hx. rewrite (IH Hx). apply orb_true_r.
Qed.

Lemma splitext_ext_no_dot (p : string) :
  contains "." p = false -> PyStr.splitext_ext p = EmptyString.
Proof.
  intros Hp. unfold PyStr.splitext_ext. rewrite rsuffix_absent; [reflexivity|].
  destruct (contains "." (PyStr.skip_dots (PyStr.basename p))) eqn:E; [|reflexivity].
  apply skip_dots_contains, basename_contains in E. congruence.
Qed.

Lemma lower_ascii_isascii (a : ascii) :
  (nat_of_ascii (PyStr.lower_ascii a) <? 128)%nat = (nat_of_ascii a <? 128)%nat.
Proof. destruct a as [[] [] [] [] [] [] [] []]; reflexivity. Qed.

Lemma ascii_lower_isascii (s : string) :
  PyStr.isascii (PyStr.ascii_lower s) = PyStr.isascii s.
Proof.
  induction s as [|a s IH]; simpl; [reflexivity|].
  rewrite lower_ascii_isascii, IH. reflexivity.
Qed.

Lemma rsuffix_isascii (c : ascii) (s t : string) :
  PyStr.rsuffix c s = Some t -> PyStr.isascii s = true -> PyStr.isascii t = true.
Proof.
  revert t. induction s as [|a s IH]; simpl; [discriminate|].
  intros t Ht Hs. apply andb_true_iff in Hs as [Ha Hs].
  destruct (PyStr.rsuffix c s) as [t'|].
  - injection Ht as <-. now apply IH.
  - destruct (Ascii.eqb a c); [|discriminate].
    injection Ht as <-. simpl. rewrite Ha, Hs. reflexivity.
Qed.

Lemma basename_isascii (p : string) :
  PyStr.isascii p = true -> PyStr.isascii (PyStr.basename p) = true.
Proof.
  intros Hp. unfold PyStr.basename.
  destruct (PyStr.rsuffix "/" p) as [[|a r]|] eqn:E; try exact Hp.
  pose proof (rsuffix_isascii "/" p _ E Hp) as H. simpl in H.
  now apply andb_true_iff in H as [_ H].
Qed.

Lemma skip_dots_isascii (s : string) :
  PyStr.isascii s = true -> PyStr.isascii (PyStr.skip_dots s) = true.
Proof.
  induction s as [|a s IH]; simpl; [reflexivity|].
  intros H. destruct (Ascii.eqb a "."); [|exact H].
  apply andb_true_iff in H as [_ H]. now apply IH.
Qed.

Lemma splitext_ext_isascii (p : string) :
  PyStr.isascii p = true -> PyStr.isascii (PyStr.splitext_ext p) = true.
Proof.
  intros Hp. unfold PyStr.splitext_ext.
  destruct (PyStr.rsuffix "." (PyStr.skip_dots (PyStr.basename p))) eqn:E;
    [|reflexivity].
  apply (rsuffix_isascii "." _ _ E). now apply skip_dots_isascii, basename_isascii.
Qed.

(** On ASCII text [str.lower] is the byte map, whatever the Unicode
    tables say. *)
Lemma lower_isascii (u : string -> string) (s : string) :
  PyStr.isascii s = true -> PyStr.lower u s = PyStr.ascii_lower s.
Proof. intros H. unfold PyStr.lower. rewrite H. reflexivity. Qed.

End PyStrFacts.

(** X5. For a file name made of ASCII characters the extension check
    does not depend on the case of the name: an upload and the same
    upload with its name in lower case have the same extension for the
    handler, so if one is refused as "Please upload a txt file" the
    other is too.  (For other names [str.lower] follows the Unicode
    tables and the two extensions can differ.) *)
Theorem X5_extension_check_ignores_case {Vector Score}
    (svc : Services Vector Score) (request1 request2 : Request)
    (d1 d2 : CreateData) (w : World) :
  KnowledgeCreateSerializer svc request1 = inr d1 ->
  KnowledgeCreateSerializer svc request2 = inr d2 ->
  PyStr.isascii (file_name (cd_file d1)) = true ->
  file_name (cd_file d2) = PyStr.lower (unicode_lower svc) (file_name (cd_file d1)) ->
  ing_extension svc d2 = ing_extension svc d1
  /\ (ing_extension svc d1 ∉ DOC_EXTENSIONS svc ->
      fst (KnowledgeView_post svc request1 w)
        = Return (mkResponse 400 "Please upload a txt file")
      /\ fst (KnowledgeView_post svc request2 w)
         = Return (mkResponse 400 "Please upload a txt file")).
Proof.
  intros Hv1 Hv2 Hascii Hname.
  assert (Hext : ing_extension svc d2 = ing_extension svc d1).
  { unfold ing_extension.
    pose proof (PyStrFacts.splitext_ext_isascii _ Hascii) as He.
    rewrite Hname, (PyStrFacts.lower_isascii _ _ Hascii).
    rewrite PyStrFacts.splitext_ext_lower.
    rewrite !PyStrFacts.lower_isascii
      by (rewrite ?PyStrFacts.ascii_lower_isascii; exact He).
    apply PyStrFacts.ascii_lower_idem. }
  split; [exact Hext|]. intros Hno.
  rewrite (KnowledgeView_post_extension_refused svc request1 d1 w Hv1 Hno).
  rewrite (KnowledgeView_post_extension_refused svc request2 d2 w Hv2)
    by (rewrite Hext; exact Hno).
  split; reflexivity.
Qed.

(** X17. An upload whose file name has no dot has the empty extension,
    and is refused as "Please upload a txt file" unless the empty string
    is itself among the accepted extensions. *)
Theorem X17_name_without_dot_is_refused {Vector Score}
    (svc : Services Vector Score) (request : Request) (d : CreateData) (w : World) :
  KnowledgeCreateSerializer svc request = inr d ->
  contains "." (file_name (cd_file d)) = false ->
  EmptyString ∉ DOC_EXTENSIONS svc ->
  ing_extension svc d = EmptyString
  /\ fst (KnowledgeView_post svc request w)
     = Return (mkResponse 400 "Please upload a txt file").
Proof.
  intros Hv Hdot Hno.
  assert (Hext : ing_extension svc d = EmptyString).
  { unfold ing_extension. rewrite (PyStrFacts.splitext_ext_no_dot _ Hdot). reflexivity. }
  split; [exact Hext|].
  rewrite (KnowledgeView_post_extension_refused svc request d w Hv)
    by (rewrite Hext; exact Hno).
  reflexivity.
Qed.

(** ** Ingestion, all paths *)

Ltac grown :=
  first [ exists []; split; [rewrite app_nil_r; reflexivity | simpl; lia]
        | eexists; split; [reflexivity | simpl; lia] ].

Ltac grown_any :=
  first [ exists []; rewrite app_nil_r; reflexivity | eexists; reflexivity ].

Ltac ingest_stores_done w :=
  let E := fresh "E" in
  intros E; injection E as <- <-; run_norm; fold_world w;
  (split; [grown|]); (split; [grown_any|]); (split; [grown|]);
  (split; [first [left; reflexivity | right; eexists; reflexivity]|]);
  reflexivity.

(** What an ingestion can have done to the stores when it is over,
    whatever the request and whatever failed: rows and blobs are only
    added. *)
Lemma KnowledgeView_post_stores {Vector Score} (svc : Services Vector Score)
    (request : Request) (w : World) :
  let run := KnowledgeView_post svc request w in
  (exists cs, pg_collection (snd run) = pg_collection w ++ cs /\ length cs <= 1)
  /\ (exists es, pg_embedding (snd run) = pg_embedding w ++ es)
  /\ (exists ks, knowledge_tbl (snd run) = knowledge_tbl w ++ ks /\ length ks <= 1)
  /\ (bucket (snd run) = bucket w
      \/ exists b, bucket (snd run) = {[b]} ∪ bucket w)
  /\ redis (snd run) = redis w.
Proof.
  intros run. subst run.
  destruct (KnowledgeView_post svc request w) as [r w'] eqn:E. cbn [fst snd].
  revert E.
  destruct (KnowledgeCreateSerializer svc request) as [m|d] eqn:Hv.
  { rewrite (KnowledgeView_post_invalid svc request m w Hv). ingest_stores_done w. }
  run_norm. rewrite Hv. run_norm.
  repeat (first [ rewrite lookup_insert_eq
                | rewrite lookup_empty
                | match goal with
                  | |- context [bool_decide (?x ∈ {[?x]} ∪ ?X)] =>
                      rewrite (bool_decide_eq_true_2 (x ∈ {[x]} ∪ X)) by set_solver
                  end
                | path_split ];
          run_norm).
  all: ingest_stores_done w.
Qed.

(** X6. Whatever the request and whatever fails on the way, an ingestion
    only adds: every catalog row, chunk, knowledge row and blob that was
    there before is there afterwards, at most one catalog row and at most
    one knowledge row are new, and the chat history is not touched. *)
Theorem X6_ingestion_only_adds {Vector Score} (svc : Services Vector Score)
    (request : Request) (w : World) :
  let run := KnowledgeView_post svc request w in
  (forall c, In c (pg_collection w) -> In c (pg_collection (snd run)))
  /\ (forall r, In r (pg_embedding w) -> In r (pg_embedding (snd run)))
  /\ (forall k, In k (knowledge_tbl w) -> In k (knowledge_tbl (snd run)))
  /\ (forall b, b ∈ bucket w -> b ∈ bucket (snd run))
  /\ length (pg_collection (snd run)) <= S (length (pg_collection w))
  /\ length (knowledge_tbl (snd run)) <= S (length (knowledge_tbl w))
  /\ redis (snd run) = redis w.
Proof.
  intros run.
  destruct (KnowledgeView_post_stores svc request w)
    as ((cs & Ec & Hcs) & (es & Ee) & (ks & Ek & Hks) & Hb & Hr).
  fold run in Ec, Ee, Ek, Hb, Hr.
  split; [intros c Hin; rewrite Ec; apply in_or_app; now left|].
  split; [intros r Hin; rewrite Ee; apply in_or_app; now left|].
  split; [intros k Hin; rewrite Ek; apply in_or_app; now left|].
  split.
  { intros b Hin. destruct Hb as [E|[b' E]]; rewrite E; [exact Hin|].
    clear - Hin. set_solver. }
  split; [rewrite Ec, List.length_app; lia|].
  split; [rewrite Ek, List.length_app; lia|].
  exact Hr.
Qed.

(** ** The properties above at work on the sample data *)

Lemma X1_ingestion_creates_one_collection_witness :
  pg_collection (snd (KnowledgeView_post (Demo.services Demo.no_fault)
                        (Demo.upload_of "todo.txt") Demo.library))
  = pg_collection Demo.library ++ [mkCollection "uuid-5" "langchain_tok4"].
Proof.
  refine (proj1 (proj2 (X1_ingestion_creates_one_collection
                          (Demo.services Demo.no_fault) (Demo.upload_of "todo.txt")
                          Scenarios.todo ["body of tmp/tok4/todo.txt"] Demo.library
                          _ _ _ _ _))).
  - vm_compute. reflexivity.
  - refine (bool_decide_unpack _ _). vm_compute. exact I.
  - vm_compute. reflexivity.
  - vm_compute. reflexivity.
  - intros ev. reflexivity.
Defined.

Lemma X2_refused_extension_has_no_effect_witness :
  fst (KnowledgeView_post (Demo.services Demo.no_fault)
         (Demo.upload_of "setup.exe") Demo.library)
  = Return (mkResponse 400 "Please upload a txt file").
Proof.
  refine (proj1 (X2_refused_extension_has_no_effect
                   (Demo.services Demo.no_fault) (Demo.upload_of "setup.exe")
                   (mkCreateData (mkFile "setup.exe" "hello") "sk-1") Demo.library _ _)).
  - vm_compute. reflexivity.
  - intros Hin. apply (bool_decide_pack _) in Hin. vm_compute in Hin. exact Hin.
Defined.

Lemma X3_store_failure_leaves_blob_witness :
  fst (KnowledgeView_post (Demo.services Scenarios.store_write_fails)
         (Demo.upload_of "todo.txt") Demo.library)
  = Return (mkResponse 500 "could not connect to server").
Proof.
  refine (proj1 (X3_store_failure_leaves_blob
                   (Demo.services Scenarios.store_write_fails)
                   (Demo.upload_of "todo.txt") Scenarios.todo
                   ["body of tmp/tok4/todo.txt"] "could not connect to server"
                   Demo.library _ _ _ _ _ _ _ _));
    try (vm_compute; reflexivity).
  refine (bool_decide_unpack _ _). vm_compute. exact I.
Defined.

Lemma X4_final_cleanup_failure_raises_witness :
  fst (KnowledgeView_post (Demo.services Scenarios.cleanup_fails)
         (Demo.upload_of "todo.txt") Demo.library)
  = Raise (Exception "[Errno 13] Permission denied").
Proof.
  refine (proj1 (X4_final_cleanup_failure_raises
                   (Demo.services Scenarios.cleanup_fails)
                   (Demo.upload_of "todo.txt") Scenarios.todo
                   ["body of tmp/tok4/todo.txt"] "[Errno 13] Permission denied"
                   Demo.library _ _ _ _ _ _ _ _ _ _ _));
    try (vm_compute; reflexivity).
  refine (bool_decide_unpack _ _). vm_compute. exact I.
Defined.

Lemma X5_extension_check_ignores_case_witness :
  ing_extension (Demo.services Demo.no_fault)
    (mkCreateData (mkFile "notes.txt" "hello") "sk-1")
  = ing_extension (Demo.services Demo.no_fault)
      (mkCreateData (mkFile "Notes.TXT" "hello") "sk-1").
Proof.
  refine (proj1 (X5_extension_check_ignores_case (Demo.services Demo.no_fault)
                   (Demo.upload_of "Notes.TXT") (Demo.upload_of "notes.txt")
                   (mkCreateData (mkFile "Notes.TXT" "hello") "sk-1")
                   (mkCreateData (mkFile "notes.txt" "hello") "sk-1")
                   Demo.library _ _ _ _));
    vm_compute; reflexivity.
Defined.

Lemma X7_delete_unknown_reference_witness :
  fst (KnowledgeView_delete (Demo.services Demo.no_fault)
         (Demo.removal_of Scenarios.todo_url) Demo.library)
  = Return (mkResponse 500 "Knowledge matching query does not exist.").
Proof.
  refine (proj1 (X7_delete_unknown_reference (Demo.services Demo.no_fault)
                   (Demo.removal_of Scenarios.todo_url)
                   (mkDeleteData Scenarios.todo_url "sk-3")
                   "Knowledge matching query does not exist." Demo.library _ _));
    vm_compute; reflexivity.
Defined.

Lemma X8_delete_stale_collection_witness :
  fst (KnowledgeView_delete (Demo.services Demo.no_fault)
         (Demo.removal_of Demo.notes_url) Scenarios.stale_library)
  = Return (mkResponse 500 "Collection matching query does not exist.")
  /\ knowledge_tbl (snd (KnowledgeView_delete (Demo.services Demo.no_fault)
                           (Demo.removal_of Demo.notes_url) Scenarios.stale_library))
     = knowledge_tbl Scenarios.stale_library.
Proof.
  destruct (X8_delete_stale_collection (Demo.services Demo.no_fault)
              (Demo.removal_of Demo.notes_url) (mkDeleteData Demo.notes_url "sk-3")
              (mkKnowledge Demo.notes_url "uuid-7")
              "Collection matching query does not exist." Scenarios.stale_library)
    as (Hr & _ & _ & Hk & _); try (vm_compute; reflexivity).
  split; [exact Hr | exact Hk].
Defined.

Lemma X10_delete_twice_witness :
  fst (KnowledgeView_delete (Demo.services Demo.no_fault) (Demo.removal_of Demo.notes_url)
         (snd (KnowledgeView_delete (Demo.services Demo.no_fault)
                 (Demo.removal_of Demo.notes_url) Demo.library)))
  = Return (mkResponse 500 "Knowledge matching query does not exist.").
Proof.
  refine (proj1 (X10_delete_twice (Demo.services Demo.no_fault)
                   (Demo.removal_of Demo.notes_url) Demo.library _)).
  vm_compute. reflexivity.
Defined.

Lemma X11_ingest_then_delete_round_trip_witness :
  pg_collection
    (snd (KnowledgeView_delete (Demo.services Demo.no_fault)
            (Demo.removal_of Scenarios.todo_url)
            (snd (KnowledgeView_post (Demo.services Demo.no_fault)
                    (Demo.upload_of "todo.txt") Demo.library))))
  = pg_collection Demo.library.
Proof.
  refine (proj1 (proj2 (proj2
            (X11_ingest_then_delete_round_trip (Demo.services Demo.no_fault)
               (Demo.upload_of "todo.txt") (Demo.removal_of Scenarios.todo_url)
               Scenarios.todo (mkDeleteData Scenarios.todo_url "sk-3")
               ["body of tmp/tok4/todo.txt"] Demo.library
               _ _ _ _ _ _ _ _ _ _ _ _))));
    try (vm_compute; reflexivity).
  - refine (bool_decide_unpack _ _). vm_compute. exact I.
  - intros Hin. apply (bool_decide_pack _) in Hin. vm_compute in Hin. exact Hin.
Defined.


(** A question of session "s1" whose answer cannot be written to the
    store: the caller gets the answer, and the log ends with the
    question. *)
Example history_half_written :
  let run := KnowledgeRetrieveView_post (Demo.services Scenarios.answer_write_fails)
               (Demo.ask "s1" "What is X?") Demo.library in
  fst run = Return (mkResponse 200 "re: What is X?")
  /\ stored "s1" (redis (snd run))
     = [HumanMessage "Hi"; AIMessage "re: Hi"; HumanMessage "What is X?"].
Proof.
  cbv zeta. split; vm_compute; reflexivity.
Qed.

Lemma X16_empty_retrieval_is_answered_witness :
  fst (KnowledgeRetrieveView_post (Demo.services Demo.no_fault)
         (Demo.ask "s2" "What?") Scenarios.empty_collection)
  = Return (mkResponse 200 "re: What?").
Proof.
  refine (proj2 (X16_empty_retrieval_is_answered (Demo.services Demo.no_fault)
                   (Demo.ask "s2" "What?") (Demo.asked "s2" "What?")
                   Scenarios.empty_collection
                   [EvSetEnv "OPENAI_API_KEY" "sk-2"; EvHaveEmbeddings;
                    EvEmbed "What?"; EvTop3; EvMostSimilar ["uuid-9"];
                    EvCollectionGet "uuid-9"; EvHistoryRead "s2";
                    EvContextualize "What?" false;
                    EvRetrieve "langchain_empty" "What?";
                    EvSynthesize
                      [SystemMessage "Answer from the context. ";
                       HumanMessage "What?"];
                    EvHistoryAdd "s2" (HumanMessage "What?");
                    EvHistoryAdd "s2" (AIMessage "re: What?")]
                   "langchain_empty" "What?" _ _ _ _)).
  - vm_compute. reflexivity.
  - vm_compute. reflexivity.
  - simpl. tauto.
  - vm_compute. reflexivity.
Defined.

Lemma X17_name_without_dot_is_refused_witness :
  fst (KnowledgeView_post (Demo.services Demo.no_fault)
         (Demo.upload_of "README") Demo.library)
  = Return (mkResponse 400 "Please upload a txt file").
Proof.
  refine (proj2 (X17_name_without_dot_is_refused (Demo.services Demo.no_fault)
                   (Demo.upload_of "README")
                   (mkCreateData (mkFile "README" "hello") "sk-1") Demo.library _ _ _)).
  - vm_compute. reflexivity.
  - vm_compute. reflexivity.
  - intros Hin. apply (bool_decide_pack _) in Hin. vm_compute in Hin. exact Hin.
Defined.

Lemma X18_invalid_upload_raises_witness :
  fst (KnowledgeView_post (Demo.services Demo.no_fault)
         (Demo.request [("openai_api_key", "sk-1")] None) Demo.library)
  = Raise (UnboundLocalError "tmp_storage_path").
Proof.
  refine (proj1 (X18_invalid_upload_raises (Demo.services Demo.no_fault)
                   (Demo.request [("openai_api_key", "sk-1")] None)
                   "This field is required." Demo.library _)).
  vm_compute. reflexivity.
Defined.
